(** * A website text scraper: breadth-first crawl with visited-set and
    content-hash deduplication (website_scraper.py).

    The crawl engine of [WebsiteScraper] is embedded as explicit state
    passing.  The libraries the scraper calls (urllib.parse, requests,
    bs4, hashlib) are an interface, [Externals]; the general results hold
    for every implementation of it, and a small concrete web is used to
    run the crawl on examples. *)

From Stdlib Require Import ZArith Ascii String List Lia.
From stdpp Require Import base option list relations gmap sets strings pretty.

(** ** Python [str] operations used by the scraper.

    A Python string is modelled by a Rocq [string] whose characters are
    the code points below 256. *)
Module PyStr.

Definition LF : ascii := ascii_of_nat 10.
Definition CR : ascii := ascii_of_nat 13.
Definition nl : string := String LF EmptyString.

(** [bool(s)]: a string is truthy when it is not empty. *)
Definition truthy (s : string) : bool :=
  match s with EmptyString => false | String _ _ => true end.

(** [c.isspace()] on the code points below 256. *)
Definition isspace (c : ascii) : bool :=
  let n := N_of_ascii c in
  ((9 <=? n) && (n <=? 13) || (28 <=? n) && (n <=? 32)
   || (n =? 133) || (n =? 160))%N.

Fixpoint lstrip (s : string) : string :=
  match s with
  | EmptyString => EmptyString
  | String c s' => if isspace c then lstrip s' else s
  end.

Fixpoint rstrip (s : string) : string :=
  match s with
  | EmptyString => EmptyString
  | String c s' =>
      let r := rstrip s' in
      if isspace c && negb (truthy r) then EmptyString else String c r
  end.

(** [s.strip()] *)
Definition strip (s : string) : string := lstrip (rstrip s).

(** [c.lower()] on the code points below 256: the ASCII capitals and the
    Latin-1 capitals (U+00C0..U+00DE without the multiplication sign). *)
Definition lower_char (c : ascii) : ascii :=
  let n := N_of_ascii c in
  if ((65 <=? n) && (n <=? 90)
      || (192 <=? n) && (n <=? 222) && negb (n =? 215))%N
  then ascii_of_N (n + 32) else c.

(** [s.lower()] *)
Fixpoint lower (s : string) : string :=
  match s with
  | EmptyString => EmptyString
  | String c s' => String (lower_char c) (lower s')
  end.

(** [s.startswith(p)] *)
Definition startswith (p s : string) : bool := String.prefix p s.

(** [sub in s] *)
Fixpoint contains (sub s : string) : bool :=
  String.prefix sub s
  || match s with
     | EmptyString => false
     | String _ s' => contains sub s'
     end.

Definition snoc (s : string) (c : ascii) : string :=
  String.append s (String c EmptyString).

(** Line boundaries of [str.splitlines] among the code points below 256. *)
Definition is_linebreak (c : ascii) : bool :=
  let n := N_of_ascii c in
  ((10 <=? n) && (n <=? 13) || (28 <=? n) && (n <=? 30) || (n =? 133))%N.

(** [after_cr]: the previous character was a carriage return, so a line
    feed here belongs to the same boundary. *)
Fixpoint splitlines_go (after_cr : bool) (cur s : string) : list string :=
  match s with
  | EmptyString => if truthy cur then [cur] else []
  | String c s' =>
      if after_cr && Ascii.eqb c LF then splitlines_go false cur s'
      else if is_linebreak c then cur :: splitlines_go (Ascii.eqb c CR) EmptyString s'
      else splitlines_go false (snoc cur c) s'
  end.

(** [s.splitlines()] *)
Definition splitlines (s : string) : list string :=
  splitlines_go false EmptyString s.

(** [skip]: characters of a separator just matched that are still to be
    passed over. *)
Fixpoint split_go (sep : string) (skip : nat) (cur s : string) : list string :=
  match s with
  | EmptyString => [cur]
  | String c s' =>
      match skip with
      | S k => split_go sep k cur s'
      | O =>
          if String.prefix sep s
          then cur :: split_go sep (String.length sep - 1) EmptyString s'
          else split_go sep 0 (snoc cur c) s'
      end
  end.

(** [s.split(sep)] for a separator that is not empty. *)
Definition split (sep s : string) : list string :=
  split_go sep 0 EmptyString s.

(** [sep.join(l)] *)
Fixpoint join (sep : string) (l : list string) : string :=
  match l with
  | [] => EmptyString
  | [x] => x
  | x :: l' => String.append x (String.append sep (join sep l'))
  end.

End PyStr.

(** ** Data model *)

(** The six components of [urllib.parse.ParseResult]. *)
Record ParseResult := mkParseResult {
  scheme : string;
  netloc : string;
  path : string;
  params : string;
  query : string;
  fragment : string }.

(** [parsed._replace(query=q, fragment=f)] *)
Definition replace_query_fragment (parsed : ParseResult) (q f : string) : ParseResult :=
  {| scheme := scheme parsed; netloc := netloc parsed; path := path parsed;
     params := params parsed; query := q; fragment := f |}.

(** What the scraper reads of a [requests.Response]: the status code, the
    Content-Type header when there is one, and the decoded body. *)
Record Response := mkResponse {
  status_code : Z;
  content_type : option string;
  text : string }.

(** [response.raise_for_status()] raises [HTTPError] for the client and
    server error codes, 400 to 599, and for no other status. *)
Definition raises_for_status (response : Response) : bool :=
  bool_decide (400 ≤ status_code response < 600)%Z.

(** The libraries the scraper calls.  A call that can raise returns an
    [option], [None] standing for the exception.
    - urllib.parse: [urlparse] and [urljoin] raise [ValueError] on some
      malformed authorities; [urlunparse] puts six components together.
    - requests: [requests_get url headers timeout] raises on a timeout or a
      network error.
    - bs4: [BeautifulSoup] parses a body; [find_all names soup] is
      [soup(names)]; [decompose] removes an element from the tree it
      belongs to; [get_text sep soup] is [soup.get_text(separator=sep)];
      [find_all_a_href soup] is [soup.find_all('a', href=True)] and
      [tag_href anchor] is [anchor['href']].
    - hashlib: [md5_hexdigest s] is [md5(s.encode('utf-8')).hexdigest()];
      it has a value for every string of the model, whose code points,
      below 256, utf-8 always encodes (a text with a lone surrogate, on
      which [encode] raises [UnicodeEncodeError], is not a string of the
      model, and the model has no such exception). *)
Class Externals := {
  urlparse : string → option ParseResult;
  urlunparse : ParseResult → string;
  urljoin : string → string → option string;
  requests_get : string → list (string * string) → Z → option Response;
  Soup : Type;
  Tag : Type;
  BeautifulSoup : string → option Soup;
  find_all : list string → Soup → list Tag;
  decompose : Tag → Soup → Soup;
  get_text : string → Soup → string;
  find_all_a_href : Soup → list Tag;
  tag_href : Tag → string;
  md5_hexdigest : string → string }.

(** The fields of a [WebsiteScraper] object; [headers] is the constant
    below. *)
Record WebsiteScraper := mkWebsiteScraper {
  base_url : string;
  domain : string;
  visited_urls : gset string;
  text_hashes : gset string;
  text_content : list string;
  max_pages : Z }.

Definition headers : list (string * string) :=
  [("User-Agent"%string,
    "Mozilla/5.0 (Macintosh; Intel Mac OS X 10_15_7) AppleWebKit/537.36 (KHTML, like Gecko) Chrome/91.0.4472.114 Safari/537.36"%string)].

(** What the crawl does to the outside world, in order: a page request and
    the pause between requests. *)
Inductive event :=
| Fetch (url : string)
| Sleep.

(** The state of [scrape_website]'s loop: the object, the local list
    [urls_to_visit], and the events so far. *)
Record crawl := mkCrawl {
  scraper : WebsiteScraper;
  urls_to_visit : list string;
  trace : list event }.

(** One evaluation of the loop: the condition is false, an exception
    leaves the method, or the body ran (also when it ran into
    [continue]). *)
Inductive outcome :=
| Halt
| Raise
| Next (st : crawl).

Inductive result :=
| Finished (st : crawl)
| Raised (st : crawl).

(** ** The scraper *)
Section scraper.
Context {E : Externals}.

(** [WebsiteScraper.__init__] *)
Definition __init__ (base_url : string) (max_pages : Z) : option WebsiteScraper :=
  parsed ← urlparse base_url;
  Some {| base_url := base_url; domain := netloc parsed;
          visited_urls := ∅; text_hashes := ∅; text_content := [];
          max_pages := max_pages |}.

Definition normalize_url (url : string) : option string :=
  parsed ← urlparse url;
  Some (urlunparse (replace_query_fragment parsed "" "")).

Definition is_valid_url (self : WebsiteScraper) (url : string) : option bool :=
  parsed ← urlparse url;
  Some (PyStr.truthy (netloc parsed) && bool_decide (netloc parsed = domain self)).

(** The body of the loop of [get_all_links], for the anchors left and the
    list [links] so far. *)
Fixpoint get_all_links_from (self : WebsiteScraper) (page_url : string)
    (anchors : list Tag) (links : list string) : option (list string) :=
  match anchors with
  | [] => Some links
  | anchor :: anchors' =>
      let link := tag_href anchor in
      link ← (if negb (PyStr.startswith "http" link) then urljoin page_url link
              else Some link);
      normalized ← normalize_url link;
      valid ← is_valid_url self normalized;
      get_all_links_from self page_url anchors'
        (if valid && bool_decide (normalized ∉ visited_urls self)
         then links ++ [normalized] else links)
  end.

Definition get_all_links (self : WebsiteScraper) (soup : Soup) (page_url : string)
    : option (list string) :=
  get_all_links_from self page_url (find_all_a_href soup) [].

(** [extract_text] changes the tree it is given: the result is the tree
    after the elements were removed, and the text. *)
Definition extract_text (soup : Soup) : Soup * string :=
  let soup :=
    fold_left (λ soup script_or_style, decompose script_or_style soup)
      (find_all ["script"; "style"; "header"; "footer"; "nav"] soup) soup in
  let text := get_text " " soup in
  let lines := map PyStr.strip (PyStr.splitlines text) in
  let chunks :=
    flat_map (λ line, map PyStr.strip (PyStr.split "  " line)) lines in
  (soup, PyStr.join PyStr.nl (filter (λ chunk, PyStr.truthy chunk = true) chunks)).

(** The [try] block of [scrape_page]; [None] is an exception raised in
    it. *)
Definition scrape_page_try (self : WebsiteScraper) (url : string)
    : option (list string * string) :=
  response ← requests_get url headers 10;
  if raises_for_status response then None
  else if negb (PyStr.contains "text/html"
                  (PyStr.lower (default "" (content_type response))))
  then Some ([], "")
  else
    soup ← BeautifulSoup (text response);
    let '(soup, text) := extract_text soup in
    links ← get_all_links self soup url;
    Some (links, text).

Definition scrape_page (self : WebsiteScraper) (url : string) : list string * string :=
  default ([], "") (scrape_page_try self url).

Definition page_content (normalized_url text : string) : string :=
  PyStr.nl +:+ PyStr.nl +:+ "=== " +:+ normalized_url +:+ " ===" +:+ PyStr.nl +:+ text.

Definition add_visited (self : WebsiteScraper) (normalized_url : string) : WebsiteScraper :=
  {| base_url := base_url self; domain := domain self;
     visited_urls := {[normalized_url]} ∪ visited_urls self;
     text_hashes := text_hashes self; text_content := text_content self;
     max_pages := max_pages self |}.

Definition add_page (self : WebsiteScraper) (content_hash page : string) : WebsiteScraper :=
  {| base_url := base_url self; domain := domain self;
     visited_urls := visited_urls self;
     text_hashes := {[content_hash]} ∪ text_hashes self;
     text_content := text_content self ++ [page];
     max_pages := max_pages self |}.

(** The loop of [scrape_website]: its condition and one run of its
    body. *)
Definition loop_body (st : crawl) : outcome :=
  let self := scraper st in
  match urls_to_visit st with
  | [] => Halt
  | url :: rest =>
      if bool_decide (Z.of_nat (size (visited_urls self)) < max_pages self)%Z then
        match normalize_url url with
        | None => Raise
        | Some normalized_url =>
            if bool_decide (normalized_url ∈ visited_urls self)
            then Next (mkCrawl self rest (trace st))
            else
              let self := add_visited self normalized_url in
              let '(links, text) := scrape_page self url in
              let events := trace st ++ [Fetch url] in
              if negb (PyStr.truthy (PyStr.strip text))
              then Next (mkCrawl self rest events)
              else
                let content_hash := md5_hexdigest text in
                if bool_decide (content_hash ∈ text_hashes self)
                then Next (mkCrawl self rest events)
                else
                  Next (mkCrawl
                          (add_page self content_hash (page_content normalized_url text))
                          (rest ++ links) (events ++ [Sleep]))
        end
      else Halt
  end.

(** [scrape_website] starts from the seed alone. *)
Definition start (self : WebsiteScraper) : crawl :=
  mkCrawl self [base_url self] [].

Fixpoint scrape_website_fuel (fuel : nat) (st : crawl) : option result :=
  match fuel with
  | O => None
  | S fuel =>
      match loop_body st with
      | Halt => Some (Finished st)
      | Raise => Some (Raised st)
      | Next st' => scrape_website_fuel fuel st'
      end
  end.

Definition step (st st' : crawl) : Prop := loop_body st = Next st'.

(** [scrape_website] as a relation between the state it starts in and
    the way it ends. *)
Definition scrape_website (st : crawl) (r : result) : Prop :=
  ∃ st', rtc step st st' ∧
    (loop_body st' = Halt ∧ r = Finished st' ∨ loop_body st' = Raise ∧ r = Raised st').

End scraper.

(** ** A model of [urllib.parse]

    The generic URL syntax as [urlsplit], [urlparse], [urlunparse] and
    [urljoin] of CPython 3.11 treat it, on strings of code points below
    256.  Two checks of the library are left out: the validation of a
    bracketed IP literal by [ipaddress] (an authority with both brackets
    is taken as it is), and the NFKC check of the authority, which no
    code point below 256 fails. *)
Module Urllib.

Definition uses_relative : list string :=
  [""; "ftp"; "http"; "gopher"; "nntp"; "imap"; "wais"; "file"; "https";
   "shttp"; "mms"; "prospero"; "rtsp"; "rtspu"; "sftp"; "svn"; "svn+ssh";
   "ws"; "wss"].

Definition uses_netloc : list string :=
  [""; "ftp"; "http"; "gopher"; "nntp"; "telnet"; "imap"; "wais"; "file";
   "mms"; "https"; "shttp"; "snews"; "prospero"; "rtsp"; "rtspu"; "rsync";
   "svn"; "svn+ssh"; "sftp"; "nfs"; "git"; "git+ssh"; "ws"; "wss"].

Definition uses_params : list string :=
  [""; "ftp"; "hdl"; "prospero"; "http"; "imap"; "https"; "shttp"; "rtsp";
   "rtspu"; "sip"; "sips"; "mms"; "sftp"; "tel"].

Definition mem (s : string) (l : list string) : bool := bool_decide (s ∈ l).

Definition is_alpha (c : ascii) : bool :=
  let n := N_of_ascii c in
  ((65 <=? n) && (n <=? 90) || (97 <=? n) && (n <=? 122))%N.

Definition is_digit (c : ascii) : bool :=
  let n := N_of_ascii c in ((48 <=? n) && (n <=? 57))%N.

(** [c in scheme_chars] *)
Definition scheme_char (c : ascii) : bool :=
  is_alpha c || is_digit c
  || Ascii.eqb c "+" || Ascii.eqb c "-" || Ascii.eqb c ".".

Fixpoint all_chars (f : ascii → bool) (s : string) : bool :=
  match s with
  | EmptyString => true
  | String c s' => f c && all_chars f s'
  end.

Fixpoint has_char (c : ascii) (s : string) : bool :=
  match s with
  | EmptyString => false
  | String d s' => Ascii.eqb c d || has_char c s'
  end.

Fixpoint remove_chars (f : ascii → bool) (s : string) : string :=
  match s with
  | EmptyString => EmptyString
  | String c s' => if f c then remove_chars f s' else String c (remove_chars f s')
  end.

(** [url.lstrip(_WHATWG_C0_CONTROL_OR_SPACE)] *)
Fixpoint lstrip_c0 (s : string) : string :=
  match s with
  | EmptyString => EmptyString
  | String c s' => if (N_of_ascii c <=? 32)%N then lstrip_c0 s' else s
  end.

(** The text before and after the first character that satisfies [f];
    [None] when there is none. *)
Fixpoint break_at (f : ascii → bool) (s : string) : option (string * string) :=
  match s with
  | EmptyString => None
  | String c s' =>
      if f c then Some (EmptyString, s')
      else '(a, b) ← break_at f s'; Some (String c a, b)
  end.

(** The text before the first character that satisfies [f], and the text
    from that character on. *)
Fixpoint span_until (f : ascii → bool) (s : string) : string * string :=
  match s with
  | EmptyString => (EmptyString, EmptyString)
  | String c s' =>
      if f c then (EmptyString, s)
      else let '(a, b) := span_until f s' in (String c a, b)
  end.

(** The text up to and with the last ["/"], and the text after it. *)
Fixpoint rsplit_slash (s : string) : string * string :=
  match s with
  | EmptyString => (EmptyString, EmptyString)
  | String c s' =>
      let '(a, b) := rsplit_slash s' in
      if PyStr.truthy a || Ascii.eqb c "/" then (String c a, b)
      else (EmptyString, String c b)
  end.

(** The scheme of a URL and what follows its colon, when the text before
    the first colon is a scheme name; otherwise no scheme and the URL. *)
Definition split_scheme (url : string) : string * string :=
  match break_at (Ascii.eqb ":") url with
  | Some (String c0 s0, rest) =>
      if is_alpha c0 && all_chars scheme_char (String c0 s0)
      then (PyStr.lower (String c0 s0), rest)
      else (EmptyString, url)
  | _ => (EmptyString, url)
  end.

Definition netloc_delim (c : ascii) : bool :=
  Ascii.eqb c "/" || Ascii.eqb c "?" || Ascii.eqb c "#".

(** [_splitnetloc(url, 2)] for a URL that starts with two slashes. *)
Definition split_netloc (url : string) : option (string * string) :=
  match url with
  | String "/" (String "/" rest) => Some (span_until netloc_delim rest)
  | _ => None
  end.

(** The path, query and fragment that [urlsplit] makes of what follows
    the authority: the fragment is cut off at the first ["#"], then the
    query at the first ["?"]. *)
Definition split_tail (url : string) : string * string * string :=
  let '(url, fragment) :=
    default (url, EmptyString) (break_at (Ascii.eqb "#") url) in
  let '(url, query) :=
    default (url, EmptyString) (break_at (Ascii.eqb "?") url) in
  (url, query, fragment).

(** The (scheme, netloc, path, query, fragment) of
    [urlsplit(url, scheme)], where [scheme] is the scheme of a URL that
    names none; [None] is its [ValueError]. *)
Definition urlsplit (url scheme : string)
    : option (string * string * string * string * string) :=
  let url := lstrip_c0 url in
  let url := remove_chars (λ c, (N_of_ascii c =? 9)%N || (N_of_ascii c =? 13)%N
                                || (N_of_ascii c =? 10)%N) url in
  let '(scheme, url) :=
    let '(found, rest) := split_scheme url in
    if PyStr.truthy found then (found, rest) else (scheme, url) in
  '(netloc, url) ←
    match split_netloc url with
    | Some (netloc, rest) =>
        if xorb (has_char "[" netloc) (has_char "]" netloc) then None
        else Some (netloc, rest)
    | None => Some (EmptyString, url)
    end;
  let '(url, query, fragment) := split_tail url in
  Some (scheme, netloc, url, query, fragment).

(** [_splitparams(url)] *)
Definition splitparams (url : string) : string * string :=
  let '(dir, last) := rsplit_slash url in
  match break_at (Ascii.eqb ";") last with
  | Some (a, b) => (String.append dir a, b)
  | None => (url, EmptyString)
  end.

(** [urlparse(url, scheme)] *)
Definition urlparse_scheme (url scheme : string) : option ParseResult :=
  '(scheme, netloc, url, query, fragment) ← urlsplit url scheme;
  let '(url, params) :=
    if mem scheme uses_params && has_char ";" url then splitparams url
    else (url, EmptyString) in
  Some (mkParseResult scheme netloc url params query fragment).

(** [urlparse(url)] *)
Definition urlparse (url : string) : option ParseResult :=
  urlparse_scheme url EmptyString.

Definition starts_with_slashes (n : nat) (url : string) : bool :=
  String.prefix (String.concat EmptyString (replicate n "/"%string)) url.

Definition urlunsplit (scheme netloc url query fragment : string) : string :=
  let url :=
    if PyStr.truthy netloc
       || PyStr.truthy scheme && mem scheme uses_netloc
          && negb (starts_with_slashes 2 url)
    then
      let url :=
        if PyStr.truthy url && negb (starts_with_slashes 1 url)
        then String.append "/" url else url in
      String.append "//" (String.append netloc url)
    else url in
  let url := if PyStr.truthy scheme
             then String.append scheme (String.append ":" url) else url in
  let url := if PyStr.truthy query
             then String.append url (String.append "?" query) else url in
  if PyStr.truthy fragment
  then String.append url (String.append "#" fragment) else url.

Definition urlunparse (components : ParseResult) : string :=
  let url :=
    if PyStr.truthy (params components)
    then String.append (path components) (String.append ";" (params components))
    else path components in
  urlunsplit (scheme components) (netloc components) url
    (query components) (fragment components).

(** The loop of [urljoin] over the path segments: [".."] drops the last
    segment kept so far, ["."] is passed over. *)
Definition resolve_segments (segments : list string) : list string :=
  fold_left
    (λ resolved seg,
       if String.eqb seg ".." then removelast resolved
       else if String.eqb seg "." then resolved
       else resolved ++ [seg])
    segments [].

(** [segments[1:-1] = filter(None, segments[1:-1])] *)
Definition drop_empty_inner (segments : list string) : list string :=
  match segments with
  | [] => []
  | first :: others =>
      match others with
      | [] => [first]
      | _ =>
          first :: filter (λ seg, PyStr.truthy seg = true) (removelast others)
            ++ [List.last others EmptyString]
      end
  end.

Definition urljoin (base url : string) : option string :=
  if negb (PyStr.truthy base) then Some url
  else if negb (PyStr.truthy url) then Some base
  else
    b ← urlparse base;
    u ← urlparse_scheme url (scheme b);
    let uscheme := scheme u in
    if negb (String.eqb uscheme (scheme b)) || negb (mem uscheme uses_relative)
    then Some url
    else if mem uscheme uses_netloc && PyStr.truthy (netloc u)
    then Some (urlunparse (mkParseResult uscheme (netloc u) (path u) (params u)
                             (query u) (fragment u)))
    else
      let netloc' := if mem uscheme uses_netloc then netloc b else netloc u in
      if negb (PyStr.truthy (path u)) && negb (PyStr.truthy (params u))
      then Some (urlunparse (mkParseResult uscheme netloc' (path b) (params b)
                               (if PyStr.truthy (query u) then query u else query b)
                               (fragment u)))
      else
        let base_parts := PyStr.split "/" (path b) in
        let base_parts :=
          if PyStr.truthy (List.last base_parts EmptyString)
          then removelast base_parts else base_parts in
        let segments :=
          if starts_with_slashes 1 (path u) then PyStr.split "/" (path u)
          else drop_empty_inner (base_parts ++ PyStr.split "/" (path u)) in
        let resolved := resolve_segments segments in
        let last := List.last segments EmptyString in
        let resolved :=
          if String.eqb last "." || String.eqb last ".."
          then resolved ++ [EmptyString] else resolved in
        let joined := PyStr.join "/" resolved in
        Some (urlunparse (mkParseResult uscheme netloc'
                            (if PyStr.truthy joined then joined else "/")
                            (params u) (query u) (fragment u))).

(** A string with no question mark and no number sign. *)
Definition plain (s : string) : Prop :=
  has_char "?" s = false ∧ has_char "#" s = false.

(** The query and fragment part of a URL: nothing, or a text that starts
    with a question mark or a number sign. *)
Definition query_fragment (s : string) : Prop :=
  match s with
  | EmptyString => True
  | String c _ => c = "?"%char ∨ c = "#"%char
  end.

End Urllib.

(** ** Reading the event trace *)

(** The URLs requested, in order. *)
Fixpoint fetched (events : list event) : list string :=
  match events with
  | [] => []
  | Fetch url :: events' => url :: fetched events'
  | Sleep :: events' => fetched events'
  end.

(** The number of pauses. *)
Fixpoint sleeps (events : list event) : nat :=
  match events with
  | [] => 0
  | Sleep :: events' => S (sleeps events')
  | Fetch _ :: events' => sleeps events'
  end.

(** A string of white space only (the empty string is one). *)
Fixpoint all_space (s : string) : bool :=
  match s with
  | EmptyString => true
  | String c s' => PyStr.isspace c && all_space s'
  end.

Section iterations.
Context {E : Externals}.

(** The state after [n] more runs of the loop body, when the loop goes on
    that long. *)
Fixpoint iterations (n : nat) (st : crawl) : option crawl :=
  match n with
  | O => Some st
  | S n =>
      match loop_body st with
      | Next st' => iterations n st'
      | _ => None
      end
  end.

(** The three ways the body of the loop runs: the URL was visited before;
    the page is visited and dropped (nothing came of the request, the text
    is blank, or the text was seen before); the page is recorded. *)
Inductive iteration (st : crawl) : crawl → Prop :=
| iteration_seen url rest normalized_url :
    urls_to_visit st = url :: rest →
    (Z.of_nat (size (visited_urls (scraper st))) < max_pages (scraper st))%Z →
    normalize_url url = Some normalized_url →
    normalized_url ∈ visited_urls (scraper st) →
    iteration st (mkCrawl (scraper st) rest (trace st))
| iteration_dropped url rest normalized_url links text :
    urls_to_visit st = url :: rest →
    (Z.of_nat (size (visited_urls (scraper st))) < max_pages (scraper st))%Z →
    normalize_url url = Some normalized_url →
    normalized_url ∉ visited_urls (scraper st) →
    scrape_page (add_visited (scraper st) normalized_url) url = (links, text) →
    PyStr.truthy (PyStr.strip text) = false
    ∨ md5_hexdigest text ∈ text_hashes (scraper st) →
    iteration st
      (mkCrawl (add_visited (scraper st) normalized_url) rest
         (trace st ++ [Fetch url]))
| iteration_recorded url rest normalized_url links text :
    urls_to_visit st = url :: rest →
    (Z.of_nat (size (visited_urls (scraper st))) < max_pages (scraper st))%Z →
    normalize_url url = Some normalized_url →
    normalized_url ∉ visited_urls (scraper st) →
    scrape_page (add_visited (scraper st) normalized_url) url = (links, text) →
    PyStr.truthy (PyStr.strip text) = true →
    md5_hexdigest text ∉ text_hashes (scraper st) →
    iteration st
      (mkCrawl
         (add_page (add_visited (scraper st) normalized_url)
            (md5_hexdigest text) (page_content normalized_url text))
         (rest ++ links) ((trace st ++ [Fetch url]) ++ [Sleep])).

(** Invariants of a crawl. *)

(** The visited set is the set of the requested URLs, normalized, and no
    two requests have the same normalized URL. *)
Definition visited_inv (st : crawl) : Prop :=
  ∃ ns, Forall2 (λ url n, normalize_url url = Some n) (fetched (trace st)) ns
    ∧ NoDup ns
    ∧ visited_urls (scraper st) = list_to_set ns.

(** The page blocks are those of a list of (URL, text) records whose
    texts have pairwise distinct hashes, and the hash set holds exactly
    these hashes. *)
Definition records_inv (st : crawl) : Prop :=
  ∃ recs : list (string * string),
    text_content (scraper st) = (λ r, page_content r.1 r.2) <$> recs
    ∧ NoDup (md5_hexdigest <$> recs.*2)
    ∧ text_hashes (scraper st) = list_to_set (md5_hexdigest <$> recs.*2).

(** Every URL of the frontier is one [urlparse] accepts. *)
Definition parseable (st : crawl) : Prop :=
  Forall (λ url, is_Some (urlparse url)) (urls_to_visit st).

End iterations.

(** Case analysis on a run of the loop body [Hi : iteration a b]: the URL
    [u] taken from the frontier [u :: rest], its normalized form [n], and
    for a visited page its [links] and [text]. *)
Ltac iteration_cases Hi :=
  destruct Hi as [u rest n Hq Hb Hn Hv
                 |u rest n links text Hq Hb Hn Hv Hs Hd
                 |u rest n links text Hq Hb Hn Hv Hs Ht Hh].

(** ** A small web to run the crawl on

    The site example.com: what each URL answers, and the document each
    body parses to (its text as [get_text] joins it, and the [href] of
    its anchors in order; no page has a script, style, header, footer or
    nav element).  A URL that is not listed does not answer (a network
    error).  The hash is a stand-in without collisions: the text
    itself. *)
Module Site.

Record Document := mkDocument {
  doc_text : string;
  doc_hrefs : list string }.

Definition html : option string := Some "text/html; charset=utf-8"%string.

Definition home_body : string :=
  "<p>Home</p><a href='https://example.com/a?x=1'></a><a href='https://example.com/a?x=2#top'></a><a href='/b'></a><a href='https://example.com/missing'></a><a href='https://example.com/choices'></a><a href='https://example.com/file.pdf'></a><a href='https://example.com/blank'></a><a href='https://other.org/'></a>".
Definition a_body : string := "<p>Same text</p><a href='https://example.com/c'></a>".
Definition b_body : string := "<p>Same text</p><a href='https://example.com/d'></a>".
Definition blank_body : string := "<p> </p><a href='https://example.com/e'></a>".
Definition c_body : string := "<p>Page c</p><a href='https://example.com'></a>".

Definition responses : list (string * Response) :=
  [("https://example.com"%string, mkResponse 200 html home_body);
   ("https://example.com/a"%string, mkResponse 200 html a_body);
   ("https://example.com/b"%string, mkResponse 200 html b_body);
   ("https://example.com/missing"%string, mkResponse 404 html "<p>Not found</p>");
   ("https://example.com/choices"%string, mkResponse 300 html "<p>Choose</p>");
   ("https://example.com/file.pdf"%string,
    mkResponse 200 (Some "application/pdf"%string) "%PDF-1.4");
   ("https://example.com/blank"%string, mkResponse 200 html blank_body);
   ("https://example.com/c"%string, mkResponse 200 html c_body);
   ("https://example.com/d"%string, mkResponse 200 html "<p>Page d</p>");
   ("https://example.com/e"%string, mkResponse 200 html "<p>Page e</p>")].

Definition documents : list (string * Document) :=
  [(home_body,
    mkDocument "Home"
      ["https://example.com/a?x=1"; "https://example.com/a?x=2#top"; "/b";
       "https://example.com/missing"; "https://example.com/choices";
       "https://example.com/file.pdf"; "https://example.com/blank";
       "https://other.org/"]%string);
   (a_body, mkDocument "Same text" ["https://example.com/c"%string]);
   (b_body, mkDocument "Same text" ["https://example.com/d"%string]);
   ("<p>Not found</p>"%string, mkDocument "Not found" []);
   ("<p>Choose</p>"%string, mkDocument "Choose" []);
   (blank_body, mkDocument " " ["https://example.com/e"%string]);
   (c_body, mkDocument "Page c" ["https://example.com"%string]);
   ("<p>Page d</p>"%string, mkDocument "Page d" []);
   ("<p>Page e</p>"%string, mkDocument "Page e" [])].

Fixpoint lookup {A : Type} (key : string) (table : list (string * A)) : option A :=
  match table with
  | [] => None
  | (k, v) :: table' => if String.eqb key k then Some v else lookup key table'
  end.

Definition web : Externals := {|
  urlparse := Urllib.urlparse;
  urlunparse := Urllib.urlunparse;
  urljoin := Urllib.urljoin;
  requests_get url _ _ := lookup url responses;
  Soup := Document;
  Tag := string;
  BeautifulSoup body := Some (default (mkDocument body []) (lookup body documents));
  find_all _ _ := [];
  decompose _ soup := soup;
  get_text _ soup := doc_text soup;
  find_all_a_href soup := doc_hrefs soup;
  tag_href anchor := anchor;
  md5_hexdigest s := s |}.

(** The scraper for the seed https://example.com and a budget. *)
Definition scraper_for (budget : Z) : WebsiteScraper :=
  {| base_url := "https://example.com"; domain := "example.com";
     visited_urls := ∅; text_hashes := ∅; text_content := [];
     max_pages := budget |}.

(** The state of the crawl of [scraper_for 1000] after [n] runs of the
    loop body (the start, if the loop ends before). *)
Definition after (n : nat) : crawl :=
  default (start (scraper_for 1000))
    (iterations (E := web) n (start (scraper_for 1000))).

End Site.

(** ** The shape of the extracted text

    What [extract_text] leaves of a chunk, as predicates on strings. *)

(** The first character is white space. *)
Definition starts_space (s : string) : bool :=
  match s with
  | EmptyString => false
  | String c _ => PyStr.isspace c
  end.

(** The last character is white space. *)
Fixpoint ends_space (s : string) : bool :=
  match s with
  | EmptyString => false
  | String c EmptyString => PyStr.isspace c
  | String _ s' => ends_space s'
  end.

(** The last character is a space. *)
Fixpoint ends_blank (s : string) : bool :=
  match s with
  | EmptyString => false
  | String c EmptyString => Ascii.eqb c " "
  | String _ s' => ends_blank s'
  end.

(** The first character is a space. *)
Definition starts_blank (s : string) : bool :=
  match s with
  | EmptyString => false
  | String c _ => Ascii.eqb c " "
  end.

(** No character is a line boundary of [str.splitlines]. *)
Fixpoint one_line (s : string) : bool :=
  match s with
  | EmptyString => true
  | String c s' => negb (PyStr.is_linebreak c) && one_line s'
  end.

(** No two spaces follow each other. *)
Fixpoint single_spaced (s : string) : bool :=
  match s with
  | String c1 (String c2 _ as s') =>
      negb (Ascii.eqb c1 " " && Ascii.eqb c2 " ") && single_spaced s'
  | _ => true
  end.

(** A chunk as [extract_text] keeps it: not empty, no white space at
    either end, no line boundary, no two spaces in a row. *)
Definition clean_chunk (s : string) : Prop :=
  PyStr.truthy s = true ∧ starts_space s = false ∧ ends_space s = false
  ∧ one_line s = true ∧ single_spaced s = true.

(** ** Link discovery and page records *)

Section discovery.
Context {E : Externals}.

(** The URL an anchor stands for: [href] itself when it starts with
    http, else [urljoin(page_url, href)]. *)
Definition absolute_link (page_url href : string) : option string :=
  if negb (PyStr.startswith "http" href) then urljoin page_url href else Some href.

(** The test of [get_all_links] on a normalized link: it is in scope and
    not yet visited. *)
Definition admits (self : WebsiteScraper) (normalized : string) : bool :=
  bool_decide (is_valid_url self normalized = Some true)
  && bool_decide (normalized ∉ visited_urls self).

(** The page blocks are those of records taken, in order, from the
    requests made, and the text of a record is not blank. *)
Definition order_inv (st : crawl) : Prop :=
  ∃ (recs : list (string * string)) (ns : list string),
    text_content (scraper st) = (λ r, page_content r.1 r.2) <$> recs
    ∧ Forall2 (λ u n, normalize_url u = Some n) (fetched (trace st)) ns
    ∧ recs.*1 `sublist_of` ns
    ∧ Forall (λ r, r.2 ≠ EmptyString ∧ PyStr.strip r.2 = r.2) recs.

End discovery.

(** ** The command line and the output file *)

(** [os.path.join] of posixpath, for two components. *)
Module Posixpath.

Fixpoint ends_with_sep (s : string) : bool :=
  match s with
  | EmptyString => false
  | String c EmptyString => Ascii.eqb c "/"
  | String _ s' => ends_with_sep s'
  end.

Definition join (a b : string) : string :=
  if PyStr.startswith "/" b then b
  else if negb (PyStr.truthy a) || ends_with_sep a then a +:+ b
  else a +:+ "/" +:+ b.

End Posixpath.

(** [s.replace(old, new)] for strings [old] and [new] of one character. *)
Fixpoint replace_char (old new : ascii) (s : string) : string :=
  match s with
  | EmptyString => EmptyString
  | String c s' => String (if Ascii.eqb c old then new else c) (replace_char old new s')
  end.

(** [s * n] *)
Fixpoint times (s : string) (n : nat) : string :=
  match n with
  | O => EmptyString
  | S n => s +:+ times s n
  end.

(** [os.path.expanduser("~/website_scrapes")], where [home] is the home
    directory without a slash at its end (or the tilde itself, when no
    home directory is known). *)
Definition output_dir (home : string) : string := home +:+ "/website_scrapes".

(** [save_to_file]: the path of the file and the text written to it.
    [timestamp] and [date] are the two readings of the clock, as
    [strftime] formats them.  The file starts empty; [file +:+ s] is
    [file.write(s)]. *)
Definition save_to_file (self : WebsiteScraper) (filename : option string)
    (timestamp date home : string) : string * string :=
  let filename :=
    match filename with
    | None =>
        let domain_name := replace_char "." "_" (domain self) in
        domain_name +:+ "_" +:+ timestamp +:+ ".txt"
    | Some filename => filename
    end in
  let output_path := Posixpath.join (output_dir home) filename in
  let file := EmptyString in
  let file := file +:+ ("Website Scrape: " +:+ base_url self +:+ PyStr.nl) in
  let file := file +:+ ("Date: " +:+ date +:+ PyStr.nl) in
  let file :=
    file +:+ ("Pages scraped: " +:+ pretty (size (visited_urls self)) +:+ PyStr.nl) in
  let file := file +:+ (times "=" 80 +:+ PyStr.nl +:+ PyStr.nl) in
  let file :=
    fold_left (λ file content, file +:+ (content +:+ PyStr.nl)) (text_content self) file in
  (output_path, file).

(** The URL [main] makes of a line of input. *)
Definition url_of_input (domain : string) : string :=
  if negb (PyStr.startswith "http://" domain)
     && negb (PyStr.startswith "https://" domain)
  then "https://" +:+ domain else domain.

Section command_line.
Context {E : Externals}.

(** [validate_url]; the bare [except] turns an exception of [urlparse]
    into [False]. *)
Definition validate_url (url : string) : bool :=
  match urlparse url with
  | Some result => PyStr.truthy (scheme result) && PyStr.truthy (netloc result)
  | None => false
  end.

(** The input loop of [main] over the lines still to be read: the URL it
    leaves with, and the lines left.  [None]: the input ended ([input]
    raises [EOFError]). *)
Fixpoint read_url (inputs : list string) : option (string * list string) :=
  match inputs with
  | [] => None
  | domain :: inputs' =>
      let url := url_of_input domain in
      if validate_url url then Some (url, inputs') else read_url inputs'
  end.

End command_line.

(** The strings of a list, one after the other. *)
Definition concat_strings (l : list string) : string :=
  foldr String.append EmptyString l.

(** ** A page with a link that cannot be parsed: the home page of
    example.com with a text, a link to a page of the site, and a link
    whose authority opens a bracket that is never closed, for which
    [urlparse] raises [ValueError]. *)
Module BrokenLink.

Definition home_body : string :=
  "<p>Welcome</p><a href='https://example.com/a'></a><a href='http://[broken'></a>".

Definition home : Site.Document :=
  Site.mkDocument "Welcome" ["https://example.com/a"; "http://[broken"]%string.

Definition web : Externals := {|
  urlparse := Urllib.urlparse;
  urlunparse := Urllib.urlunparse;
  urljoin := Urllib.urljoin;
  requests_get url _ _ :=
    if String.eqb url "https://example.com"
    then Some (mkResponse 200 Site.html home_body) else None;
  Soup := Site.Document;
  Tag := string;
  BeautifulSoup body :=
    Some (if String.eqb body home_body then home else Site.mkDocument body []);
  find_all _ _ := [];
  decompose _ soup := soup;
  get_text _ soup := Site.doc_text soup;
  find_all_a_href soup := Site.doc_hrefs soup;
  tag_href anchor := anchor;
  md5_hexdigest s := s |}.

End BrokenLink.

(** The scraper for the seed example.com, which names no scheme: the
    whole of it is a path, and the domain is empty. *)
Definition bare_scraper : WebsiteScraper :=
  {| base_url := "example.com"; domain := EmptyString;
     visited_urls := ∅; text_hashes := ∅; text_content := [];
     max_pages := 1000 |}.

(** ** What [urlsplit] leaves of a URL, and the host of a netloc *)

(** A character that [urlsplit] removes from a URL: a tab, a carriage
    return or a newline. *)
Definition unsafe_char (c : ascii) : bool :=
  (N_of_ascii c =? 9)%N || (N_of_ascii c =? 13)%N || (N_of_ascii c =? 10)%N.

(** A string without such a character. *)
Definition tidy (s : string) : Prop :=
  Urllib.all_chars (λ c, negb (unsafe_char c)) s = true.

(** The string is empty or starts with a character that satisfies [f]. *)
Definition starts_with (f : ascii → bool) (s : string) : Prop :=
  match s with
  | EmptyString => True
  | String c _ => f c = true
  end.

(** [s.rpartition(c)[2]]: the text after the last [c], all of [s] when
    it has none. *)
Fixpoint after_last (c : ascii) (s : string) : string :=
  match s with
  | EmptyString => EmptyString
  | String d s' =>
      if Urllib.has_char c s' then after_last c s'
      else if Ascii.eqb c d then s' else s
  end.

(** [ParseResult.hostname] of urllib.parse, from the netloc: the host
    without user info and port, in lower case but for the zone of a
    scoped address; [None] when the netloc names no host. *)
Definition hostname (netloc : string) : option string :=
  let hostinfo := after_last "@" netloc in
  let hostname :=
    match Urllib.break_at (Ascii.eqb "[") hostinfo with
    | Some (_, bracketed) =>
        (default (bracketed, EmptyString) (Urllib.break_at (Ascii.eqb "]") bracketed)).1
    | None =>
        (default (hostinfo, EmptyString) (Urllib.break_at (Ascii.eqb ":") hostinfo)).1
    end in
  if negb (PyStr.truthy hostname) then None
  else
    match Urllib.break_at (Ascii.eqb "%") hostname with
    | Some (host, zone) => Some (PyStr.lower host +:+ "%" +:+ zone)
    | None => Some (PyStr.lower hostname)
    end.

(** ** Results *)

Lemma fetched_app (e1 e2 : list event) : fetched (e1 ++ e2) = fetched e1 ++ fetched e2.
Proof.
  induction e1 as [|[url|] e1 IH]; simpl; [done| |done].
  by rewrite IH.
Qed.

Lemma sleeps_app (e1 e2 : list event) : sleeps (e1 ++ e2) = sleeps e1 + sleeps e2.
Proof.
  induction e1 as [|[url|] e1 IH]; simpl; [done|done|].
  by rewrite IH.
Qed.

Lemma rstrip_all_space (s : string) : all_space s = true → PyStr.rstrip s = EmptyString.
Proof.
  induction s as [|c s IH]; simpl; [done|].
  intros [Hc Hs]%andb_true_iff. rewrite (IH Hs), Hc. done.
Qed.

Lemma lstrip_rstrip_not_all_space (s : string) :
  all_space s = false → PyStr.truthy (PyStr.lstrip (PyStr.rstrip s)) = true.
Proof.
  induction s as [|c s IH]; simpl; [done|].
  destruct (PyStr.isspace c) eqn:Hc; simpl.
  - intros Hs. specialize (IH Hs).
    destruct (PyStr.rstrip s) as [|d r] eqn:Hr; [done|].
    simpl. rewrite Hc. exact IH.
  - intros _. rewrite Hc. done.
Qed.

(** [text.strip()] is empty exactly for a text of white space only. *)
Lemma strip_blank (s : string) :
  PyStr.truthy (PyStr.strip s) = false ↔ all_space s = true.
Proof.
  unfold PyStr.strip. destruct (all_space s) eqn:Hs.
  - by rewrite rstrip_all_space.
  - by rewrite lstrip_rstrip_not_all_space.
Qed.

(** *** The model of urllib.parse: query and fragment *)

Section urllib_facts.

#[local] Arguments String.append !_ _ / : simpl nomatch.

Lemma has_char_app (c : ascii) (a b : string) :
  Urllib.has_char c (String.append a b) = Urllib.has_char c a || Urllib.has_char c b.
Proof.
  induction a as [|d a IH]; simpl; [done|]. rewrite IH. by rewrite orb_assoc.
Qed.

Lemma plain_app (a b : string) : Urllib.plain (String.append a b) ↔ Urllib.plain a ∧ Urllib.plain b.
Proof.
  unfold Urllib.plain. rewrite !has_char_app, !orb_false_iff. tauto.
Qed.

Lemma has_char_cons (c d : ascii) (s : string) :
  Urllib.has_char c (String d s) = Ascii.eqb c d || Urllib.has_char c s.
Proof. reflexivity. Qed.

Lemma plain_cons (c : ascii) (s : string) :
  Urllib.plain (String c s) ↔ c ≠ "?"%char ∧ c ≠ "#"%char ∧ Urllib.plain s.
Proof.
  unfold Urllib.plain. rewrite !has_char_cons, !orb_false_iff, !Ascii.eqb_neq.
  split.
  - intros ((? & ?) & (? & ?)). split_and!; congruence || done.
  - intros (? & ? & ? & ?). split_and!; congruence || done.
Qed.

Lemma lstrip_c0_app (b s : string) :
  Urllib.query_fragment s →
  Urllib.lstrip_c0 (String.append b s) = String.append (Urllib.lstrip_c0 b) s.
Proof.
  intros Hs. induction b as [|c b IH]; simpl.
  - destruct s as [|d s]; [done|]. simpl. by destruct Hs as [->| ->].
  - by destruct (N_of_ascii c <=? 32)%N.
Qed.

Lemma lstrip_c0_plain (s : string) : Urllib.plain s → Urllib.plain (Urllib.lstrip_c0 s).
Proof.
  induction s as [|c s IH]; simpl; [done|].
  intros Hp. destruct (N_of_ascii c <=? 32)%N; [|done].
  apply IH. by apply plain_cons in Hp as (_ & _ & ?).
Qed.

Lemma remove_chars_app (f : ascii → bool) (a b : string) :
  Urllib.remove_chars f (String.append a b)
  = String.append (Urllib.remove_chars f a) (Urllib.remove_chars f b).
Proof.
  induction a as [|c a IH]; simpl; [done|]. rewrite IH. by destruct (f c).
Qed.

Lemma remove_chars_plain (f : ascii → bool) (s : string) :
  Urllib.plain s → Urllib.plain (Urllib.remove_chars f s).
Proof.
  induction s as [|c s IH]; simpl; [done|].
  intros (? & ? & ?)%plain_cons. destruct (f c); [by apply IH|].
  apply plain_cons. split_and!; [done|done|by apply IH].
Qed.

Lemma remove_chars_query_fragment (f : ascii → bool) (s : string) :
  f "?"%char = false → f "#"%char = false →
  Urllib.query_fragment s → Urllib.query_fragment (Urllib.remove_chars f s).
Proof.
  intros Hq Hf. destruct s as [|c s]; simpl; [done|].
  intros [->| ->]; [rewrite Hq|rewrite Hf]; simpl; auto.
Qed.

Lemma break_at_app_Some (f : ascii → bool) (b s x y : string) :
  Urllib.break_at f b = Some (x, y) →
  Urllib.break_at f (String.append b s) = Some (x, String.append y s).
Proof.
  revert x y. induction b as [|c b IH]; simpl; intros x y; [done|].
  destruct (f c); [by intros [= <- <-]|].
  destruct (Urllib.break_at f b) as [[a1 b1]|]; simpl; [|done].
  intros [= <- <-]. by rewrite (IH _ _ eq_refl).
Qed.

Lemma break_at_app_None (f : ascii → bool) (b s : string) :
  Urllib.break_at f b = None →
  Urllib.break_at f (String.append b s)
  = '(x, y) ← Urllib.break_at f s; Some (String.append b x, y).
Proof.
  induction b as [|c b IH]; simpl.
  - intros _. by destruct (Urllib.break_at f s) as [[? ?]|].
  - destruct (f c); [done|].
    destruct (Urllib.break_at f b) as [[a1 b1]|]; simpl; [done|].
    intros _. rewrite IH by done.
    by destruct (Urllib.break_at f s) as [[? ?]|].
Qed.

Lemma break_at_None (c : ascii) (s : string) :
  Urllib.break_at (Ascii.eqb c) s = None ↔ Urllib.has_char c s = false.
Proof.
  induction s as [|d s IH]; simpl; [done|].
  destruct (Ascii.eqb c d); simpl; [done|].
  rewrite <-IH. by destruct (Urllib.break_at _ s) as [[? ?]|].
Qed.

Lemma break_at_pieces (f : ascii → bool) (s x y : string) :
  Urllib.break_at f s = Some (x, y) →
  ∃ c, f c = true ∧ s = String.append x (String c y)
       ∧ Urllib.all_chars (λ d, negb (f d)) x = true.
Proof.
  revert x y. induction s as [|d s IH]; simpl; intros x y; [done|].
  destruct (f d) eqn:Hd.
  - intros [= <- <-]. by exists d.
  - destruct (Urllib.break_at f s) as [[a1 b1]|]; simpl; [|done].
    intros [= <- <-]. destruct (IH _ _ eq_refl) as (c & Hc & -> & Hall).
    exists c. simpl. by rewrite Hd.
Qed.

Lemma span_until_app (f : ascii → bool) (r s : string) :
  match s with EmptyString => True | String c _ => f c = true end →
  Urllib.span_until f (String.append r s)
  = ((Urllib.span_until f r).1, String.append (Urllib.span_until f r).2 s).
Proof.
  intros Hs. induction r as [|c r IH]; simpl.
  - destruct s as [|d s]; [done|]. simpl. by rewrite Hs.
  - destruct (f c); [done|]. rewrite IH.
    by destruct (Urllib.span_until f r).
Qed.

Lemma span_until_pieces (f : ascii → bool) (s : string) :
  s = String.append (Urllib.span_until f s).1 (Urllib.span_until f s).2.
Proof.
  induction s as [|c s IH]; simpl; [done|].
  destruct (f c); [done|].
  destruct (Urllib.span_until f s) as [a b]. simpl in *. by rewrite <-IH.
Qed.

Lemma all_chars_app (f : ascii → bool) (a b : string) :
  Urllib.all_chars f (String.append a b) = Urllib.all_chars f a && Urllib.all_chars f b.
Proof.
  induction a as [|c a IH]; simpl; [done|]. rewrite IH. by rewrite andb_assoc.
Qed.

Lemma append_nil_r (s : string) : String.append s EmptyString = s.
Proof. induction s as [|c s IH]; simpl; [done|]. by rewrite IH. Qed.

Lemma query_fragment_not_scheme (s : string) :
  Urllib.query_fragment s → s ≠ EmptyString → Urllib.all_chars Urllib.scheme_char s = false.
Proof. destruct s as [|c s]; [done|]. by intros [->| ->] _. Qed.

Lemma split_scheme_app (b s : string) :
  Urllib.query_fragment s →
  Urllib.split_scheme (String.append b s)
  = ((Urllib.split_scheme b).1, String.append (Urllib.split_scheme b).2 s).
Proof.
  intros Hs. unfold Urllib.split_scheme.
  destruct (Urllib.break_at (Ascii.eqb ":") b) as [[x y]|] eqn:Hb.
  - rewrite (break_at_app_Some _ _ _ _ _ Hb).
    destruct x as [|c0 s0]; [done|]. by destruct (_ && _).
  - rewrite (break_at_app_None _ _ _ Hb).
    destruct (Urllib.break_at (Ascii.eqb ":") s) as [[x y]|] eqn:Hx; simpl; [|done].
    apply break_at_pieces in Hx as (c & Hc & -> & _).
    apply Ascii.eqb_eq in Hc as <-.
    assert (Hnot : Urllib.all_chars Urllib.scheme_char (String.append b x) = false).
    { rewrite all_chars_app. apply andb_false_iff. right.
      destruct x as [|d x]; [by destruct Hs|].
      apply query_fragment_not_scheme; [|done]. by destruct Hs as [->| ->]; [left|right]. }
    destruct (String.append b x) as [|c0 s0]; [done|].
    simpl in Hnot. rewrite Hnot. by rewrite andb_false_r.
Qed.

Lemma break_at_plain (f : ascii → bool) (s x y : string) :
  Urllib.break_at f s = Some (x, y) → Urllib.plain s → Urllib.plain x ∧ Urllib.plain y.
Proof.
  intros (c & _ & -> & _)%break_at_pieces (Hx & (_ & _ & Hy)%plain_cons)%plain_app.
  done.
Qed.

Lemma split_scheme_plain (b : string) :
  Urllib.plain b → Urllib.plain (Urllib.split_scheme b).2.
Proof.
  intros Hb. unfold Urllib.split_scheme.
  destruct (Urllib.break_at (Ascii.eqb ":") b) as [[x y]|] eqn:Hx; [|done].
  destruct x as [|c0 s0]; [done|]. destruct (_ && _); [|done].
  simpl. by eapply break_at_plain.
Qed.

Lemma split_netloc_app (r s : string) :
  Urllib.query_fragment s →
  Urllib.split_netloc (String.append r s)
  = '(netloc, rest) ← Urllib.split_netloc r; Some (netloc, String.append rest s).
Proof.
  intros Hs. unfold Urllib.split_netloc.
  destruct r as [|c1 [|c2 r]]; simpl.
  - destruct s as [|d [|d' s]]; [done| |]; by destruct Hs as [->| ->].
  - destruct (Ascii.eqb_spec c1 "/") as [->|Hc1].
    + destruct s as [|d s]; [done|]. by destruct Hs as [->| ->].
    + destruct c1 as [[] [] [] [] [] [] [] []]; try done.
  - destruct (Ascii.eqb_spec c1 "/") as [->|Hc1];
      [|destruct c1 as [[] [] [] [] [] [] [] []]; try done].
    destruct (Ascii.eqb_spec c2 "/") as [->|Hc2];
      [|destruct c2 as [[] [] [] [] [] [] [] []]; try done].
    rewrite span_until_app.
    + by destruct (Urllib.span_until Urllib.netloc_delim r).
    + destruct s as [|d s]; [done|]. by destruct Hs as [->| ->].
Qed.

Lemma span_until_plain (f : ascii → bool) (s : string) :
  Urllib.plain s → Urllib.plain (Urllib.span_until f s).1 ∧ Urllib.plain (Urllib.span_until f s).2.
Proof.
  intros Hs. rewrite (span_until_pieces f s) in Hs. by apply plain_app in Hs.
Qed.

Lemma split_netloc_plain (r netloc rest : string) :
  Urllib.split_netloc r = Some (netloc, rest) → Urllib.plain r → Urllib.plain netloc ∧ Urllib.plain rest.
Proof.
  unfold Urllib.split_netloc.
  destruct r as [|c1 [|c2 r]]; [done|by destruct c1 as [[] [] [] [] [] [] [] []]|].
  destruct c1 as [[] [] [] [] [] [] [] []]; try done.
  destruct c2 as [[] [] [] [] [] [] [] []]; try done.
  intros [= Hspan] (_ & _ & (_ & _ & Hr)%plain_cons)%plain_cons.
  apply (span_until_plain Urllib.netloc_delim) in Hr. by rewrite Hspan in Hr.
Qed.

Lemma split_tail_plain (t : string) :
  Urllib.plain t → Urllib.split_tail t = (t, EmptyString, EmptyString).
Proof.
  intros [Hq Hf]. unfold Urllib.split_tail.
  apply break_at_None in Hq, Hf. rewrite Hf. simpl. by rewrite Hq.
Qed.

Lemma split_tail_app (t s : string) :
  Urllib.plain t → Urllib.query_fragment s → (Urllib.split_tail (String.append t s)).1.1 = t.
Proof.
  intros [Hq Hf] Hs. unfold Urllib.split_tail.
  apply break_at_None in Hq as Hq', Hf as Hf'.
  rewrite (break_at_app_None _ _ _ Hf').
  destruct (Urllib.break_at (Ascii.eqb "#") s) as [[x y]|] eqn:Hx; simpl.
  - apply break_at_pieces in Hx as (c & _ & -> & Hall).
    rewrite (break_at_app_None _ _ _ Hq').
    destruct x as [|d x]; simpl; [by rewrite append_nil_r|].
    destruct Hs as [->| ->]; [|done]. simpl. by rewrite append_nil_r.
  - rewrite (break_at_app_None _ _ _ Hq').
    destruct s as [|d s]; simpl; [by rewrite append_nil_r|].
    destruct Hs as [->| ->]; [|done]. simpl. by rewrite append_nil_r.
Qed.

(** Appending a query and fragment part to a URL without one changes
    neither whether [urlsplit] accepts it nor the scheme, netloc and path
    it finds. *)
Lemma urlsplit_app (url s scheme : string) :
  Urllib.plain url → Urllib.query_fragment s →
  match Urllib.urlsplit url scheme with
  | None => Urllib.urlsplit (String.append url s) scheme = None
  | Some (sc, nl, p, q, f) =>
      q = EmptyString ∧ f = EmptyString
      ∧ ∃ q' f', Urllib.urlsplit (String.append url s) scheme = Some (sc, nl, p, q', f')
  end.
Proof.
  intros Hurl Hs. unfold Urllib.urlsplit.
  rewrite lstrip_c0_app, remove_chars_app by done.
  set (tabs := λ c, _).
  assert (Hb : Urllib.plain (Urllib.remove_chars tabs (Urllib.lstrip_c0 url)))
    by (by apply remove_chars_plain, lstrip_c0_plain).
  assert (Hs' : Urllib.query_fragment (Urllib.remove_chars tabs s))
    by (by apply remove_chars_query_fragment).
  set (b := Urllib.remove_chars tabs (Urllib.lstrip_c0 url)) in *.
  set (s' := Urllib.remove_chars tabs s) in *.
  clearbody b s'. clear Hurl Hs url s tabs. rename s' into s, Hs' into Hs.
  rewrite split_scheme_app by done.
  pose proof (split_scheme_plain b Hb) as Hrest.
  destruct (Urllib.split_scheme b) as [found rest]. simpl in *.
  set (sc := if PyStr.truthy found then found else scheme).
  set (r := if PyStr.truthy found then rest else b).
  assert (Hr : Urllib.plain r) by (unfold r; by destruct (PyStr.truthy found)).
  assert (Heq1 : (if PyStr.truthy found then (found, rest) else (scheme, b)) = (sc, r))
    by (unfold sc, r; by destruct (PyStr.truthy found)).
  assert (Heq2 : (if PyStr.truthy found then (found, String.append rest s)
                  else (scheme, String.append b s)) = (sc, String.append r s))
    by (unfold sc, r; by destruct (PyStr.truthy found)).
  rewrite Heq1, Heq2. clearbody sc r. clear Heq1 Heq2 Hrest found rest b Hb.
  rewrite split_netloc_app by done.
  destruct (Urllib.split_netloc r) as [[nl rest]|] eqn:Hn; simpl.
  - apply split_netloc_plain in Hn as [_ Hrest]; [|done].
    destruct (xorb _ _); simpl; [done|].
    rewrite (split_tail_plain rest Hrest).
    pose proof (split_tail_app rest s Hrest Hs) as Hp.
    destruct (Urllib.split_tail (String.append rest s)) as [[p q] f]. simpl in Hp.
    subst p. eauto.
  - rewrite (split_tail_plain r Hr).
    pose proof (split_tail_app r s Hr Hs) as Hp.
    destruct (Urllib.split_tail (String.append r s)) as [[p q] f]. simpl in Hp.
    subst p. eauto.
Qed.

Lemma urlparse_app (url s : string) :
  Urllib.plain url → Urllib.query_fragment s →
  match Urllib.urlparse url with
  | None => Urllib.urlparse (String.append url s) = None
  | Some parsed =>
      query parsed = EmptyString ∧ fragment parsed = EmptyString
      ∧ ∃ q f,
          Urllib.urlparse (String.append url s)
          = Some (mkParseResult (scheme parsed) (netloc parsed) (path parsed)
                    (params parsed) q f)
  end.
Proof.
  intros Hurl Hs. unfold Urllib.urlparse, Urllib.urlparse_scheme.
  pose proof (urlsplit_app url s EmptyString Hurl Hs) as Happ.
  destruct (Urllib.urlsplit url EmptyString) as [[[[[sc nl] p] q] f]|]; simpl.
  - destruct Happ as (-> & -> & q' & f' & ->). simpl.
    destruct (if Urllib.mem sc Urllib.uses_params && Urllib.has_char ";" p
              then Urllib.splitparams p else (p, EmptyString)) as [p' params'].
    simpl. eauto.
  - by rewrite Happ.
Qed.

(** The normalized URL does not depend on the query and fragment part. *)
Lemma urllib_normalize_ignores_query_and_fragment (url s : string) :
  Urllib.plain url → Urllib.query_fragment s →
  normalize_url (E := Site.web) (String.append url s)
  = normalize_url (E := Site.web) url.
Proof.
  intros Hurl Hs. unfold normalize_url. simpl.
  pose proof (urlparse_app url s Hurl Hs) as Happ.
  destruct (Urllib.urlparse url) as [parsed|]; [|by rewrite Happ].
  destruct Happ as (_ & _ & q & f & ->). done.
Qed.


(** *** The normalized URL has no query and no fragment *)

Lemma all_chars_plain (f : ascii → bool) (s : string) :
  f "?"%char = false → f "#"%char = false →
  Urllib.all_chars f s = true → Urllib.plain s.
Proof.
  intros Hq Hf. induction s as [|c s IH]; simpl; [done|].
  intros [Hc Hs]%andb_true_iff. apply plain_cons.
  split_and!; [congruence|congruence|by apply IH].
Qed.

Lemma lower_scheme_plain (s : string) :
  Urllib.all_chars Urllib.scheme_char s = true → Urllib.plain (PyStr.lower s).
Proof.
  induction s as [|c s IH]; simpl; [done|].
  intros [Hc Hs]%andb_true_iff. apply plain_cons.
  split_and!; [| |by apply IH];
    destruct c as [[] [] [] [] [] [] [] []]; by vm_compute.
Qed.

Lemma span_until_fst (f : ascii → bool) (s : string) :
  Urllib.all_chars (λ c, negb (f c)) (Urllib.span_until f s).1 = true.
Proof.
  induction s as [|c s IH]; simpl; [done|].
  destruct (f c) eqn:Hc; [done|].
  destruct (Urllib.span_until f s) as [a b]. simpl in *. by rewrite Hc.
Qed.

Lemma split_tail_path_plain (url : string) : Urllib.plain (Urllib.split_tail url).1.1.
Proof.
  unfold Urllib.split_tail.
  assert (Hcut : ∀ c s, Urllib.has_char c
            (default (s, EmptyString) (Urllib.break_at (Ascii.eqb c) s)).1 = false).
  { intros c s. destruct (Urllib.break_at (Ascii.eqb c) s) as [[x y]|] eqn:Hx; simpl.
    - apply break_at_pieces in Hx as (_ & _ & _ & Hall). clear y s.
      induction x as [|d x IH]; [done|]. simpl in *.
      apply andb_true_iff in Hall as [Hd Hall]. rewrite (IH Hall).
      by destruct (Ascii.eqb c d).
    - by apply break_at_None. }
  pose proof (Hcut "#"%char url) as Hf.
  destruct (default (url, EmptyString) (Urllib.break_at (Ascii.eqb "#") url))
    as [u1 f1]. simpl in Hf.
  pose proof (Hcut "?"%char u1) as Hq.
  destruct (Urllib.break_at (Ascii.eqb "?") u1) as [[x y]|] eqn:Hx; simpl in *.
  - split; [done|]. apply break_at_pieces in Hx as (c & _ & -> & _).
    rewrite has_char_app in Hf. by apply orb_false_iff in Hf as [? _].
  - done.
Qed.

Lemma split_netloc_fst_plain (r nl rest : string) :
  Urllib.split_netloc r = Some (nl, rest) → Urllib.plain nl.
Proof.
  unfold Urllib.split_netloc.
  destruct r as [|c1 [|c2 r']]; [done|by destruct c1 as [[] [] [] [] [] [] [] []]|].
  destruct c1 as [[] [] [] [] [] [] [] []]; try done.
  destruct c2 as [[] [] [] [] [] [] [] []]; try done.
  intros [= Hspan]. pose proof (span_until_fst Urllib.netloc_delim r') as Hall.
  rewrite Hspan in Hall.
  by apply (all_chars_plain (λ c, negb (Urllib.netloc_delim c))).
Qed.

Lemma urlsplit_plain (url scheme sc nl p q f : string) :
  Urllib.urlsplit url scheme = Some (sc, nl, p, q, f) →
  Urllib.plain scheme → Urllib.plain sc ∧ Urllib.plain nl ∧ Urllib.plain p.
Proof.
  unfold Urllib.urlsplit. intros Hsplit Hscheme.
  set (b := Urllib.remove_chars _ _) in Hsplit. clearbody b.
  assert (Hsc : Urllib.plain (if PyStr.truthy (Urllib.split_scheme b).1
                       then (Urllib.split_scheme b).1 else scheme)).
  { unfold Urllib.split_scheme.
    destruct (Urllib.break_at (Ascii.eqb ":") b) as [[[|c0 s0] y]|]; simpl; [done| |done].
    destruct (Urllib.is_alpha c0 && _) eqn:Hc; simpl; [|done].
    apply andb_true_iff in Hc as [_ Hc]. by apply (lower_scheme_plain (String c0 s0)). }
  destruct (Urllib.split_scheme b) as [found rest]. simpl in Hsc.
  assert (∃ r, (if PyStr.truthy found then (found, rest) else (scheme, b))
               = (if PyStr.truthy found then found else scheme, r)) as [r Hr]
    by (destruct (PyStr.truthy found); eauto).
  rewrite Hr in Hsplit. clear Hr.
  pose proof (split_netloc_fst_plain r) as Hnl.
  destruct (Urllib.split_netloc r) as [[nl' rest']|]; simpl in Hsplit.
  - specialize (Hnl _ _ eq_refl).
    destruct (xorb _ _); simpl in Hsplit; [done|].
    pose proof (split_tail_path_plain rest') as Hp.
    destruct (Urllib.split_tail rest') as [[p' q'] f']. injection Hsplit as <- <- <- <- <-.
    done.
  - pose proof (split_tail_path_plain r) as Hp.
    destruct (Urllib.split_tail r) as [[p' q'] f']. injection Hsplit as <- <- <- <- <-.
    done.
Qed.

Lemma rsplit_slash_pieces (s : string) :
  s = String.append (Urllib.rsplit_slash s).1 (Urllib.rsplit_slash s).2.
Proof.
  induction s as [|c s IH]; simpl; [done|].
  destruct (Urllib.rsplit_slash s) as [a b]. simpl in *.
  destruct (PyStr.truthy a || Ascii.eqb c "/") eqn:Hc; simpl; [by rewrite <-IH|].
  apply orb_false_iff in Hc as [Ha _]. destruct a; [|done]. simpl in IH. by rewrite <-IH.
Qed.

Lemma splitparams_plain (p : string) :
  Urllib.plain p → Urllib.plain (Urllib.splitparams p).1 ∧ Urllib.plain (Urllib.splitparams p).2.
Proof.
  intros Hp. unfold Urllib.splitparams.
  pose proof (rsplit_slash_pieces p) as Hpieces.
  destruct (Urllib.rsplit_slash p) as [dir last]. simpl in Hpieces.
  rewrite Hpieces in Hp. apply plain_app in Hp as [Hdir Hlast].
  destruct (Urllib.break_at (Ascii.eqb ";") last) as [[a b]|] eqn:Hb; simpl.
  - destruct (break_at_plain _ _ _ _ Hb Hlast). split; [|done].
    by apply plain_app.
  - split; [|done]. rewrite Hpieces. by apply plain_app.
Qed.

Lemma urlparse_plain (url : string) (parsed : ParseResult) :
  Urllib.urlparse url = Some parsed →
  Urllib.plain (scheme parsed) ∧ Urllib.plain (netloc parsed) ∧ Urllib.plain (path parsed)
  ∧ Urllib.plain (params parsed).
Proof.
  unfold Urllib.urlparse, Urllib.urlparse_scheme.
  destruct (Urllib.urlsplit url EmptyString) as [[[[[sc nl] p] q] f]|] eqn:Hs;
    simpl; [|done].
  apply urlsplit_plain in Hs as (Hsc & Hnl & Hp); [|done].
  pose proof (splitparams_plain p Hp) as [Hp1 Hp2].
  destruct (Urllib.mem sc Urllib.uses_params && Urllib.has_char ";" p).
  - destruct (Urllib.splitparams p) as [p' params']. by intros [= <-].
  - by intros [= <-].
Qed.

Lemma urlunparse_plain (parsed : ParseResult) :
  Urllib.plain (scheme parsed) → Urllib.plain (netloc parsed) → Urllib.plain (path parsed) →
  Urllib.plain (params parsed) → query parsed = EmptyString → fragment parsed = EmptyString →
  Urllib.plain (Urllib.urlunparse parsed).
Proof.
  intros Hsc Hnl Hp Hpa Hq Hf. unfold Urllib.urlunparse, Urllib.urlunsplit.
  rewrite Hq, Hf. simpl.
  set (url := if PyStr.truthy (params parsed) then _ else _).
  assert (Hurl : Urllib.plain url).
  { unfold url. destruct (PyStr.truthy (params parsed)); [|done].
    apply plain_app. split; [done|]. by apply (plain_app ";"). }
  clearbody url.
  set (url' := if PyStr.truthy (netloc parsed) || _ then _ else _).
  assert (Hurl' : Urllib.plain url').
  { unfold url'. destruct (PyStr.truthy (netloc parsed) || _); [|done].
    apply (plain_app "//"). split; [done|]. apply plain_app. split; [done|].
    destruct (PyStr.truthy url && _); [|done]. by apply (plain_app "/"). }
  clearbody url'.
  destruct (PyStr.truthy (scheme parsed)); [|done].
  apply plain_app. split; [done|]. by apply (plain_app ":").
Qed.

(** The normalized URL has no question mark and no number sign: neither a
    query nor a fragment is left. *)
Lemma urllib_normalize_has_no_query_or_fragment (url normalized : string) :
  normalize_url (E := Site.web) url = Some normalized → Urllib.plain normalized.
Proof.
  unfold normalize_url. simpl.
  destruct (Urllib.urlparse url) as [parsed|] eqn:Hp; simpl; [|done].
  intros [= <-]. apply urlparse_plain in Hp as (? & ? & ? & ?).
  by apply urlunparse_plain.
Qed.

End urllib_facts.

Section results.
Context {E : Externals}.

Lemma step_iteration (st st' : crawl) : step st st' ↔ iteration st st'.
Proof.
  unfold step, loop_body. split.
  - destruct (urls_to_visit st) as [|url rest] eqn:Hq; [done|].
    case_bool_decide as Hb; [|done].
    destruct (normalize_url url) as [n|] eqn:Hn; [|done].
    case_bool_decide as Hv.
    { intros [= <-]. by eapply iteration_seen. }
    destruct (scrape_page _ url) as [links text] eqn:Hs.
    destruct (PyStr.truthy (PyStr.strip text)) eqn:Ht; simpl.
    + case_bool_decide as Hh.
      * intros [= <-]. eapply iteration_dropped; eauto.
      * intros [= <-]. eapply iteration_recorded; eauto.
    + intros [= <-]. eapply iteration_dropped; eauto.
  - intros [url rest n Hq Hb Hn Hv|url rest n links text Hq Hb Hn Hv Hs Hd
            |url rest n links text Hq Hb Hn Hv Hs Ht Hh];
      rewrite Hq, (bool_decide_eq_true_2 _ Hb), Hn.
    + by rewrite (bool_decide_eq_true_2 _ Hv).
    + rewrite (bool_decide_eq_false_2 _ Hv), Hs.
      destruct Hd as [->|Hd]; [done|].
      destruct (PyStr.truthy _); simpl; [|done].
      simpl in Hd. by rewrite (bool_decide_eq_true_2 _ Hd).
    + rewrite (bool_decide_eq_false_2 _ Hv), Hs, Ht. simpl.
      by rewrite (bool_decide_eq_false_2 _ Hh).
Qed.

(** *** Running the loop *)

Lemma iterations_rtc (n : nat) (st st' : crawl) :
  iterations n st = Some st' → rtc step st st'.
Proof.
  revert st. induction n as [|n IH]; simpl; intros st.
  - intros [= ->]. apply rtc_refl.
  - destruct (loop_body st) as [| |st1] eqn:Hb; [done|done|].
    intros Hn. eapply rtc_l; [exact Hb|]. by apply IH.
Qed.

Lemma scrape_website_fuel_sound (fuel : nat) (st : crawl) (r : result) :
  scrape_website_fuel fuel st = Some r → scrape_website st r.
Proof.
  revert st. induction fuel as [|fuel IH]; simpl; intros st; [done|].
  destruct (loop_body st) as [| |st1] eqn:Hb.
  - intros [= <-]. exists st. split; [apply rtc_refl|]. by left.
  - intros [= <-]. exists st. split; [apply rtc_refl|]. by right.
  - intros Hr. destruct (IH _ Hr) as (st' & Hrtc & Hend).
    exists st'. split; [|done]. by eapply rtc_l.
Qed.

Lemma scrape_website_fuel_complete (st : crawl) (r : result) :
  scrape_website st r → ∃ fuel, scrape_website_fuel fuel st = Some r.
Proof.
  intros (st' & Hrtc & Hend). induction Hrtc as [st|st st1 st' Hs _ IH].
  - exists 1. simpl. by destruct Hend as [[-> ->]|[-> ->]].
  - destruct (IH Hend) as [fuel Hf]. exists (S fuel). simpl.
    unfold step in Hs. by rewrite Hs.
Qed.

Lemma scrape_website_fuel_mono (fuel fuel' : nat) (st : crawl) (r : result) :
  scrape_website_fuel fuel st = Some r → fuel ≤ fuel' →
  scrape_website_fuel fuel' st = Some r.
Proof.
  revert fuel' st. induction fuel as [|fuel IH]; simpl; intros fuel' st; [done|].
  intros Hr Hle. destruct fuel' as [|fuel']; [lia|]. simpl.
  destruct (loop_body st); [done|done|]. apply IH; [done|lia].
Qed.

(** The loop has one way to end. *)
Lemma scrape_website_deterministic (st : crawl) (r1 r2 : result) :
  scrape_website st r1 → scrape_website st r2 → r1 = r2.
Proof.
  intros [n1 H1]%scrape_website_fuel_complete [n2 H2]%scrape_website_fuel_complete.
  apply (scrape_website_fuel_mono _ (n1 `max` n2)) in H1; [|lia].
  apply (scrape_website_fuel_mono _ (n1 `max` n2)) in H2; [|lia].
  congruence.
Qed.

(** A property of the start that every run of the body keeps holds all
    along the crawl. *)
Lemma crawl_invariant (P : crawl → Prop) (st st' : crawl) :
  P st → (∀ a b, P a → iteration a b → P b) → rtc step st st' → P st'.
Proof.
  intros H0 Hstep Hrtc. induction Hrtc as [st|st st1 st' Hs _ IH]; [done|].
  apply IH. eapply Hstep; [done|]. by apply step_iteration.
Qed.

(** *** What an iteration leaves alone *)

Lemma iteration_fields (st st' : crawl) :
  iteration st st' →
  base_url (scraper st') = base_url (scraper st)
  ∧ domain (scraper st') = domain (scraper st)
  ∧ max_pages (scraper st') = max_pages (scraper st).
Proof. by intros []. Qed.

Lemma crawl_fields (st st' : crawl) :
  rtc step st st' →
  base_url (scraper st') = base_url (scraper st)
  ∧ domain (scraper st') = domain (scraper st)
  ∧ max_pages (scraper st') = max_pages (scraper st).
Proof.
  intros Hrtc.
  apply (crawl_invariant
           (λ a, base_url (scraper a) = base_url (scraper st)
                 ∧ domain (scraper a) = domain (scraper st)
                 ∧ max_pages (scraper a) = max_pages (scraper st)) st);
    [done| |done].
  intros a b (Ha1 & Ha2 & Ha3) Hi.
  destruct (iteration_fields _ _ Hi) as (-> & -> & ->). done.
Qed.

Lemma init_fields (url : string) (budget : Z) (self : WebsiteScraper) :
  __init__ url budget = Some self →
  base_url self = url ∧ max_pages self = budget
  ∧ visited_urls self = ∅ ∧ text_hashes self = ∅ ∧ text_content self = []
  ∧ ∃ parsed, urlparse url = Some parsed ∧ domain self = netloc parsed.
Proof.
  unfold __init__. destruct (urlparse url) as [parsed|]; [|done].
  intros [= <-]. simpl. eauto 10.
Qed.

(** *** Link discovery *)

Lemma is_valid_url_spec (self : WebsiteScraper) (url : string) (valid : bool) :
  is_valid_url self url = Some valid →
  ∃ parsed, urlparse url = Some parsed
    ∧ (valid = true ↔ netloc parsed ≠ EmptyString ∧ netloc parsed = domain self).
Proof.
  unfold is_valid_url. destruct (urlparse url) as [parsed|]; [|done].
  simpl. intros [= <-]. exists parsed. split; [done|].
  rewrite andb_true_iff, bool_decide_eq_true.
  destruct (netloc parsed); simpl; split; intros [? ?]; split; congruence || done.
Qed.

Lemma is_valid_url_domain (self self' : WebsiteScraper) (url : string) :
  domain self = domain self' → is_valid_url self url = is_valid_url self' url.
Proof. unfold is_valid_url. by intros ->. Qed.

Lemma get_all_links_from_spec (self : WebsiteScraper) (page_url : string)
    (anchors : list Tag) (acc links : list string) :
  get_all_links_from self page_url anchors acc = Some links →
  ∃ new, links = acc ++ new
    ∧ Forall (λ l, is_valid_url self l = Some true ∧ l ∉ visited_urls self) new.
Proof.
  revert acc. induction anchors as [|anchor anchors IH]; simpl; intros acc.
  - intros [= <-]. exists []. by rewrite app_nil_r.
  - destruct (if negb _ then _ else _) as [link|]; [|done]. simpl.
    destruct (normalize_url link) as [n|]; [|done]. simpl.
    destruct (is_valid_url self n) as [valid|] eqn:Hv; [|done]. simpl.
    intros (new & -> & Hnew)%IH.
    destruct valid; simpl; [|by exists new].
    case_bool_decide as Hn; [|by exists new].
    exists (n :: new). split; [by rewrite <-app_assoc|].
    by constructor.
Qed.

(** Every link that [scrape_page] returns passed the scope filter and was
    not yet visited. *)
Lemma scrape_page_links (self : WebsiteScraper) (url : string)
    (links : list string) (extracted : string) :
  scrape_page self url = (links, extracted) →
  Forall (λ l, is_valid_url self l = Some true ∧ l ∉ visited_urls self) links.
Proof.
  unfold scrape_page.
  destruct (scrape_page_try self url) as [[l t]|] eqn:Ht; simpl;
    intros [= <- <-]; [|constructor].
  unfold scrape_page_try in Ht.
  apply bind_Some in Ht as (response & _ & Ht).
  destruct (raises_for_status response); [done|].
  destruct (negb _); [injection Ht as <- <-; constructor|].
  apply bind_Some in Ht as (soup & _ & Ht).
  destruct (extract_text soup) as [soup' text'].
  apply bind_Some in Ht as (links' & Hl & [= <- <-]).
  apply get_all_links_from_spec in Hl as (new & -> & Hnew). done.
Qed.

(** *** Invariants of a crawl *)

Lemma visited_inv_iteration (a b : crawl) :
  visited_inv a → iteration a b → visited_inv b.
Proof.
  assert (Hadd : ∀ url n, visited_inv a → normalize_url url = Some n →
            n ∉ visited_urls (scraper a) →
            ∃ ns, Forall2 (λ url n, normalize_url url = Some n)
                    (fetched (trace a ++ [Fetch url])) ns
              ∧ NoDup ns ∧ {[n]} ∪ visited_urls (scraper a) = list_to_set ns).
  { intros url n (ns & Hf & Hnd & Hv) Hn Hnv. exists (ns ++ [n]).
    rewrite fetched_app. simpl. split_and!.
    - apply Forall2_app; [done|]. by repeat constructor.
    - apply NoDup_app. split_and!; [done| |apply NoDup_singleton].
      intros x Hx ->%list_elem_of_singleton. apply Hnv. rewrite Hv.
      by apply elem_of_list_to_set.
    - rewrite Hv, list_to_set_app_L. simpl.
      by rewrite union_empty_r_L, (union_comm_L (list_to_set ns)). }
  intros Ha Hi. iteration_cases Hi.
  - exact Ha.
  - destruct (Hadd u n Ha Hn Hv) as (ns & ? & ? & ?). by exists ns.
  - destruct (Hadd u n Ha Hn Hv) as (ns & Hf & ? & ?). exists ns.
    simpl. rewrite fetched_app, app_nil_r. done.
Qed.

Lemma records_inv_iteration (a b : crawl) :
  records_inv a → iteration a b → records_inv b.
Proof.
  intros Ha Hi. iteration_cases Hi; [done|done|].
  destruct Ha as (recs & Hc & Hnd & Hh'). exists (recs ++ [(n, text)]).
  simpl in *. rewrite !fmap_app, Hc. simpl. split_and!; [done| |].
  - apply NoDup_app. split_and!; [done| |apply NoDup_singleton].
    intros x Hx ->%list_elem_of_singleton. apply Hh. rewrite Hh'.
    by apply elem_of_list_to_set.
  - rewrite Hh', list_to_set_app_L. simpl.
    by rewrite union_empty_r_L, (union_comm_L (list_to_set _)).
Qed.

(** One pause for each page block. *)
Lemma sleeps_iteration (a b : crawl) :
  sleeps (trace a) = length (text_content (scraper a)) → iteration a b →
  sleeps (trace b) = length (text_content (scraper b)).
Proof.
  intros Ha Hi. iteration_cases Hi; simpl.
  - done.
  - rewrite sleeps_app. simpl. lia.
  - rewrite !sleeps_app, length_app. simpl. lia.
Qed.

(** The visited set stays within the budget once it is within it. *)
Lemma budget_iteration (a b : crawl) :
  (Z.of_nat (size (visited_urls (scraper a))) ≤ 0 `max` max_pages (scraper a))%Z →
  iteration a b →
  (Z.of_nat (size (visited_urls (scraper b))) ≤ 0 `max` max_pages (scraper b))%Z.
Proof.
  intros Ha Hi. iteration_cases Hi; simpl; [done| |];
    rewrite size_union, size_singleton by (by apply disjoint_singleton_l); lia.
Qed.

Lemma parseable_iteration (a b : crawl) :
  parseable a → iteration a b → parseable b.
Proof.
  unfold parseable.
  intros Ha Hi. iteration_cases Hi;
    rewrite Hq in Ha; apply Forall_cons in Ha as [_ Ha]; simpl; [done|done|].
  apply Forall_app. split; [done|].
  eapply Forall_impl; [by eapply scrape_page_links|].
  intros l [(parsed & -> & _)%is_valid_url_spec _]. by eexists.
Qed.

(** *** The loop ends *)

(** A run of the body either leaves the visited set alone and shortens the
    frontier, or uses up one unit of the budget that is left. *)
Lemma iteration_measure (a b : crawl) :
  iteration a b →
  visited_urls (scraper b) = visited_urls (scraper a)
  ∧ length (urls_to_visit b) < length (urls_to_visit a)
  ∨ Z.to_nat (max_pages (scraper b) - Z.of_nat (size (visited_urls (scraper b))))
    < Z.to_nat (max_pages (scraper a) - Z.of_nat (size (visited_urls (scraper a)))).
Proof.
  intros Hi. iteration_cases Hi; simpl.
  - left. rewrite Hq. simpl. split; [done|lia].
  - right. rewrite size_union, size_singleton by (by apply disjoint_singleton_l). lia.
  - right. rewrite size_union, size_singleton by (by apply disjoint_singleton_l). lia.
Qed.

Lemma scrape_website_terminates (st : crawl) : ∃ r, scrape_website st r.
Proof.
  remember (Z.to_nat (max_pages (scraper st)
                      - Z.of_nat (size (visited_urls (scraper st))))) as m eqn:Hm.
  revert st Hm. induction m as [m IHm] using lt_wf_ind. intros st Hm.
  remember (length (urls_to_visit st)) as k eqn:Hk.
  revert st Hm Hk. induction k as [k IHk] using lt_wf_ind. intros st Hm Hk.
  destruct (loop_body st) as [| |st1] eqn:Hb.
  - exists (Finished st), st. split; [apply rtc_refl|by left].
  - exists (Raised st), st. split; [apply rtc_refl|by right].
  - assert (Hi : iteration st st1) by (by apply step_iteration).
    assert (∃ r, scrape_website st1 r) as (r & st' & Hrtc & Hend).
    { destruct (iteration_measure _ _ Hi) as [[Hv Hl]|Hlt].
      - apply (IHk (length (urls_to_visit st1))); [lia| |done].
        destruct (iteration_fields _ _ Hi) as (_ & _ & ->). by rewrite Hv.
      - eapply IHm; [|done]. lia. }
    exists r, st'. split; [|done]. by eapply rtc_l.
Qed.

(** The only exception that can leave the loop is [urlparse]'s, on the
    URL taken from the frontier. *)
Lemma loop_body_Raise (st : crawl) :
  loop_body st = Raise →
  ∃ url rest, urls_to_visit st = url :: rest ∧ urlparse url = None.
Proof.
  unfold loop_body.
  destruct (urls_to_visit st) as [|url rest]; [done|].
  case_bool_decide; [|done].
  unfold normalize_url. destruct (urlparse url) as [parsed|] eqn:Hp; simpl.
  - case_bool_decide; [done|].
    destruct (scrape_page _ url) as [links text].
    destruct (negb _); [done|]. by case_bool_decide.
  - intros _. by exists url, rest.
Qed.

Lemma loop_body_Halt (st : crawl) :
  loop_body st = Halt ↔
  urls_to_visit st = []
  ∨ (max_pages (scraper st) ≤ Z.of_nat (size (visited_urls (scraper st))))%Z.
Proof.
  unfold loop_body.
  destruct (urls_to_visit st) as [|url rest]; [naive_solver|].
  case_bool_decide as Hb.
  - split; [|intros [|]; [done|lia]].
    destruct (normalize_url url) as [n|]; [|done].
    case_bool_decide; [done|].
    destruct (scrape_page _ url) as [links text].
    destruct (negb _); [done|]. by case_bool_decide.
  - split; [|done]. intros _. right. lia.
Qed.

(** A crawl that starts with a frontier [urlparse] accepts runs to the
    end of the loop. *)
Lemma parseable_finishes (st : crawl) :
  parseable st → ∃ final, scrape_website st (Finished final).
Proof.
  intros Hp. destruct (scrape_website_terminates st) as (r & st' & Hrtc & Hend).
  destruct Hend as [[Hh ->]|[Hr ->]].
  - exists st', st'. split; [done|by left].
  - apply loop_body_Raise in Hr as (url & rest & Hq & Hnone).
    assert (Hp' : parseable st')
      by (eapply crawl_invariant; [exact Hp|apply parseable_iteration|done]).
    unfold parseable in Hp'. rewrite Hq in Hp'.
    apply Forall_cons in Hp' as [[? Hsome] _]. congruence.
Qed.

Lemma start_parseable (url : string) (budget : Z) (self : WebsiteScraper) :
  __init__ url budget = Some self → parseable (start self).
Proof.
  intros (Hu & _ & _ & _ & _ & parsed & Hp & _)%init_fields.
  unfold parseable, start. simpl. rewrite Hu. repeat constructor. by eexists.
Qed.

(** *** Requests along a crawl *)

(** From any state on, the visited set only grows, and every later request
    is for a URL whose normalized form was not in the visited set. *)
Lemma crawl_fetches (a b : crawl) :
  rtc step a b →
  visited_urls (scraper a) ⊆ visited_urls (scraper b)
  ∧ ∃ new, fetched (trace b) = fetched (trace a) ++ new
      ∧ Forall (λ url, ∃ n, normalize_url url = Some n
                            ∧ (n ∉ visited_urls (scraper a))
                            ∧ n ∈ visited_urls (scraper b)) new.
Proof.
  intros Hrtc. induction Hrtc as [a|a a1 b Hs _ (Hsub & new & Hf & Hnew)].
  { split; [done|]. exists []. by rewrite app_nil_r. }
  apply step_iteration in Hs. rename Hs into Hi.
  iteration_cases Hi; simpl in *.
  - split; [done|]. by exists new.
  - split; [by etrans; [apply union_subseteq_r|]|].
    exists (u :: new). rewrite Hf, fetched_app, <-app_assoc. split; [done|].
    constructor.
    + exists n. split_and!; [done|done|]. apply Hsub, elem_of_union_l.
      by apply elem_of_singleton.
    + eapply Forall_impl; [exact Hnew|]. intros v (m & ? & Hm & ?).
      exists m. split_and!; [done| |done].
      intros Hin. apply Hm, elem_of_union_r, Hin.
  - split; [by etrans; [apply union_subseteq_r|]|].
    exists (u :: new). rewrite Hf, !fetched_app, <-!app_assoc. split; [done|].
    constructor.
    + exists n. split_and!; [done|done|]. apply Hsub, elem_of_union_l.
      by apply elem_of_singleton.
    + eapply Forall_impl; [exact Hnew|]. intros v (m & ? & Hm & ?).
      exists m. split_and!; [done| |done].
      intros Hin. apply Hm, elem_of_union_r, Hin.
Qed.

(** *** URL normalizer and scope filter *)

(** C8, as amended.  The scope filter answers true exactly for a URL whose
    netloc (user info, host and port as [urlparse] gives them, letter
    case kept) is not empty and is equal to the scraper's domain, the
    netloc of the seed: no other component of the URL is looked at, and
    the comparison is equality of the whole netloc, not of the host.  Hence every link that [get_all_links] returns
    is in scope, a run of the loop body adds only in-scope URLs to the
    frontier, and all along a crawl the frontier holds the seed and
    in-scope URLs only. *)
Theorem scope_filter_admits_the_domain_only (self : WebsiteScraper) :
  (∀ url,
     is_valid_url self url = Some true ↔
     ∃ parsed, urlparse url = Some parsed
       ∧ netloc parsed ≠ EmptyString ∧ netloc parsed = domain self)
  ∧ (∀ soup page_url links,
       get_all_links self soup page_url = Some links →
       Forall (λ l, is_valid_url self l = Some true) links)
  ∧ (∀ st st',
       scraper st = self → step st st' →
       Forall (λ l, l ∈ urls_to_visit st ∨ is_valid_url self l = Some true)
         (urls_to_visit st'))
  ∧ (∀ st,
       rtc step (start self) st →
       Forall (λ l, l = base_url self ∨ is_valid_url self l = Some true)
         (urls_to_visit st)).
Proof.
  assert (Hstep : ∀ st st', step st st' →
            Forall (λ l, l ∈ urls_to_visit st
                         ∨ is_valid_url (scraper st) l = Some true)
              (urls_to_visit st')).
  { intros st st' Hi%step_iteration.
    iteration_cases Hi; rewrite Hq; simpl.
    - apply Forall_forall. intros l Hl. left. by apply list_elem_of_further.
    - apply Forall_forall. intros l Hl. left. by apply list_elem_of_further.
    - apply Forall_app. split.
      + apply Forall_forall. intros l Hl. left. by apply list_elem_of_further.
      + eapply Forall_impl; [by eapply scrape_page_links|].
        intros l [Hl _]. right. by rewrite <-Hl. }
  split_and!.
  - intros url. split.
    + intros (parsed & Hp & Hiff)%is_valid_url_spec. exists parsed.
      split; [done|]. by apply Hiff.
    + intros (parsed & Hp & Hne & Heq). unfold is_valid_url. rewrite Hp. simpl.
      rewrite (bool_decide_eq_true_2 _ Heq). by destruct (netloc parsed).
  - intros soup page_url links (new & -> & Hnew)%get_all_links_from_spec.
    eapply Forall_impl; [exact Hnew|]. by intros l [? _].
  - intros st st' <- Hs. by apply Hstep.
  - intros st Hrtc.
    apply proj2 with (A := domain (scraper st) = domain self).
    apply (crawl_invariant
             (λ a, domain (scraper a) = domain self ∧
                   Forall (λ l, l = base_url self ∨ is_valid_url self l = Some true)
                     (urls_to_visit a)) (start self)); [| |done].
    + split; [done|]. simpl. repeat constructor.
    + intros a b [Hd Ha] Hi. split.
      { destruct (iteration_fields _ _ Hi) as (_ & -> & _). done. }
      apply step_iteration, Hstep in Hi.
      apply Forall_forall. intros l Hl.
      rewrite Forall_forall in Hi. destruct (Hi l Hl) as [Hold|Hnew].
      * rewrite Forall_forall in Ha. by apply Ha.
      * right. rewrite <-Hnew. by apply is_valid_url_domain.
Qed.

(** *** The paths through the loop body *)

(** C6.  When the text of the page taken from the frontier is empty or
    white space only, the run of the loop body creates no page block and
    no hash, and none of the page's links enters the frontier: the
    frontier afterwards is the rest of the frontier before. *)
Theorem blank_text_adds_no_record_and_no_link
    (st : crawl) (url : string) (rest : list string) (n : string)
    (links : list string) (text : string) :
  urls_to_visit st = url :: rest →
  (Z.of_nat (size (visited_urls (scraper st))) < max_pages (scraper st))%Z →
  normalize_url url = Some n →
  n ∉ visited_urls (scraper st) →
  scrape_page (add_visited (scraper st) n) url = (links, text) →
  all_space text = true →
  ∃ st', loop_body st = Next st'
    ∧ urls_to_visit st' = rest
    ∧ text_content (scraper st') = text_content (scraper st)
    ∧ text_hashes (scraper st') = text_hashes (scraper st).
Proof.
  intros Hq Hb Hn Hv Hs Hblank%strip_blank.
  eexists. split.
  - apply step_iteration. eapply iteration_dropped; eauto.
  - done.
Qed.

(** C7, as amended.  When the request for the URL taken from the frontier
    raises (a timeout, a network error), or answers with a status from 400
    to 599, or answers with a Content-Type that does not contain
    text/html, then [scrape_page] returns no links and no text (nothing
    is raised out of it), and the run of the loop body creates no page
    block, puts no link into the frontier and goes on with the rest of the
    frontier; the URL is in the visited set, and no later request of the
    crawl is for a URL with the same normalized form. *)
Theorem failed_fetch_is_skipped
    (st : crawl) (url : string) (rest : list string) (n : string) :
  urls_to_visit st = url :: rest →
  (Z.of_nat (size (visited_urls (scraper st))) < max_pages (scraper st))%Z →
  normalize_url url = Some n →
  n ∉ visited_urls (scraper st) →
  (requests_get url headers 10 = None
   ∨ ∃ response, requests_get url headers 10 = Some response
       ∧ ((400 ≤ status_code response < 600)%Z
          ∨ PyStr.contains "text/html"
              (PyStr.lower (default EmptyString (content_type response)))
            = false)) →
  scrape_page (add_visited (scraper st) n) url = ([], EmptyString)
  ∧ ∃ st', loop_body st = Next st'
      ∧ urls_to_visit st' = rest
      ∧ text_content (scraper st') = text_content (scraper st)
      ∧ text_hashes (scraper st') = text_hashes (scraper st)
      ∧ n ∈ visited_urls (scraper st')
      ∧ ∀ st2, rtc step st' st2 →
          ∃ new, fetched (trace st2) = (fetched (trace st) ++ [url]) ++ new
            ∧ Forall (λ u, normalize_url u ≠ Some n) new.
Proof.
  intros Hq Hb Hn Hv Hfail.
  assert (Hs : scrape_page (add_visited (scraper st) n) url = ([], EmptyString)).
  { unfold scrape_page, scrape_page_try.
    destruct Hfail as [->|(response & -> & [Hstatus|Htype])]; simpl; [done| |].
    - unfold raises_for_status. by rewrite (bool_decide_eq_true_2 _ Hstatus).
    - destruct (raises_for_status response); [done|]. by rewrite Htype. }
  split; [done|].
  eexists. split_and!.
  - apply step_iteration. eapply iteration_dropped; eauto.
  - done.
  - done.
  - done.
  - simpl. apply elem_of_union_l. by apply elem_of_singleton.
  - intros st2 (Hsub & new & Hf & Hnew)%crawl_fetches. exists new.
    simpl in *. rewrite fetched_app in Hf. split; [done|].
    eapply Forall_impl; [exact Hnew|]. intros u (m & Hm & Hnotin & _) Hu.
    rewrite Hu in Hm. injection Hm as <-. apply Hnotin, elem_of_union_l.
    by apply elem_of_singleton.
Qed.

(** C1, as amended.  When the text of the page taken from the frontier is
    not blank and its hash is already in the hash set, the run of the loop
    body ends at the hash check: no page block and no hash are added, and
    the page's links are not appended to the frontier, which is left with
    the rest of the frontier before; only the request is added to the
    events. *)
Theorem duplicate_text_adds_no_record_and_no_link
    (st : crawl) (url : string) (rest : list string) (n : string)
    (links : list string) (text : string) :
  urls_to_visit st = url :: rest →
  (Z.of_nat (size (visited_urls (scraper st))) < max_pages (scraper st))%Z →
  normalize_url url = Some n →
  n ∉ visited_urls (scraper st) →
  scrape_page (add_visited (scraper st) n) url = (links, text) →
  PyStr.truthy (PyStr.strip text) = true →
  md5_hexdigest text ∈ text_hashes (scraper st) →
  ∃ st', loop_body st = Next st'
    ∧ urls_to_visit st' = rest
    ∧ text_content (scraper st') = text_content (scraper st)
    ∧ text_hashes (scraper st') = text_hashes (scraper st)
    ∧ trace st' = trace st ++ [Fetch url].
Proof.
  intros Hq Hb Hn Hv Hs Ht Hh.
  eexists. split.
  - apply step_iteration. eapply iteration_dropped; eauto.
  - done.
Qed.

(** C2, as amended.  A run of the loop body pauses exactly when it creates
    a page block: either it adds no page block and no pause (the URL was
    visited before, nothing came of the request, the text is blank or was
    seen before), or it adds one page block and its events are the
    request followed by one pause.  So all along a crawl there are as many
    pauses as page blocks. *)
Theorem delay_only_after_a_new_record
    (url : string) (budget : Z) (self : WebsiteScraper) (st : crawl) :
  __init__ url budget = Some self →
  rtc step (start self) st →
  sleeps (trace st) = length (text_content (scraper st))
  ∧ ∀ st', step st st' →
      text_content (scraper st') = text_content (scraper st)
      ∧ sleeps (trace st') = sleeps (trace st)
      ∨ ∃ u n text,
          text_content (scraper st')
          = text_content (scraper st) ++ [page_content n text]
          ∧ trace st' = trace st ++ [Fetch u; Sleep].
Proof.
  intros (_ & _ & _ & _ & Hc & _)%init_fields Hrtc. split.
  - apply (crawl_invariant
             (λ a, sleeps (trace a) = length (text_content (scraper a)))
             (start self)); [|apply sleeps_iteration|done].
    simpl. by rewrite Hc.
  - intros st' Hi%step_iteration.
    iteration_cases Hi; simpl.
    + by left.
    + left. rewrite sleeps_app. simpl. split; [done|lia].
    + right. exists u, n, text. by rewrite <-app_assoc.
Qed.

(** *** Visited set and budget *)

Lemma start_visited_inv (url : string) (budget : Z) (self : WebsiteScraper) :
  __init__ url budget = Some self → visited_inv (start self).
Proof.
  intros (_ & _ & Hv & _)%init_fields. exists []. simpl.
  split_and!; [constructor|constructor|done].
Qed.

(** C3.  All along a crawl, the requested URLs have pairwise distinct
    normalized forms, and the visited set is the set of these forms.  A
    run of the loop body never takes a URL out of the visited set; when
    the normalized form of the URL taken from the frontier is in the
    visited set, no request is made; otherwise that form is put into the
    visited set and the URL is requested, whatever comes of the request,
    and the links gathered from the page were filtered against a visited
    set that already has it. *)
Theorem no_url_is_fetched_twice
    (url : string) (budget : Z) (self : WebsiteScraper) (st : crawl) :
  __init__ url budget = Some self →
  rtc step (start self) st →
  (∃ ns, Forall2 (λ u n, normalize_url u = Some n) (fetched (trace st)) ns
     ∧ NoDup ns
     ∧ visited_urls (scraper st) = list_to_set ns)
  ∧ ∀ st', step st st' →
      visited_urls (scraper st) ⊆ visited_urls (scraper st')
      ∧ ∃ u rest n,
          urls_to_visit st = u :: rest
          ∧ normalize_url u = Some n
          ∧ n ∈ visited_urls (scraper st')
          ∧ (n ∈ visited_urls (scraper st) →
             fetched (trace st') = fetched (trace st)
             ∧ visited_urls (scraper st') = visited_urls (scraper st))
          ∧ (n ∉ visited_urls (scraper st) →
             fetched (trace st') = fetched (trace st) ++ [u]
             ∧ visited_urls (scraper st') = {[n]} ∪ visited_urls (scraper st)
             ∧ ∃ links, urls_to_visit st' = rest ++ links
                 ∧ Forall (λ l, l ∉ visited_urls (scraper st')) links).
Proof.
  intros Hinit Hrtc. split.
  - apply (crawl_invariant visited_inv (start self));
      [by eapply start_visited_inv|apply visited_inv_iteration|done].
  - intros st' Hi%step_iteration.
    iteration_cases Hi; simpl.
    + split; [done|]. exists u, rest, n. split_and!; done.
    + split; [apply union_subseteq_r|]. exists u, rest, n.
      split_and!; [done|done| |done|].
      { apply elem_of_union_l. by apply elem_of_singleton. }
      intros _. rewrite fetched_app. split_and!; [done|done|].
      exists []. by rewrite app_nil_r.
    + split; [apply union_subseteq_r|]. exists u, rest, n.
      split_and!; [done|done| |done|].
      { apply elem_of_union_l. by apply elem_of_singleton. }
      intros _. rewrite !fetched_app, app_nil_r. split_and!; [done|done|].
      exists links. split; [done|].
      eapply Forall_impl; [by eapply scrape_page_links|]. by intros l [_ ?].
Qed.

(** C4.  With a budget that is not negative, the crawl of a new scraper
    runs to the end of its loop, and then the visited set has at most
    [budget] elements, one for each request made; the loop stopped because
    the frontier is empty or because the visited set has [budget]
    elements.  The loop stops in any state whose visited set has reached
    the budget, whatever the frontier holds.  With a budget of one, the
    seed is the one URL requested. *)
Theorem crawl_stays_within_budget
    (url : string) (budget : Z) (self : WebsiteScraper) :
  (0 ≤ budget)%Z →
  __init__ url budget = Some self →
  (∃ final, scrape_website (start self) (Finished final)
     ∧ (Z.of_nat (size (visited_urls (scraper final))) ≤ budget)%Z
     ∧ length (fetched (trace final)) = size (visited_urls (scraper final))
     ∧ (urls_to_visit final = []
        ∨ Z.of_nat (size (visited_urls (scraper final))) = budget)
     ∧ (budget = 1%Z → fetched (trace final) = [url]))
  ∧ ∀ st, (max_pages (scraper st) ≤ Z.of_nat (size (visited_urls (scraper st))))%Z →
      loop_body st = Halt.
Proof.
  intros Hbudget Hinit. split; [|intros st Hst; apply loop_body_Halt; by right].
  destruct (parseable_finishes (start self)) as (final & Hfinal);
    [by eapply start_parseable|].
  exists final. split; [done|].
  destruct Hfinal as (st' & Hrtc & [[Hhalt [= ->]]|[_ [=]]]).
  pose proof (init_fields _ _ _ Hinit) as (Hu & Hm & Hv & _ & _ & parsed & Hp & _).
  destruct (crawl_fields _ _ Hrtc) as (_ & _ & Hmax). simpl in Hmax.
  assert (Hle : (Z.of_nat (size (visited_urls (scraper st'))) ≤ budget)%Z).
  { assert (Z.of_nat (size (visited_urls (scraper st')))
            ≤ 0 `max` max_pages (scraper st'))%Z as Hinv.
    { apply (crawl_invariant
               (λ a, (Z.of_nat (size (visited_urls (scraper a)))
                      ≤ 0 `max` max_pages (scraper a))%Z) (start self));
        [|apply budget_iteration|done].
      simpl. rewrite Hv, size_empty. lia. }
    rewrite Hmax, Hm in Hinv. lia. }
  split_and!.
  - done.
  - assert (visited_inv st') as (ns & Hf & Hnd & ->).
    { apply (crawl_invariant visited_inv (start self));
        [by eapply start_visited_inv|apply visited_inv_iteration|done]. }
    rewrite size_list_to_set by done. by eapply Forall2_length.
  - apply loop_body_Halt in Hhalt as [?|Hge]; [by left|right].
    rewrite Hmax, Hm in Hge. lia.
  - intros ->.
    (* the first run of the body requests the seed and fills the budget *)
    destruct (loop_body (start self)) as [| |st1] eqn:Hb1.
    { apply loop_body_Halt in Hb1 as [?|Hge]; [done|].
      simpl in Hge. rewrite Hm, Hv, size_empty in Hge. lia. }
    { apply loop_body_Raise in Hb1 as (u & rest & [= <- <-] & Hnone).
      rewrite Hu in Hnone. congruence. }
    assert (Hi : iteration (start self) st1) by (by apply step_iteration).
    assert (Hst1 : fetched (trace st1) = [url]
                   ∧ size (visited_urls (scraper st1)) = 1
                   ∧ max_pages (scraper st1) = 1%Z).
    { rename Hv into Hempty. iteration_cases Hi;
        simpl in *; injection Hq as <- <-; rewrite Hempty in *.
      - by apply not_elem_of_empty in Hv.
      - rewrite Hu, union_empty_r_L, size_singleton. done.
      - rewrite Hu, union_empty_r_L, size_singleton. done. }
    destruct Hst1 as (Hf1 & Hsz1 & Hm1).
    assert (Hh1 : loop_body st1 = Halt).
    { apply loop_body_Halt. right. rewrite Hm1, Hsz1. lia. }
    inversion Hrtc as [|? st1' ? Hs Hrest]; subst.
    + rewrite Hb1 in Hhalt. done.
    + unfold step in Hs. rewrite Hb1 in Hs. injection Hs as <-.
      inversion Hrest as [|? st2 ? Hs2 _]; subst; [done|].
      unfold step in Hs2. rewrite Hh1 in Hs2. done.
Qed.

(** *** Content-hash deduplication *)

Lemma start_records_inv (url : string) (budget : Z) (self : WebsiteScraper) :
  __init__ url budget = Some self → records_inv (start self).
Proof.
  intros (_ & _ & _ & Hh & Hc & _)%init_fields. exists []. simpl.
  split_and!; [done|constructor|done].
Qed.

Lemma crawl_records_inv (url : string) (budget : Z) (self : WebsiteScraper)
    (st : crawl) :
  __init__ url budget = Some self → rtc step (start self) st → records_inv st.
Proof.
  intros Hinit Hrtc.
  apply (crawl_invariant records_inv (start self));
    [by eapply start_records_inv|apply records_inv_iteration|done].
Qed.

(** C5.  All along a crawl the page blocks are those of a list of
    (normalized URL, text) records in which no text occurs twice: a text
    has at most one record.  When the text of the page taken from the
    frontier is the text of a record, its hash is in the hash set and the
    run of the loop body creates no page block. *)
Theorem identical_text_is_recorded_once
    (url : string) (budget : Z) (self : WebsiteScraper) (st : crawl) :
  __init__ url budget = Some self →
  rtc step (start self) st →
  ∃ recs : list (string * string),
    text_content (scraper st) = (λ r, page_content r.1 r.2) <$> recs
    ∧ NoDup recs.*2
    ∧ ∀ u rest n links text st',
        urls_to_visit st = u :: rest →
        normalize_url u = Some n →
        n ∉ visited_urls (scraper st) →
        scrape_page (add_visited (scraper st) n) u = (links, text) →
        text ∈ recs.*2 →
        step st st' →
        md5_hexdigest text ∈ text_hashes (scraper st)
        ∧ text_content (scraper st') = text_content (scraper st).
Proof.
  intros Hinit Hrtc.
  destruct (crawl_records_inv _ _ _ _ Hinit Hrtc) as (recs & Hc & Hnd & Hh).
  exists recs. split_and!; [done|by eapply NoDup_fmap_1|].
  intros u rest n links text st' Hq Hn Hv Hs Hin Hi%step_iteration.
  assert (Hhash : md5_hexdigest text ∈ text_hashes (scraper st)).
  { rewrite Hh. apply elem_of_list_to_set. by apply list_elem_of_fmap_2. }
  split; [done|].
  destruct Hi as [u' rest' n' Hq' _ Hn' Hv'
                 |u' rest' n' links' text' Hq' _ Hn' Hv' Hs' Hd
                 |u' rest' n' links' text' Hq' _ Hn' Hv' Hs' Ht Hh'];
    [done|done|].
  rewrite Hq in Hq'. injection Hq' as <- <-.
  rewrite Hn in Hn'. injection Hn' as <-.
  rewrite Hs in Hs'. injection Hs' as <- <-. done.
Qed.

(** C10.  All along a crawl there are as many page blocks as hashes in the
    hash set, and the page blocks are those of records with pairwise
    distinct texts whose hashes are the elements of the hash set.  A run
    of the loop body either leaves the page blocks and the hash set as
    they are, or adds one page block together with the hash of its text,
    which was not in the set; none is ever removed. *)
Theorem records_match_content_hashes
    (url : string) (budget : Z) (self : WebsiteScraper) (st : crawl) :
  __init__ url budget = Some self →
  rtc step (start self) st →
  length (text_content (scraper st)) = size (text_hashes (scraper st))
  ∧ (∃ recs : list (string * string),
       text_content (scraper st) = (λ r, page_content r.1 r.2) <$> recs
       ∧ NoDup recs.*2
       ∧ text_hashes (scraper st) = list_to_set (md5_hexdigest <$> recs.*2))
  ∧ ∀ st', step st st' →
      text_content (scraper st') = text_content (scraper st)
      ∧ text_hashes (scraper st') = text_hashes (scraper st)
      ∨ ∃ n text,
          text_content (scraper st')
          = text_content (scraper st) ++ [page_content n text]
          ∧ text_hashes (scraper st')
            = {[md5_hexdigest text]} ∪ text_hashes (scraper st)
          ∧ md5_hexdigest text ∉ text_hashes (scraper st).
Proof.
  intros Hinit Hrtc.
  destruct (crawl_records_inv _ _ _ _ Hinit Hrtc) as (recs & Hc & Hnd & Hset).
  split_and!.
  - rewrite Hc, Hset, size_list_to_set by done. by rewrite !length_fmap.
  - exists recs. split_and!; [done|by eapply NoDup_fmap_1|done].
  - intros st' Hi%step_iteration.
    iteration_cases Hi; simpl.
    + by left.
    + by left.
    + right. by exists n, text.
Qed.

End results.

(** ** The crawl of the example site *)

Lemma site_init (budget : Z) :
  __init__ (E := Site.web) "https://example.com" budget
  = Some (Site.scraper_for budget).
Proof. reflexivity. Qed.

Lemma site_reach (n : nat) :
  iterations (E := Site.web) n (start (Site.scraper_for 1000)) = Some (Site.after n) →
  rtc (step (E := Site.web)) (start (Site.scraper_for 1000)) (Site.after n).
Proof. apply iterations_rtc. Qed.

(** The whole crawl: eight requests, four page blocks; the pages d and e
    are never requested. *)
Example site_crawl :
  ∃ final,
    scrape_website_fuel (E := Site.web) 10 (start (Site.scraper_for 1000))
    = Some (Finished final)
    ∧ trace final
      = [Fetch "https://example.com"; Sleep;
         Fetch "https://example.com/a"; Sleep;
         Fetch "https://example.com/b";
         Fetch "https://example.com/missing";
         Fetch "https://example.com/choices"; Sleep;
         Fetch "https://example.com/file.pdf";
         Fetch "https://example.com/blank";
         Fetch "https://example.com/c"; Sleep]
    ∧ text_content (scraper final)
      = [page_content "https://example.com" "Home";
         page_content "https://example.com/a" "Same text";
         page_content "https://example.com/choices" "Choose";
         page_content "https://example.com/c" "Page c"]
    ∧ urls_to_visit final = [].
Proof. eexists. split; [vm_compute; reflexivity|]. vm_compute. done. Qed.

(** Two links that differ in query and fragment are one normalized URL,
    in the frontier twice and requested once. *)
Example site_frontier_after_seed :
  urls_to_visit (Site.after 1)
  = ["https://example.com/a"; "https://example.com/a"; "https://example.com/b";
     "https://example.com/missing"; "https://example.com/choices";
     "https://example.com/file.pdf"; "https://example.com/blank"]%string.
Proof. vm_compute. reflexivity. Qed.

(** With a budget of one the loop stops after the seed, with seven URLs
    still in the frontier. *)
Example site_budget_one :
  ∃ final,
    scrape_website_fuel (E := Site.web) 2 (start (Site.scraper_for 1))
    = Some (Finished final)
    ∧ trace final = [Fetch "https://example.com"; Sleep]
    ∧ length (urls_to_visit final) = 7.
Proof. eexists. split; [vm_compute; reflexivity|]. vm_compute. done. Qed.

(** The filter compares the whole netloc: another scheme is in scope, a
    subdomain or a netloc with a port is not. *)
Example site_scope :
  is_valid_url (E := Site.web) (Site.scraper_for 1000) "https://example.com/a" = Some true
  ∧ is_valid_url (E := Site.web) (Site.scraper_for 1000) "ftp://example.com/a" = Some true
  ∧ is_valid_url (E := Site.web) (Site.scraper_for 1000) "https://www.example.com/a" = Some false
  ∧ is_valid_url (E := Site.web) (Site.scraper_for 1000) "https://example.com:443/a" = Some false
  ∧ is_valid_url (E := Site.web) (Site.scraper_for 1000) "https://other.org/" = Some false
  ∧ is_valid_url (E := Site.web) (Site.scraper_for 1000) "/a" = Some false.
Proof. vm_compute. done. Qed.

Example site_normalize :
  normalize_url (E := Site.web) "https://example.com/a?x=1" = Some "https://example.com/a"%string
  ∧ normalize_url (E := Site.web) "https://example.com/a?x=2#top" = Some "https://example.com/a"%string
  ∧ normalize_url (E := Site.web) "HTTPS://example.com:8080/a/b;p?q#f"
    = Some "https://example.com:8080/a/b;p"%string.
Proof. vm_compute. done. Qed.

(** *** C1 *)

(** The page b has the text of the page a, already recorded: its link to
    the page d is returned by [scrape_page] and is not appended to the
    frontier, and d is never requested. *)
Lemma duplicate_page_links_are_dropped :
  let st := Site.after 3 in
  let rest := ["https://example.com/missing"; "https://example.com/choices";
               "https://example.com/file.pdf"; "https://example.com/blank";
               "https://example.com/c"]%string in
  urls_to_visit st = "https://example.com/b"%string :: rest
  ∧ scrape_page (E := Site.web)
      (add_visited (scraper st) "https://example.com/b") "https://example.com/b"
    = (["https://example.com/d"%string], "Same text"%string)
  ∧ bool_decide (md5_hexdigest (Externals := Site.web) "Same text"
                 ∈ text_hashes (scraper st)) = true
  ∧ loop_body (E := Site.web) st = Next (Site.after 4)
  ∧ urls_to_visit (Site.after 4) = rest
  ∧ loop_body (E := Site.web) (Site.after 9) = Halt
  ∧ fetched (trace (Site.after 9))
    = ["https://example.com"; "https://example.com/a"; "https://example.com/b";
       "https://example.com/missing"; "https://example.com/choices";
       "https://example.com/file.pdf"; "https://example.com/blank";
       "https://example.com/c"]%string.
Proof. vm_compute. done. Qed.

Lemma duplicate_text_adds_no_record_and_no_link_witness :
  let st := Site.after 3 in
  let rest := ["https://example.com/missing"; "https://example.com/choices";
               "https://example.com/file.pdf"; "https://example.com/blank";
               "https://example.com/c"]%string in
  urls_to_visit st = "https://example.com/b"%string :: rest
  ∧ scrape_page (E := Site.web)
      (add_visited (scraper st) "https://example.com/b") "https://example.com/b"
    = (["https://example.com/d"%string], "Same text"%string)
  ∧ ∃ st', loop_body (E := Site.web) st = Next st'
      ∧ urls_to_visit st' = rest
      ∧ text_content (scraper st') = text_content (scraper st)
      ∧ text_hashes (scraper st') = text_hashes (scraper st)
      ∧ trace st' = trace st ++ [Fetch "https://example.com/b"].
Proof.
  intros st rest.
  split; [vm_compute; reflexivity|]. split; [vm_compute; reflexivity|].
  apply (duplicate_text_adds_no_record_and_no_link (E := Site.web) st
           "https://example.com/b" rest "https://example.com/b"
           ["https://example.com/d"%string] "Same text").
  - vm_compute. reflexivity.
  - vm_compute. reflexivity.
  - vm_compute. reflexivity.
  - apply (bool_decide_eq_true_1 _). vm_compute. reflexivity.
  - vm_compute. reflexivity.
  - vm_compute. reflexivity.
  - apply (bool_decide_eq_true_1 _). vm_compute. reflexivity.
Defined.

(** *** C2 *)

(** The requests for b (a text seen before), for the missing page (404)
    and for the next page follow each other with no pause between
    them. *)
Lemma no_delay_after_a_dropped_page :
  trace (Site.after 6)
  = [Fetch "https://example.com"; Sleep;
     Fetch "https://example.com/a"; Sleep;
     Fetch "https://example.com/b";
     Fetch "https://example.com/missing";
     Fetch "https://example.com/choices"; Sleep]
  ∧ loop_body (E := Site.web) (Site.after 4) = Next (Site.after 5)
  ∧ trace (Site.after 5)
    = trace (Site.after 4) ++ [Fetch "https://example.com/missing"].
Proof. vm_compute. done. Qed.

Lemma delay_only_after_a_new_record_witness :
  __init__ (E := Site.web) "https://example.com" 1000 = Some (Site.scraper_for 1000)
  ∧ rtc (step (E := Site.web)) (start (Site.scraper_for 1000)) (Site.after 4)
  ∧ sleeps (trace (Site.after 4)) = length (text_content (scraper (Site.after 4)))
  ∧ ∀ st', step (E := Site.web) (Site.after 4) st' →
      text_content (scraper st') = text_content (scraper (Site.after 4))
      ∧ sleeps (trace st') = sleeps (trace (Site.after 4))
      ∨ ∃ u n text,
          text_content (scraper st')
          = text_content (scraper (Site.after 4)) ++ [page_content n text]
          ∧ trace st' = trace (Site.after 4) ++ [Fetch u; Sleep].
Proof.
  split; [apply site_init|].
  split; [apply site_reach; vm_compute; reflexivity|].
  apply (delay_only_after_a_new_record (E := Site.web)
           "https://example.com" 1000 (Site.scraper_for 1000) (Site.after 4)).
  - apply site_init.
  - apply site_reach. vm_compute. reflexivity.
Defined.

(** *** C3 *)

Lemma no_url_is_fetched_twice_witness :
  __init__ (E := Site.web) "https://example.com" 1000 = Some (Site.scraper_for 1000)
  ∧ rtc (step (E := Site.web)) (start (Site.scraper_for 1000)) (Site.after 2)
  ∧ ∃ ns,
      Forall2 (λ u n, normalize_url (E := Site.web) u = Some n)
        (fetched (trace (Site.after 2))) ns
      ∧ NoDup ns
      ∧ visited_urls (scraper (Site.after 2)) = list_to_set ns.
Proof.
  split; [apply site_init|].
  split; [apply site_reach; vm_compute; reflexivity|].
  apply (no_url_is_fetched_twice (E := Site.web)
           "https://example.com" 1000 (Site.scraper_for 1000) (Site.after 2)).
  - apply site_init.
  - apply site_reach. vm_compute. reflexivity.
Defined.

(** *** C4 *)

Lemma crawl_stays_within_budget_witness :
  (0 ≤ 1)%Z
  ∧ __init__ (E := Site.web) "https://example.com" 1 = Some (Site.scraper_for 1)
  ∧ ∃ final,
      scrape_website (E := Site.web) (start (Site.scraper_for 1)) (Finished final)
      ∧ (Z.of_nat (size (visited_urls (scraper final))) ≤ 1)%Z
      ∧ length (fetched (trace final)) = size (visited_urls (scraper final))
      ∧ (urls_to_visit final = []
         ∨ Z.of_nat (size (visited_urls (scraper final))) = 1%Z)
      ∧ (1%Z = 1%Z → fetched (trace final) = ["https://example.com"%string]).
Proof.
  split; [lia|]. split; [apply site_init|].
  apply (crawl_stays_within_budget (E := Site.web)
           "https://example.com" 1 (Site.scraper_for 1)).
  - lia.
  - apply site_init.
Defined.

(** *** C5 *)

Lemma identical_text_is_recorded_once_witness :
  __init__ (E := Site.web) "https://example.com" 1000 = Some (Site.scraper_for 1000)
  ∧ rtc (step (E := Site.web)) (start (Site.scraper_for 1000)) (Site.after 3)
  ∧ ∃ recs : list (string * string),
      text_content (scraper (Site.after 3)) = (λ r, page_content r.1 r.2) <$> recs
      ∧ NoDup recs.*2
      ∧ ∀ u rest n links text st',
          urls_to_visit (Site.after 3) = u :: rest →
          normalize_url (E := Site.web) u = Some n →
          n ∉ visited_urls (scraper (Site.after 3)) →
          scrape_page (E := Site.web) (add_visited (scraper (Site.after 3)) n) u
          = (links, text) →
          text ∈ recs.*2 →
          step (E := Site.web) (Site.after 3) st' →
          md5_hexdigest (Externals := Site.web) text
          ∈ text_hashes (scraper (Site.after 3))
          ∧ text_content (scraper st') = text_content (scraper (Site.after 3)).
Proof.
  split; [apply site_init|].
  split; [apply site_reach; vm_compute; reflexivity|].
  apply (identical_text_is_recorded_once (E := Site.web)
           "https://example.com" 1000 (Site.scraper_for 1000) (Site.after 3)).
  - apply site_init.
  - apply site_reach. vm_compute. reflexivity.
Defined.

(** *** C6 *)

Lemma blank_text_adds_no_record_and_no_link_witness :
  let st := Site.after 7 in
  urls_to_visit st = ["https://example.com/blank"; "https://example.com/c"]%string
  ∧ scrape_page (E := Site.web)
      (add_visited (scraper st) "https://example.com/blank")
      "https://example.com/blank"
    = (["https://example.com/e"%string], EmptyString)
  ∧ ∃ st', loop_body (E := Site.web) st = Next st'
      ∧ urls_to_visit st' = ["https://example.com/c"%string]
      ∧ text_content (scraper st') = text_content (scraper st)
      ∧ text_hashes (scraper st') = text_hashes (scraper st).
Proof.
  intros st.
  split; [vm_compute; reflexivity|]. split; [vm_compute; reflexivity|].
  apply (blank_text_adds_no_record_and_no_link (E := Site.web) st
           "https://example.com/blank" ["https://example.com/c"%string]
           "https://example.com/blank" ["https://example.com/e"%string] EmptyString).
  - vm_compute. reflexivity.
  - vm_compute. reflexivity.
  - vm_compute. reflexivity.
  - apply (bool_decide_eq_true_1 _). vm_compute. reflexivity.
  - vm_compute. reflexivity.
  - reflexivity.
Defined.

(** *** C7 *)

(** The page choices answers with the status 300, which is no 2xx status
    and for which [raise_for_status] does not raise: its text is
    recorded. *)
Lemma page_with_status_300_is_recorded :
  requests_get (Externals := Site.web) "https://example.com/choices" headers 10
  = Some (mkResponse 300 (Some "text/html; charset=utf-8"%string) "<p>Choose</p>")
  ∧ raises_for_status
      (mkResponse 300 (Some "text/html; charset=utf-8"%string) "<p>Choose</p>")
    = false
  ∧ loop_body (E := Site.web) (Site.after 5) = Next (Site.after 6)
  ∧ urls_to_visit (Site.after 5)
    = ["https://example.com/choices"; "https://example.com/file.pdf";
       "https://example.com/blank"; "https://example.com/c"]%string
  ∧ text_content (scraper (Site.after 6))
    = text_content (scraper (Site.after 5))
      ++ [page_content "https://example.com/choices" "Choose"].
Proof. vm_compute. done. Qed.

Lemma failed_fetch_is_skipped_witness :
  let st := Site.after 4 in
  let rest := ["https://example.com/choices"; "https://example.com/file.pdf";
               "https://example.com/blank"; "https://example.com/c"]%string in
  urls_to_visit st = "https://example.com/missing"%string :: rest
  ∧ requests_get (Externals := Site.web) "https://example.com/missing" headers 10
    = Some (mkResponse 404 (Some "text/html; charset=utf-8"%string) "<p>Not found</p>")
  ∧ scrape_page (E := Site.web)
      (add_visited (scraper st) "https://example.com/missing")
      "https://example.com/missing"
    = ([], EmptyString)
  ∧ ∃ st', loop_body (E := Site.web) st = Next st'
      ∧ urls_to_visit st' = rest
      ∧ text_content (scraper st') = text_content (scraper st)
      ∧ text_hashes (scraper st') = text_hashes (scraper st)
      ∧ "https://example.com/missing"%string ∈ visited_urls (scraper st')
      ∧ ∀ st2, rtc (step (E := Site.web)) st' st2 →
          ∃ new,
            fetched (trace st2)
            = (fetched (trace st) ++ ["https://example.com/missing"%string]) ++ new
            ∧ Forall (λ u, normalize_url (E := Site.web) u
                           ≠ Some "https://example.com/missing"%string) new.
Proof.
  intros st rest.
  split; [vm_compute; reflexivity|]. split; [vm_compute; reflexivity|].
  apply (failed_fetch_is_skipped (E := Site.web) st
           "https://example.com/missing" rest "https://example.com/missing").
  - vm_compute. reflexivity.
  - vm_compute. reflexivity.
  - vm_compute. reflexivity.
  - apply (bool_decide_eq_true_1 _). vm_compute. reflexivity.
  - right. eexists. split; [vm_compute; reflexivity|]. left. simpl. lia.
Defined.

(** *** C10 *)

Lemma records_match_content_hashes_witness :
  __init__ (E := Site.web) "https://example.com" 1000 = Some (Site.scraper_for 1000)
  ∧ rtc (step (E := Site.web)) (start (Site.scraper_for 1000)) (Site.after 9)
  ∧ length (text_content (scraper (Site.after 9))) = 4
  ∧ size (text_hashes (scraper (Site.after 9))) = 4.
Proof.
  split; [apply site_init|].
  split; [apply site_reach; vm_compute; reflexivity|].
  destruct (records_match_content_hashes (E := Site.web)
              "https://example.com" 1000 (Site.scraper_for 1000) (Site.after 9))
    as [Hlen _].
  - apply site_init.
  - apply site_reach. vm_compute. reflexivity.
  - split; [vm_compute; reflexivity|]. rewrite <-Hlen. vm_compute. reflexivity.
Defined.

(** ** Text extraction, link discovery and the crawl as a whole *)

Section string_facts.
#[local] Arguments String.append !_ _ / : simpl nomatch.
#[local] Arguments Ascii.eqb : simpl never.

(** *** Stripping, splitting and joining keep a chunk clean *)

Lemma lstrip_starts (s : string) : starts_space (PyStr.lstrip s) = false.
Proof.
  induction s as [|c s IH]; simpl; [done|].
  destruct (PyStr.isspace c) eqn:Hc; [done|]. simpl. done.
Qed.

Lemma rstrip_ends (s : string) : ends_space (PyStr.rstrip s) = false.
Proof.
  induction s as [|c s IH]; simpl; [done|].
  destruct (PyStr.rstrip s) as [|d r] eqn:Hr; simpl.
  - by destruct (PyStr.isspace c) eqn:Hc; simpl; [|rewrite Hc].
  - rewrite andb_false_r. simpl. exact IH.
Qed.

Lemma ends_space_cons (c d : ascii) (s : string) :
  ends_space (String c (String d s)) = ends_space (String d s).
Proof. reflexivity. Qed.

Lemma lstrip_ends (s : string) :
  ends_space s = false → ends_space (PyStr.lstrip s) = false.
Proof.
  induction s as [|c s IH]; [done|].
  destruct s as [|d s].
  - simpl. intros Hc. rewrite Hc. simpl. exact Hc.
  - rewrite ends_space_cons. intros Hs.
    change (PyStr.lstrip (String c (String d s)))
      with (if PyStr.isspace c then PyStr.lstrip (String d s)
            else String c (String d s)).
    destruct (PyStr.isspace c); [by apply IH|done].
Qed.

Lemma lstrip_id (s : string) : starts_space s = false → PyStr.lstrip s = s.
Proof. destruct s as [|c s]; simpl; [done|]. by intros ->. Qed.

Lemma rstrip_id (s : string) : ends_space s = false → PyStr.rstrip s = s.
Proof.
  induction s as [|c s IH]; [done|].
  destruct s as [|d s].
  - simpl. by intros ->.
  - rewrite ends_space_cons. intros Hs. specialize (IH Hs).
    change (PyStr.rstrip (String c (String d s)))
      with (let r := PyStr.rstrip (String d s) in
            if PyStr.isspace c && negb (PyStr.truthy r) then EmptyString
            else String c r).
    rewrite IH. simpl. by rewrite andb_false_r.
Qed.

Lemma strip_id (s : string) :
  starts_space s = false → ends_space s = false → PyStr.strip s = s.
Proof. intros Hs He. unfold PyStr.strip. by rewrite rstrip_id, lstrip_id. Qed.

Lemma one_line_lstrip (s : string) : one_line s = true → one_line (PyStr.lstrip s) = true.
Proof.
  induction s as [|c s IH]; simpl; [done|].
  intros [Hc Hs]%andb_true_iff. destruct (PyStr.isspace c); [by apply IH|].
  simpl. by rewrite Hc, Hs.
Qed.

Lemma one_line_rstrip (s : string) : one_line s = true → one_line (PyStr.rstrip s) = true.
Proof.
  induction s as [|c s IH]; simpl; [done|].
  intros [Hc Hs]%andb_true_iff. destruct (_ && _); [done|].
  simpl. by rewrite Hc, IH.
Qed.

Lemma single_spaced_tail (c : ascii) (s : string) :
  single_spaced (String c s) = true → single_spaced s = true.
Proof. destruct s as [|d s]; [done|]. simpl. by intros [_ ?]%andb_true_iff. Qed.

Lemma single_spaced_lstrip (s : string) :
  single_spaced s = true → single_spaced (PyStr.lstrip s) = true.
Proof.
  induction s as [|c s IH]; [done|]. intros Hs.
  change (PyStr.lstrip (String c s))
    with (if PyStr.isspace c then PyStr.lstrip s else String c s).
  destruct (PyStr.isspace c); [|done]. apply IH. by eapply single_spaced_tail.
Qed.

Lemma rstrip_prefix (s : string) : ∃ t, s = PyStr.rstrip s +:+ t.
Proof.
  induction s as [|c s [t IH]]; simpl; [by exists EmptyString|].
  destruct (_ && _); [by eexists|]. exists t. simpl. by rewrite <-IH.
Qed.

Lemma single_spaced_app_l (a b : string) :
  single_spaced (a +:+ b) = true → single_spaced a = true.
Proof.
  induction a as [|c a IH]; [done|]. destruct a as [|d a]; [done|].
  change (single_spaced (String c (String d a) +:+ b))
    with (negb (Ascii.eqb c " " && Ascii.eqb d " ")
          && single_spaced (String d a +:+ b)).
  intros [Hcd Hs]%andb_true_iff. simpl. rewrite Hcd. by apply IH.
Qed.

Lemma single_spaced_rstrip (s : string) :
  single_spaced s = true → single_spaced (PyStr.rstrip s) = true.
Proof.
  intros Hs. destruct (rstrip_prefix s) as [t Ht]. rewrite Ht in Hs.
  by eapply single_spaced_app_l.
Qed.

Lemma one_line_snoc (s : string) (c : ascii) :
  one_line (PyStr.snoc s c) = one_line s && negb (PyStr.is_linebreak c).
Proof.
  unfold PyStr.snoc. induction s as [|d s IH]; simpl; [by rewrite andb_true_r|].
  rewrite IH. by rewrite andb_assoc.
Qed.

Lemma splitlines_go_one_line (after_cr : bool) (cur s : string) :
  one_line cur = true →
  Forall (λ line, one_line line = true) (PyStr.splitlines_go after_cr cur s).
Proof.
  revert after_cr cur. induction s as [|c s IH]; simpl; intros after_cr cur Hcur.
  - destruct (PyStr.truthy cur); by repeat constructor.
  - destruct (after_cr && Ascii.eqb c PyStr.LF); [by apply IH|].
    destruct (PyStr.is_linebreak c) eqn:Hc.
    + constructor; [done|]. by apply IH.
    + apply IH. by rewrite one_line_snoc, Hcur, Hc.
Qed.

Lemma split_go_one_line (sep : string) (skip : nat) (cur s : string) :
  one_line cur = true → one_line s = true →
  Forall (λ piece, one_line piece = true) (PyStr.split_go sep skip cur s).
Proof.
  revert skip cur. induction s as [|c s IH]; intros skip cur Hcur Hs.
  - by repeat constructor.
  - simpl in Hs. apply andb_true_iff in Hs as [Hc Hs].
    cbn [PyStr.split_go]. destruct skip as [|k]; [|by apply IH].
    destruct (String.prefix sep (String c s)).
    + constructor; [done|]. by apply IH.
    + apply IH; [|done]. by rewrite one_line_snoc, Hcur, Hc.
Qed.

Lemma ends_blank_snoc (s : string) (c : ascii) :
  ends_blank (PyStr.snoc s c) = Ascii.eqb c " ".
Proof.
  unfold PyStr.snoc. induction s as [|d s IH]; [done|].
  simpl. rewrite IH. by destruct (s +:+ String c EmptyString) eqn:Hs;
    [destruct s; discriminate|].
Qed.

Lemma single_spaced_snoc (s : string) (c : ascii) :
  single_spaced s = true → ends_blank s && Ascii.eqb c " " = false →
  single_spaced (PyStr.snoc s c) = true.
Proof.
  unfold PyStr.snoc. induction s as [|d s IH]; [done|].
  intros Hs Hend. destruct s as [|e s].
  - simpl in *. by rewrite Hend.
  - change (single_spaced (String d (String e s) +:+ String c EmptyString))
      with (negb (Ascii.eqb d " " && Ascii.eqb e " ")
            && single_spaced (String e s +:+ String c EmptyString)).
    change (single_spaced (String d (String e s)))
      with (negb (Ascii.eqb d " " && Ascii.eqb e " ")
            && single_spaced (String e s)) in Hs.
    apply andb_true_iff in Hs as [-> Hs]. simpl.
    apply IH; [done|]. exact Hend.
Qed.

Lemma split_go_single_spaced (skip : nat) (cur s : string) :
  single_spaced cur = true →
  match skip with
  | O => ends_blank cur && starts_blank s = false
  | S k => k = 0 ∧ cur = EmptyString
  end →
  Forall (λ piece, single_spaced piece = true) (PyStr.split_go "  " skip cur s).
Proof.
  revert skip cur. induction s as [|c s IH]; intros skip cur Hcur Hinv.
  - by repeat constructor.
  - cbn [PyStr.split_go]. destruct skip as [|k].
    + destruct (String.prefix "  " (String c s)) eqn:Hp.
      * constructor; [done|]. by apply IH.
      * apply IH.
        -- apply single_spaced_snoc; [done|]. exact Hinv.
        -- rewrite ends_blank_snoc. destruct s as [|d s]; [by rewrite andb_false_r|].
           cbn [starts_blank].
           destruct (Ascii.eqb_spec c " ") as [->|]; [|done].
           destruct (Ascii.eqb_spec d " ") as [->|]; [|done].
           destruct s; vm_compute in Hp; discriminate.
    + destruct Hinv as [-> ->]. apply IH; [done|]. done.
Qed.

Lemma strip_clean (x : string) :
  one_line x = true → single_spaced x = true →
  PyStr.truthy (PyStr.strip x) = true → clean_chunk (PyStr.strip x).
Proof.
  intros Hl Hs Ht. unfold clean_chunk, PyStr.strip in *. split_and!.
  - done.
  - apply lstrip_starts.
  - apply lstrip_ends, rstrip_ends.
  - by apply one_line_lstrip, one_line_rstrip.
  - by apply single_spaced_lstrip, single_spaced_rstrip.
Qed.

Lemma truthy_app (a b : string) :
  PyStr.truthy (a +:+ b) = PyStr.truthy a || PyStr.truthy b.
Proof. by destruct a. Qed.

Lemma ends_space_app (a b : string) :
  ends_space (a +:+ b) = if PyStr.truthy b then ends_space b else ends_space a.
Proof.
  induction a as [|c a IH]; simpl; [by destruct b|].
  destruct (a +:+ b) as [|d r] eqn:Hab.
  - destruct a; [|done]. simpl in Hab. by subst b.
  - rewrite IH. destruct a as [|e a]; [|done]. simpl in Hab. subst b. done.
Qed.

Lemma single_spaced_app_sep (a b : string) (c : ascii) :
  single_spaced a = true → single_spaced b = true → Ascii.eqb c " " = false →
  single_spaced (a +:+ String c b) = true.
Proof.
  intros Ha Hb Hc. induction a as [|d a IH].
  - simpl. destruct b as [|e b]; [done|].
    change (single_spaced (String c (String e b)))
      with (negb (Ascii.eqb c " " && Ascii.eqb e " ") && single_spaced (String e b)).
    by rewrite Hc, Hb.
  - destruct a as [|e a].
    + change (single_spaced (String d EmptyString +:+ String c b))
        with (negb (Ascii.eqb d " " && Ascii.eqb c " ")
              && single_spaced (EmptyString +:+ String c b)).
      rewrite Hc, andb_false_r. simpl. by apply IH.
    + change (single_spaced (String d (String e a) +:+ String c b))
        with (negb (Ascii.eqb d " " && Ascii.eqb e " ")
              && single_spaced (String e a +:+ String c b)).
      change (single_spaced (String d (String e a)))
        with (negb (Ascii.eqb d " " && Ascii.eqb e " ")
              && single_spaced (String e a)) in Ha.
      apply andb_true_iff in Ha as [-> Ha]. simpl. by apply IH.
Qed.

Lemma splitlines_go_line (cur s rest : string) :
  one_line s = true →
  PyStr.splitlines_go false cur (s +:+ rest)
  = PyStr.splitlines_go false (cur +:+ s) rest.
Proof.
  revert cur. induction s as [|c s IH]; intros cur; simpl.
  - intros _. f_equal. induction cur as [|d cur IHc]; simpl; [done|]. by rewrite <-IHc.
  - intros [Hc Hs]%andb_true_iff. apply negb_true_iff in Hc. rewrite Hc.
    rewrite IH by done. f_equal. unfold PyStr.snoc.
    induction cur as [|d cur IHc]; simpl; [done|]. by rewrite IHc.
Qed.

Lemma join_clean (chunks : list string) :
  Forall clean_chunk chunks →
  starts_space (PyStr.join PyStr.nl chunks) = false
  ∧ ends_space (PyStr.join PyStr.nl chunks) = false
  ∧ single_spaced (PyStr.join PyStr.nl chunks) = true
  ∧ PyStr.splitlines (PyStr.join PyStr.nl chunks) = chunks.
Proof.
  unfold PyStr.splitlines.
  induction 1 as [|x l (Ht & Hs & He & Hl & Hd) Hrest (IHs & IHe & IHd & IHl)];
    [done|].
  destruct l as [|y l].
  - simpl. split_and!; [done|done|done|].
    transitivity (PyStr.splitlines_go false EmptyString (x +:+ EmptyString));
      [by rewrite append_nil_r|].
    rewrite splitlines_go_line by done. simpl. by rewrite Ht.
  - change (PyStr.join PyStr.nl (x :: y :: l))
      with (x +:+ String PyStr.LF (PyStr.join PyStr.nl (y :: l))).
    assert (Hj : PyStr.truthy (PyStr.join PyStr.nl (y :: l)) = true).
    { apply Forall_cons in Hrest as [(Hy & _) _].
      destruct l; simpl; [done|]. by rewrite truthy_app, Hy. }
    set (j := PyStr.join PyStr.nl (y :: l)) in *. clearbody j.
    split_and!.
    + by destruct x.
    + rewrite ends_space_app. cbn [PyStr.truthy].
      destruct j as [|a j]; [done|]. by rewrite ends_space_cons.
    + by apply single_spaced_app_sep.
    + rewrite splitlines_go_line by done. simpl.
      change (Ascii.eqb PyStr.LF PyStr.CR) with false. by rewrite IHl.
Qed.

Lemma prefix_cons (a b : ascii) (s1 s2 : string) :
  String.prefix (String a s1) (String b s2)
  = if ascii_dec a b then String.prefix s1 s2 else false.
Proof. reflexivity. Qed.

Lemma single_spaced_contains (s : string) :
  single_spaced s = true → PyStr.contains "  " s = false.
Proof.
  induction s as [|c s IH]; [done|]. intros Hs.
  cbn [PyStr.contains]. rewrite (IH (single_spaced_tail _ _ Hs)), orb_false_r.
  rewrite prefix_cons. destruct (ascii_dec " " c) as [<-|]; [|done].
  destruct s as [|d s]; [done|].
  rewrite prefix_cons. destruct (ascii_dec " " d) as [<-|]; [|done].
  change (single_spaced (String " " (String " " s)))
    with (negb (Ascii.eqb " " " " && Ascii.eqb " " " ")
          && single_spaced (String " " s)) in Hs.
  by rewrite Ascii.eqb_refl in Hs.
Qed.

End string_facts.

Section page_results.
Context {E : Externals}.

(** *** The text of a page *)

Lemma extract_text_chunks (soup : Soup) :
  ∃ chunks, (extract_text soup).2 = PyStr.join PyStr.nl chunks
    ∧ Forall clean_chunk chunks.
Proof.
  unfold extract_text. simpl. eexists. split; [reflexivity|].
  apply Forall_forall. intros chunk [Ht Hin]%list_elem_of_filter.
  apply list_elem_of_In, in_flat_map in Hin as (line & Hline & Hin).
  apply in_map_iff in Hin as (piece & <- & Hpiece).
  apply in_map_iff in Hline as (raw & <- & Hraw).
  assert (Hl : one_line (PyStr.strip raw) = true).
  { unfold PyStr.strip. apply one_line_lstrip, one_line_rstrip.
    pose proof (splitlines_go_one_line false EmptyString
                  (get_text " " (fold_left (λ soup0 t, decompose t soup0)
                     (find_all ["script"; "style"; "header"; "footer"; "nav"]%string soup)
                     soup)) eq_refl) as Hall.
    rewrite Forall_forall in Hall. by apply Hall, list_elem_of_In. }
  pose proof (split_go_one_line "  " 0 EmptyString _ eq_refl Hl) as H1.
  pose proof (split_go_single_spaced 0 EmptyString (PyStr.strip raw) eq_refl eq_refl) as H2.
  rewrite Forall_forall in H1, H2. apply list_elem_of_In in Hpiece.
  apply strip_clean; [by apply H1|by apply H2|done].
Qed.

(** X1.  The text [extract_text] returns, whatever the document: it has
    no white space at either end; each of its lines, as [splitlines]
    cuts it, is non-empty and has no white space at either end; and no
    two spaces follow each other anywhere in it. *)
Theorem extracted_text_is_stripped (soup : Soup) :
  let text := (extract_text soup).2 in
  PyStr.strip text = text
  ∧ Forall (λ line, PyStr.truthy line = true ∧ PyStr.strip line = line)
      (PyStr.splitlines text)
  ∧ PyStr.contains "  " text = false.
Proof.
  destruct (extract_text_chunks soup) as (chunks & Heq & Hchunks). cbv zeta.
  rewrite Heq. destruct (join_clean chunks Hchunks) as (Hs & He & Hd & Hl).
  split_and!.
  - by apply strip_id.
  - rewrite Hl. eapply Forall_impl; [exact Hchunks|].
    intros c (? & ? & ? & _). split; [done|]. by apply strip_id.
  - by apply single_spaced_contains.
Qed.

Lemma scrape_page_text (self : WebsiteScraper) (url : string)
    (links : list string) (extracted : string) :
  scrape_page self url = (links, extracted) →
  extracted = EmptyString ∨ ∃ soup, extracted = (extract_text soup).2.
Proof.
  unfold scrape_page.
  destruct (scrape_page_try self url) as [[l t]|] eqn:Ht; simpl;
    intros [= <- <-]; [|by left].
  unfold scrape_page_try in Ht.
  apply bind_Some in Ht as (response & _ & Ht).
  destruct (raises_for_status response); [done|].
  destruct (negb _); [injection Ht as <- <-; by left|].
  apply bind_Some in Ht as (soup & _ & Ht).
  destruct (extract_text soup) as [soup' text'] eqn:He.
  apply bind_Some in Ht as (links' & Hl & [= <- <-]).
  right. exists soup. change (text' = (extract_text soup).2). by rewrite He.
Qed.

(** X2.  The text [scrape_page] returns has no white space at either end,
    so it is blank only when it is the empty string: the test
    [not text.strip()] of the loop is the test for the empty text. *)
Theorem scraped_text_is_blank_only_when_empty (self : WebsiteScraper)
    (url : string) (links : list string) (extracted : string) :
  scrape_page self url = (links, extracted) →
  PyStr.strip extracted = extracted
  ∧ (all_space extracted = true ↔ extracted = EmptyString).
Proof.
  intros Hs.
  assert (Hstrip : PyStr.strip extracted = extracted).
  { apply scrape_page_text in Hs as [->|[soup ->]]; [done|].
    destruct (extract_text_chunks soup) as (chunks & -> & Hchunks).
    destruct (join_clean chunks Hchunks) as (? & ? & _). by apply strip_id. }
  split; [done|]. split; [|by intros ->].
  intros Hb%strip_blank. rewrite Hstrip in Hb. by destruct extracted.
Qed.

(** *** The links of a page *)

Lemma get_all_links_from_filter (self : WebsiteScraper) (page_url : string)
    (anchors : list Tag) (acc links : list string) :
  get_all_links_from self page_url anchors acc = Some links →
  ∃ ns,
    Forall2 (λ anchor n, ∃ link, absolute_link page_url (tag_href anchor) = Some link
                                 ∧ normalize_url link = Some n) anchors ns
    ∧ links = acc ++ List.filter (admits self) ns.
Proof.
  revert acc. induction anchors as [|anchor anchors IH]; simpl; intros acc.
  - intros [= <-]. exists []. split; [constructor|]. by rewrite app_nil_r.
  - fold (absolute_link page_url (tag_href anchor)).
    destruct (absolute_link page_url (tag_href anchor)) as [link|] eqn:Hl; [|done]. simpl.
    destruct (normalize_url link) as [n|] eqn:Hn; [|done]. simpl.
    destruct (is_valid_url self n) as [valid|] eqn:Hv; [|done]. simpl.
    intros (ns & Hns & ->)%IH. exists (n :: ns). split; [constructor; eauto|].
    simpl. unfold admits at 2. rewrite Hv.
    destruct valid; simpl; [|done].
    case_bool_decide as Hin; [|done]. by rewrite <-app_assoc.
Qed.

(** X3.  When [get_all_links] returns, every anchor of the document was
    made absolute and normalized, and the links returned are, in the
    order of the anchors, the normalized URLs that are in scope and not
    yet visited: at most one for each anchor, and one for each anchor
    that passes (a URL that two anchors name is returned twice). *)
Theorem get_all_links_keeps_document_order (self : WebsiteScraper) (soup : Soup)
    (page_url : string) (links : list string) :
  get_all_links self soup page_url = Some links →
  ∃ ns,
    Forall2 (λ anchor n, ∃ link, absolute_link page_url (tag_href anchor) = Some link
                                 ∧ normalize_url link = Some n)
      (find_all_a_href soup) ns
    ∧ links = List.filter (admits self) ns
    ∧ length links ≤ length (find_all_a_href soup).
Proof.
  intros (ns & Hns & ->)%get_all_links_from_filter. exists ns.
  split_and!; [done|done|]. simpl.
  rewrite (Forall2_length _ _ _ Hns). apply List.filter_length_le.
Qed.

Lemma get_all_links_from_rejected (self : WebsiteScraper) (page_url : string)
    (anchors : list Tag) (acc : list string) (anchor : Tag) :
  anchor ∈ anchors →
  PyStr.startswith "http" (tag_href anchor) = true →
  urlparse (tag_href anchor) = None →
  get_all_links_from self page_url anchors acc = None.
Proof.
  intros Hin Hhttp Hnone. revert acc.
  induction anchors as [|other anchors IH]; intros acc; [by inversion Hin|].
  simpl. apply elem_of_cons in Hin as [<-|Hin].
  - rewrite Hhttp. simpl. unfold normalize_url. by rewrite Hnone.
  - destruct (if negb _ then _ else _) as [link|]; [|done]. simpl.
    destruct (normalize_url link) as [n|]; [|done]. simpl.
    destruct (is_valid_url self n) as [valid|]; [|done]. simpl. by apply IH.
Qed.

(** X4.  One anchor whose [href] starts with http and is rejected by
    [urlparse] costs the whole page: the request was answered with an
    HTML page, but [scrape_page] returns no link and the empty text, so
    neither the text of the page nor any of its other links is kept. *)
Theorem malformed_link_discards_the_page (self : WebsiteScraper) (url : string)
    (response : Response) (soup : Soup) (anchor : Tag) :
  requests_get url headers 10 = Some response →
  raises_for_status response = false →
  PyStr.contains "text/html"
    (PyStr.lower (default EmptyString (content_type response))) = true →
  BeautifulSoup (text response) = Some soup →
  anchor ∈ find_all_a_href (extract_text soup).1 →
  PyStr.startswith "http" (tag_href anchor) = true →
  urlparse (tag_href anchor) = None →
  scrape_page self url = ([], EmptyString).
Proof.
  intros Hget Hstatus Htype Hsoup Hin Hhttp Hnone.
  unfold scrape_page.
  assert (scrape_page_try self url = None) as ->; [|done].
  unfold scrape_page_try.
  apply bind_None. right. exists response. split; [done|].
  rewrite Hstatus, Htype. cbn [negb].
  apply bind_None. right. exists soup. split; [done|].
  destruct (extract_text soup) as [soup' text']. simpl in Hin.
  apply bind_None. left. by eapply get_all_links_from_rejected.
Qed.

(** *** Requests and scope *)

Lemma iteration_frontier (a b : crawl) :
  iteration a b →
  ∃ u rest links,
    urls_to_visit a = u :: rest
    ∧ urls_to_visit b = rest ++ links
    ∧ Forall (λ l, is_valid_url (scraper a) l = Some true) links
    ∧ (fetched (trace b) = fetched (trace a)
       ∨ fetched (trace b) = fetched (trace a) ++ [u]).
Proof.
  intros Hi. iteration_cases Hi; simpl.
  - exists u, rest, []. rewrite app_nil_r. split_and!; [done|done|constructor|by left].
  - exists u, rest, []. rewrite app_nil_r, fetched_app.
    split_and!; [done|done|constructor|by right].
  - exists u, rest, links. rewrite !fetched_app, app_nil_r.
    split_and!; [done|done| |by right].
    eapply Forall_impl; [by eapply scrape_page_links|]. by intros l [? _].
Qed.

(** X5.  All along the crawl of a new scraper, every URL requested is the
    seed or a URL that passes [is_valid_url]: its netloc is not empty and
    is the netloc of the seed. *)
Theorem crawl_requests_stay_on_the_domain
    (url : string) (budget : Z) (self : WebsiteScraper) (st : crawl) :
  __init__ url budget = Some self →
  rtc step (start self) st →
  Forall (λ u, u = url ∨ is_valid_url self u = Some true) (fetched (trace st)).
Proof.
  intros (Hu & _)%init_fields Hrtc.
  pose (P := λ u, u = url ∨ is_valid_url self u = Some true).
  apply proj2 with (A := domain (scraper st) = domain self ∧ Forall P (urls_to_visit st)).
  apply (crawl_invariant
           (λ a, (domain (scraper a) = domain self ∧ Forall P (urls_to_visit a))
                 ∧ Forall P (fetched (trace a))) (start self)); [| |done].
  - simpl. split_and!; [done| |constructor].
    constructor; [|constructor]. left. done.
  - intros a b [[Hd Hq] Hf] Hi.
    destruct (iteration_fields _ _ Hi) as (_ & Hd' & _).
    destruct (iteration_frontier _ _ Hi) as (u & rest & links & Ha & Hb & Hl & Hfetch).
    rewrite Ha in Hq. apply Forall_cons in Hq as [Hu' Hrest].
    split_and!.
    + by rewrite Hd'.
    + rewrite Hb. apply Forall_app. split; [done|].
      eapply Forall_impl; [exact Hl|]. intros l Hv. unfold P. right.
      rewrite <-Hv. by apply is_valid_url_domain.
    + destruct Hfetch as [->| ->]; [done|]. apply Forall_app. split; [done|].
      by constructor.
Qed.

(** X6.  A seed in which [urlparse] finds no netloc (a host name without
    a scheme, for one) gives a scraper with an empty domain, and no link
    is in scope for it: the crawl requests the seed and nothing else, and
    the frontier is empty after that request. *)
Theorem crawl_of_a_seed_without_netloc
    (url : string) (budget : Z) (self : WebsiteScraper) (st : crawl) :
  __init__ url budget = Some self →
  domain self = EmptyString →
  rtc step (start self) st →
  fetched (trace st) = [] ∨ fetched (trace st) = [url] ∧ urls_to_visit st = [].
Proof.
  intros (Hu & _ & Hempty & _)%init_fields Hdom Hrtc.
  assert (Hnone : ∀ a links text u,
            domain a = EmptyString → scrape_page a u = (links, text) → links = []).
  { intros a links text u Ha Hs. apply scrape_page_links in Hs.
    destruct links as [|l links]; [done|].
    apply Forall_cons in Hs as [[(parsed & _ & Hiff)%is_valid_url_spec _] _].
    destruct Hiff as [Hiff _]. destruct (Hiff eq_refl) as [Hne Heq]. congruence. }
  assert (Hinv : domain (scraper st) = EmptyString
                 ∧ (fetched (trace st) = []
                      ∧ urls_to_visit st = [url] ∧ visited_urls (scraper st) = ∅
                    ∨ fetched (trace st) = [url] ∧ urls_to_visit st = [])).
  { apply (crawl_invariant
             (λ a, domain (scraper a) = EmptyString
                   ∧ (fetched (trace a) = []
                        ∧ urls_to_visit a = [url] ∧ visited_urls (scraper a) = ∅
                      ∨ fetched (trace a) = [url] ∧ urls_to_visit a = []))
             (start self)); [| |done].
    - simpl. split; [done|]. left. by rewrite Hu.
    - intros a b [Hdoma Hcase] Hi.
      destruct (iteration_fields _ _ Hi) as (_ & Hdomb & _).
      split; [by rewrite Hdomb|].
      destruct Hcase as [(Hf & Hfront & Hvis)|[Hf Hfront]].
      + iteration_cases Hi; simpl; rewrite Hfront in Hq; injection Hq as <- <-.
        * rewrite Hvis in Hv. by apply not_elem_of_empty in Hv.
        * right. by rewrite fetched_app, Hf.
        * right. rewrite !fetched_app, Hf, app_nil_r.
          by rewrite (Hnone (add_visited (scraper a) n) _ _ _ Hdoma Hs).
      + iteration_cases Hi; rewrite Hfront in Hq; discriminate. }
  destruct Hinv as [_ [(? & _)|?]]; [by left|by right].
Qed.

(** *** The end of the loop *)

(** A request uses up one unit of the budget that is left. *)
Lemma requests_iteration (a b : crawl) :
  iteration a b →
  length (fetched (trace b))
  + Z.to_nat (max_pages (scraper b) - Z.of_nat (size (visited_urls (scraper b))))
  ≤ length (fetched (trace a))
    + Z.to_nat (max_pages (scraper a) - Z.of_nat (size (visited_urls (scraper a)))).
Proof.
  intros Hi. iteration_cases Hi; simpl; [done| |];
    rewrite ?fetched_app, ?length_app, ?app_nil_r; simpl;
    rewrite size_union, size_singleton by (by apply disjoint_singleton_l); lia.
Qed.

(** X7.  From every state, whatever the frontier, the sets and the budget
    are, the loop of [scrape_website] is over after finitely many runs of
    its body, and up to there it makes at most as many requests as the
    budget has left: none when the visited set has reached the budget. *)
Theorem scrape_website_stops_within_the_budget_left (st : crawl) :
  ∃ fuel r final,
    scrape_website_fuel fuel st = Some r
    ∧ (r = Finished final ∨ r = Raised final)
    ∧ length (fetched (trace final))
      ≤ length (fetched (trace st))
        + Z.to_nat (max_pages (scraper st)
                    - Z.of_nat (size (visited_urls (scraper st)))).
Proof.
  destruct (scrape_website_terminates st) as (r & Hr).
  destruct (scrape_website_fuel_complete _ _ Hr) as (fuel & Hfuel).
  destruct Hr as (final & Hrtc & Hend).
  exists fuel, r, final. split_and!; [done|by destruct Hend as [[_ ->]|[_ ->]]; [left|right]|].
  assert (length (fetched (trace final))
          + Z.to_nat (max_pages (scraper final)
                      - Z.of_nat (size (visited_urls (scraper final))))
          ≤ length (fetched (trace st))
            + Z.to_nat (max_pages (scraper st)
                        - Z.of_nat (size (visited_urls (scraper st))))) as Hle; [|lia].
  apply (crawl_invariant
           (λ a, length (fetched (trace a))
                 + Z.to_nat (max_pages (scraper a)
                             - Z.of_nat (size (visited_urls (scraper a))))
                 ≤ length (fetched (trace st))
                   + Z.to_nat (max_pages (scraper st)
                               - Z.of_nat (size (visited_urls (scraper st)))))
           st); [done| |done].
  intros a b Ha Hi. pose proof (requests_iteration _ _ Hi). lia.
Qed.

(** *** A second crawl *)

Lemma iteration_visited (a b : crawl) :
  iteration a b → visited_urls (scraper a) ⊆ visited_urls (scraper b).
Proof.
  intros Hi. iteration_cases Hi; simpl; [done| |]; apply union_subseteq_r.
Qed.

Lemma seed_is_visited (url : string) (budget : Z) (self : WebsiteScraper)
    (st : crawl) :
  __init__ url budget = Some self →
  rtc step (start self) st →
  st = start self
  ∨ ∃ n, normalize_url url = Some n ∧ n ∈ visited_urls (scraper st).
Proof.
  intros (Hu & _ & Hempty & _)%init_fields Hrtc.
  apply (crawl_invariant
           (λ a, a = start self
                 ∨ ∃ n, normalize_url url = Some n ∧ n ∈ visited_urls (scraper a))
           (start self)); [by left| |done].
  intros a b [->|(m & Hm & Hin)] Hi.
  - right. iteration_cases Hi; simpl in *; injection Hq as <- <-; rewrite Hu in *.
    + rewrite Hempty in Hv. by apply not_elem_of_empty in Hv.
    + exists n. split; [done|]. apply elem_of_union_l. by apply elem_of_singleton.
    + exists n. split; [done|]. apply elem_of_union_l. by apply elem_of_singleton.
  - right. exists m. split; [done|]. by apply (iteration_visited _ _ Hi).
Qed.

(** X8.  Calling [scrape_website] again on a scraper whose crawl ran to
    its end makes no request and leaves the scraper as it is: the second
    loop ends without an exception, with the same sets and page blocks. *)
Theorem second_crawl_requests_nothing
    (url : string) (budget : Z) (self : WebsiteScraper) (final : crawl) :
  __init__ url budget = Some self →
  scrape_website (start self) (Finished final) →
  ∃ again,
    scrape_website (start (scraper final)) (Finished again)
    ∧ scraper again = scraper final
    ∧ trace again = [].
Proof.
  intros Hinit (st & Hrtc & [[Hhalt [= ->]]|[_ [=]]]).
  pose proof (init_fields _ _ _ Hinit) as (Hu & Hm & Hempty & _).
  destruct (crawl_fields _ _ Hrtc) as (Hbase & _ & _). simpl in Hbase.
  destruct (decide (max_pages (scraper st)
                    ≤ Z.of_nat (size (visited_urls (scraper st))))%Z) as [Hfull|Hleft].
  - exists (start (scraper st)). split_and!; [|done|done].
    exists (start (scraper st)). split; [apply rtc_refl|]. left. split; [|done].
    apply loop_body_Halt. by right.
  - destruct (seed_is_visited _ _ _ _ Hinit Hrtc) as [->|(n & Hn & Hin)].
    { apply loop_body_Halt in Hhalt as [?|?]; [done|]. by destruct Hleft. }
    exists (mkCrawl (scraper st) [] []). split_and!; [|done|done].
    exists (mkCrawl (scraper st) [] []). split.
    + apply rtc_once. unfold step, loop_body, start. simpl.
      rewrite bool_decide_eq_true_2 by lia.
      rewrite Hbase, Hu, Hn. by rewrite bool_decide_eq_true_2.
    + left. split; [|done]. apply loop_body_Halt. by left.
Qed.

(** *** The order of the page blocks *)

Lemma order_inv_iteration (a b : crawl) :
  order_inv a → iteration a b → order_inv b.
Proof.
  intros (recs & ns & Hc & Hf & Hsub & Hrecs) Hi. iteration_cases Hi.
  - by exists recs, ns.
  - exists recs, (ns ++ [n]). simpl. rewrite fetched_app. simpl.
    split_and!; [done| | |done].
    + apply Forall2_app; [done|]. by repeat constructor.
    + by apply sublist_inserts_r.
  - exists (recs ++ [(n, text)]), (ns ++ [n]). simpl.
    rewrite !fetched_app, app_nil_r, !fmap_app, Hc. simpl.
    split_and!; [done| | |].
    + apply Forall2_app; [done|]. by repeat constructor.
    + by apply sublist_app.
    + apply Forall_app. split; [done|]. repeat constructor; simpl.
      * intros ->. done.
      * apply scrape_page_text in Hs as [->|[soup ->]]; [done|].
        destruct (extract_text_chunks soup) as (chunks & -> & Hchunks).
        destruct (join_clean chunks Hchunks) as (? & ? & _). by apply strip_id.
Qed.

(** X9.  All along the crawl of a new scraper the page blocks are those
    of records (normalized URL, text) that follow the order of the
    requests: their URLs are a sublist of the normalized URLs requested,
    no URL has two blocks, no text of a block is empty or has white space
    at either end, and there are at most as many blocks as visited
    URLs. *)
Theorem page_blocks_follow_the_requests
    (url : string) (budget : Z) (self : WebsiteScraper) (st : crawl) :
  __init__ url budget = Some self →
  rtc step (start self) st →
  ∃ (recs : list (string * string)) (ns : list string),
    text_content (scraper st) = (λ r, page_content r.1 r.2) <$> recs
    ∧ Forall2 (λ u n, normalize_url u = Some n) (fetched (trace st)) ns
    ∧ recs.*1 `sublist_of` ns
    ∧ NoDup recs.*1
    ∧ Forall (λ r, r.2 ≠ EmptyString ∧ PyStr.strip r.2 = r.2) recs
    ∧ length (text_content (scraper st)) ≤ size (visited_urls (scraper st)).
Proof.
  intros Hinit Hrtc.
  assert (order_inv st) as (recs & ns & Hc & Hf & Hsub & Hrecs).
  { apply (crawl_invariant order_inv (start self));
      [|apply order_inv_iteration|done].
    apply init_fields in Hinit as (_ & _ & _ & _ & Hc & _).
    exists [], []. simpl. rewrite Hc. split_and!; by constructor. }
  assert (visited_inv st) as (ns' & Hf' & Hnd & Hv).
  { apply (crawl_invariant visited_inv (start self));
      [by eapply start_visited_inv|apply visited_inv_iteration|done]. }
  assert (ns' = ns) as ->.
  { clear -Hf Hf'. revert ns ns' Hf Hf'.
    induction (fetched (trace st)) as [|u us IH]; intros ns ns' Hf Hf'.
    - apply Forall2_nil_inv_l in Hf, Hf'. congruence.
    - apply Forall2_cons_inv_l in Hf as (n & ns1 & Hn & Hns & ->).
      apply Forall2_cons_inv_l in Hf' as (n' & ns1' & Hn' & Hns' & ->).
      f_equal; [congruence|by apply IH]. }
  exists recs, ns. split_and!; [done|done|done| |done|].
  - by eapply sublist_NoDup.
  - rewrite Hc, Hv, size_list_to_set, length_fmap by done.
    rewrite <-(length_fmap fst). by apply sublist_length.
Qed.

End page_results.

(** ** The command line and the output file *)

Section output_facts.
#[local] Arguments String.append !_ _ / : simpl nomatch.
#[local] Arguments Ascii.eqb : simpl never.

(** *** Strings, paths and the authority of a URL *)

Lemma append_assoc (a b c : string) : (a +:+ b) +:+ c = a +:+ (b +:+ c).
Proof. induction a as [|x a IH]; simpl; [done|]. by rewrite IH. Qed.

Lemma write_all (file : string) (contents : list string) :
  fold_left (λ file content, file +:+ (content +:+ PyStr.nl)) contents file
  = file +:+ concat_strings ((λ content, content +:+ PyStr.nl) <$> contents).
Proof.
  revert file. induction contents as [|c contents IH]; intros file; simpl.
  - by rewrite append_nil_r.
  - by rewrite IH, append_assoc.
Qed.

Lemma startswith_app (p s : string) : PyStr.startswith p (p +:+ s) = true.
Proof.
  unfold PyStr.startswith. induction p as [|a p IH]; simpl.
  - by destruct s.
  - by destruct (ascii_dec a a).
Qed.

Lemma startswith_split (p s : string) :
  PyStr.startswith p s = true → ∃ t, s = p +:+ t.
Proof.
  unfold PyStr.startswith. revert s. induction p as [|a p IH]; intros s; simpl.
  - intros _. by exists s.
  - destruct s as [|b s]; [done|]. rewrite prefix_cons.
    destruct (ascii_dec a b) as [<-|]; [|done].
    intros (t & ->)%IH. by exists t.
Qed.

Lemma ends_with_sep_app (a : string) (c : ascii) (b : string) :
  Posixpath.ends_with_sep (a +:+ String c b) = Posixpath.ends_with_sep (String c b).
Proof.
  induction a as [|x a IH]; [done|].
  change (String x a +:+ String c b) with (String x (a +:+ String c b)).
  destruct a; simpl in *; by rewrite ?IH.
Qed.

Lemma has_char_replace (c old new : ascii) (s : string) :
  c ≠ new → Urllib.has_char c s = false →
  Urllib.has_char c (replace_char old new s) = false.
Proof.
  intros Hnew. induction s as [|d s IH]; simpl; [done|].
  intros [Hd Hs]%orb_false_iff. rewrite (IH Hs), orb_false_r.
  destruct (Ascii.eqb d old); [|done]. by apply Ascii.eqb_neq.
Qed.

Lemma all_chars_no_slash (s : string) :
  Urllib.all_chars (λ c, negb (Urllib.netloc_delim c)) s = true →
  Urllib.has_char "/" s = false.
Proof.
  induction s as [|c s IH]; simpl; [done|].
  intros [Hc Hs]%andb_true_iff. rewrite (IH Hs), orb_false_r.
  unfold Urllib.netloc_delim in Hc.
  apply negb_true_iff, orb_false_iff in Hc as [[Hc _]%orb_false_iff _].
  by rewrite Ascii.eqb_sym.
Qed.

Lemma urlparse_netloc_no_slash (url : string) (parsed : ParseResult) :
  Urllib.urlparse url = Some parsed → Urllib.has_char "/" (netloc parsed) = false.
Proof.
  unfold Urllib.urlparse, Urllib.urlparse_scheme, Urllib.urlsplit.
  set (b := Urllib.remove_chars _ _). clearbody b.
  destruct (Urllib.split_scheme b) as [found rest].
  destruct (if PyStr.truthy found then (found, rest) else (EmptyString, b)) as [sc r].
  pose proof (span_until_fst Urllib.netloc_delim) as Hspan.
  unfold Urllib.split_netloc.
  assert (Hnl : ∀ nl r', match r with
                         | String "/" (String "/" rest) =>
                             Some (Urllib.span_until Urllib.netloc_delim rest)
                         | _ => None
                         end = Some (nl, r') →
                Urllib.has_char "/" nl = false).
  { intros nl r' Hr.
    destruct r as [|c1 [|c2 r2]]; [done|by destruct c1 as [[] [] [] [] [] [] [] []]|].
    destruct c1 as [[] [] [] [] [] [] [] []]; try done.
    destruct c2 as [[] [] [] [] [] [] [] []]; try done.
    injection Hr as Hr. specialize (Hspan r2). rewrite Hr in Hspan.
    by apply all_chars_no_slash. }
  destruct (match r with String "/" (String "/" rest) => _ | _ => None end)
    as [[nl r']|]; simpl.
  - specialize (Hnl _ _ eq_refl). destruct (xorb _ _); simpl; [done|].
    destruct (Urllib.split_tail r') as [[p q] f]. simpl.
    destruct (if _ && _ then _ else _) as [p' params']. by intros [= <-].
  - destruct (Urllib.split_tail r) as [[p q] f]. simpl.
    destruct (if _ && _ then _ else _) as [p' params']. by intros [= <-].
Qed.

Lemma no_slash_not_absolute (s : string) :
  Urllib.has_char "/" s = false → PyStr.startswith "/" s = false.
Proof.
  intros Hs. destruct (PyStr.startswith "/" s) eqn:Hp; [|done].
  apply startswith_split in Hp as [t ->]. by simpl in Hs.
Qed.

End output_facts.

Section command_line_results.
Context {E : Externals}.
#[local] Arguments String.append !_ _ / : simpl nomatch.

(** *** The input loop and the crawl it starts *)

Lemma url_of_input_prefix (d : string) :
  PyStr.startswith "http://" (url_of_input d) = true
  ∨ PyStr.startswith "https://" (url_of_input d) = true.
Proof.
  unfold url_of_input.
  destruct (PyStr.startswith "http://" d) eqn:H1; [by left|].
  destruct (PyStr.startswith "https://" d) eqn:H2; [by right|].
  right. apply startswith_app.
Qed.

(** X10.  The input loop of [main] leaves with the URL of the first line
    that [validate_url] accepts, after passing over the lines before it,
    whose URLs it rejects; that URL starts with http:// or https://.  When
    no line gives a URL that is accepted, the loop reads all of them and
    the input ends. *)
Theorem input_loop_takes_the_first_valid_url (inputs : list string) :
  match read_url inputs with
  | Some (url, rest) =>
      ∃ skipped d,
        inputs = skipped ++ d :: rest
        ∧ url = url_of_input d
        ∧ validate_url url = true
        ∧ Forall (λ d', validate_url (url_of_input d') = false) skipped
        ∧ (PyStr.startswith "http://" url = true
           ∨ PyStr.startswith "https://" url = true)
  | None => Forall (λ d, validate_url (url_of_input d) = false) inputs
  end.
Proof.
  induction inputs as [|d inputs IH]; simpl; [constructor|].
  destruct (validate_url (url_of_input d)) eqn:Hd.
  - exists [], d. split_and!; [done|done|done|constructor|apply url_of_input_prefix].
  - destruct (read_url inputs) as [[url rest]|].
    + destruct IH as (skipped & d' & -> & -> & Hv & Hskipped & Hp).
      exists (d :: skipped), d'. split_and!; [done|done|done|by constructor|done].
    + by constructor.
Qed.

Lemma first_request_is_the_seed (url : string) (budget : Z) (self : WebsiteScraper)
    (st : crawl) :
  __init__ url budget = Some self →
  rtc step (start self) st →
  st = start self ∨ ∃ more, fetched (trace st) = url :: more.
Proof.
  intros (Hu & _ & Hempty & _)%init_fields Hrtc.
  apply (crawl_invariant
           (λ a, a = start self ∨ ∃ more, fetched (trace a) = url :: more)
           (start self)); [by left| |done].
  intros a b [->|(more & Hmore)] Hi; right.
  - iteration_cases Hi; simpl in *; injection Hq as <- <-; rewrite Hu in *.
    + rewrite Hempty in Hv. by apply not_elem_of_empty in Hv.
    + by exists [].
    + by exists [].
  - destruct (iteration_frontier _ _ Hi) as (u & _ & _ & _ & _ & _ & [->| ->]).
    + by exists more.
    + exists (more ++ [u]). by rewrite Hmore.
Qed.

(** X11.  For a URL that [validate_url] accepts, [WebsiteScraper(url)]
    is built, as [main] builds it, with a domain that is not empty and
    with the seed in scope; and all along its crawl [normalize_url] has a
    result for every URL of the frontier, so that the call on line 73
    never raises; the seed is the first URL requested, and at most 1000
    requests are made. *)
Theorem accepted_url_is_crawled_from_the_seed (url : string) :
  validate_url url = true →
  ∃ self,
    __init__ url 1000 = Some self
    ∧ domain self ≠ EmptyString
    ∧ is_valid_url self url = Some true
    ∧ ∀ st, rtc step (start self) st →
        Forall (λ u, is_Some (normalize_url u)) (urls_to_visit st)
        ∧ (st = start self ∨ ∃ more, fetched (trace st) = url :: more)
        ∧ length (fetched (trace st)) ≤ 1000.
Proof.
  unfold validate_url. destruct (urlparse url) as [parsed|] eqn:Hp; [|done].
  intros [_ Hnl]%andb_true_iff.
  assert (Hinit : __init__ url 1000 = Some
            {| base_url := url; domain := netloc parsed; visited_urls := ∅;
               text_hashes := ∅; text_content := []; max_pages := 1000 |})
    by (unfold __init__; by rewrite Hp).
  set (self := {| base_url := url |}) in Hinit.
  exists self. split_and!; [done| | |].
  - simpl. by destruct (netloc parsed).
  - unfold is_valid_url. rewrite Hp. simpl. rewrite Hnl.
    by rewrite bool_decide_eq_true_2.
  - intros st Hrtc. split_and!.
    + assert (Hpar : parseable st).
      { eapply crawl_invariant; [by eapply start_parseable|apply parseable_iteration|done]. }
      eapply Forall_impl; [exact Hpar|]. intros u [p Hu].
      unfold normalize_url. rewrite Hu. by eexists.
    + by apply (first_request_is_the_seed url 1000).
    + assert (visited_inv st) as (ns & Hf & Hnd & Hv).
      { apply (crawl_invariant visited_inv (start self));
          [by eapply start_visited_inv|apply visited_inv_iteration|done]. }
      assert (Z.of_nat (size (visited_urls (scraper st)))
              ≤ 0 `max` max_pages (scraper st))%Z as Hle.
      { apply (crawl_invariant
                 (λ a, (Z.of_nat (size (visited_urls (scraper a)))
                        ≤ 0 `max` max_pages (scraper a))%Z) (start self));
          [|apply budget_iteration|done].
        change (Z.of_nat (size (∅ : gset string)) ≤ 0 `max` 1000)%Z.
        rewrite size_empty. lia. }
      destruct (crawl_fields _ _ Hrtc) as (_ & _ & Hmax).
      change (max_pages (scraper st) = 1000%Z) in Hmax.
      rewrite Hmax, Hv, size_list_to_set in Hle by done.
      rewrite (Forall2_length _ _ _ Hf). lia.
Qed.

End command_line_results.

Section output_results.
Context {E : Externals}.
#[local] Arguments String.append !_ _ / : simpl nomatch.

(** *** The document written *)

Lemma crawl_order_inv (url : string) (budget : Z) (self : WebsiteScraper)
    (st : crawl) :
  __init__ url budget = Some self → rtc step (start self) st → order_inv st.
Proof.
  intros Hinit Hrtc.
  apply (crawl_invariant order_inv (start self));
    [|apply order_inv_iteration|done].
  apply init_fields in Hinit as (_ & _ & _ & _ & Hc & _).
  exists [], []. simpl. rewrite Hc. split_and!; by constructor.
Qed.

(** X12.  The document [save_to_file] writes at any point of the crawl of
    a new scraper: the seed as it was given, the date, the number of
    requests made so far as the number of pages scraped (it counts the
    pages that failed or were dropped as well), the rule, and then the
    page block of each record followed by a newline, in order; there are
    at most as many blocks as requests. *)
Theorem saved_document_counts_the_requests
    (url : string) (budget : Z) (self : WebsiteScraper) (st : crawl)
    (filename : option string) (timestamp date home : string) :
  __init__ url budget = Some self →
  rtc step (start self) st →
  ∃ recs : list (string * string),
    (save_to_file (scraper st) filename timestamp date home).2
    = "Website Scrape: " +:+ url +:+ PyStr.nl
      +:+ "Date: " +:+ date +:+ PyStr.nl
      +:+ "Pages scraped: " +:+ pretty (length (fetched (trace st))) +:+ PyStr.nl
      +:+ times "=" 80 +:+ PyStr.nl +:+ PyStr.nl
      +:+ concat_strings ((λ r, page_content r.1 r.2 +:+ PyStr.nl) <$> recs)
    ∧ text_content (scraper st) = (λ r, page_content r.1 r.2) <$> recs
    ∧ length recs ≤ length (fetched (trace st)).
Proof.
  intros Hinit Hrtc.
  destruct (crawl_order_inv _ _ _ _ Hinit Hrtc) as (recs & ns & Hc & Hf & Hsub & _).
  assert (visited_inv st) as (ns' & Hf' & Hnd & Hv).
  { apply (crawl_invariant visited_inv (start self));
      [by eapply start_visited_inv|apply visited_inv_iteration|done]. }
  destruct (crawl_fields _ _ Hrtc) as (Hbase & _ & _). simpl in Hbase.
  apply init_fields in Hinit as (Hu & _).
  exists recs. split_and!; [|done|].
  - unfold save_to_file. cbn [snd].
    rewrite write_all, Hc, Hbase, Hu, Hv, size_list_to_set by done.
    rewrite <-(Forall2_length _ _ _ Hf'), <-list_fmap_compose.
    rewrite !append_assoc. done.
  - rewrite (Forall2_length _ _ _ Hf), <-(length_fmap fst).
    by apply sublist_length.
Qed.

End output_results.

Section links_are_normalized.
Context {E : Externals}.

(** *** With the functions of urllib.parse *)

Lemma scrape_page_links_normalized (self : WebsiteScraper) (url : string)
    (links : list string) (extracted : string) :
  scrape_page self url = (links, extracted) →
  Forall (λ l, ∃ link, normalize_url link = Some l) links.
Proof.
  unfold scrape_page.
  destruct (scrape_page_try self url) as [[l t]|] eqn:Ht; simpl;
    intros [= <- <-]; [|constructor].
  unfold scrape_page_try in Ht.
  apply bind_Some in Ht as (response & _ & Ht).
  destruct (raises_for_status response); [done|].
  destruct (negb _); [injection Ht as <- <-; constructor|].
  apply bind_Some in Ht as (soup & _ & Ht).
  destruct (extract_text soup) as [soup' text'].
  apply bind_Some in Ht as (links' & Hl & [= <- <-]).
  apply get_all_links_from_filter in Hl as (ns & Hns & ->). simpl.
  apply Forall_forall. intros l [Hin _]%list_elem_of_In%List.filter_In.
  apply list_elem_of_In, list_elem_of_lookup in Hin as [i Hi].
  destruct (Forall2_lookup_r _ _ _ _ _ Hns Hi) as (anchor & _ & link & _ & Hn).
  by exists link.
Qed.

End links_are_normalized.

Section urllib_crawl.
Context {E : Externals}.
Hypothesis Hparse : urlparse = Urllib.urlparse.
Hypothesis Hunparse : urlunparse = Urllib.urlunparse.
#[local] Arguments String.append !_ _ / : simpl nomatch.

Lemma normalize_url_plain (url n : string) :
  normalize_url url = Some n → Urllib.plain n.
Proof.
  unfold normalize_url. rewrite Hparse, Hunparse.
  destruct (Urllib.urlparse url) as [parsed|] eqn:Hp; simpl; [|done].
  intros [= <-]. apply urlparse_plain in Hp as (? & ? & ? & ?).
  by apply urlunparse_plain.
Qed.

(** X13.  With [urlparse] and [urlunparse] of urllib.parse, every URL
    that the crawl of a new scraper requests or holds in its frontier is
    the seed or has no question mark and no number sign: the links are
    requested in their normalized form, without query and fragment. *)
Theorem crawl_requests_have_no_query_or_fragment
    (url : string) (budget : Z) (self : WebsiteScraper) (st : crawl) :
  __init__ url budget = Some self →
  rtc step (start self) st →
  Forall (λ u, u = url ∨ Urllib.plain u) (fetched (trace st))
  ∧ Forall (λ u, u = url ∨ Urllib.plain u) (urls_to_visit st).
Proof.
  intros (Hu & _)%init_fields Hrtc.
  apply (crawl_invariant
           (λ a, Forall (λ u, u = url ∨ Urllib.plain u) (fetched (trace a))
                 ∧ Forall (λ u, u = url ∨ Urllib.plain u) (urls_to_visit a))
           (start self)); [| |done].
  - simpl. split; [constructor|]. constructor; [by left|constructor].
  - intros a b [Hf Hq'] Hi.
    iteration_cases Hi; rewrite Hq in Hq'; apply Forall_cons in Hq' as [Hu' Hrest];
      simpl; rewrite ?fetched_app, ?app_nil_r.
    + done.
    + split; [|done]. apply Forall_app. split; [done|]. by constructor.
    + split; [apply Forall_app; split; [done|by constructor]|].
      apply Forall_app. split; [done|].
      eapply Forall_impl; [by eapply scrape_page_links_normalized|].
      intros l (link & Hl). right. by eapply normalize_url_plain.
Qed.

Lemma urlparse_scheme_found (url : string) (parsed : ParseResult) :
  Urllib.urlparse url = Some parsed →
  scheme parsed
  = (Urllib.split_scheme
       (Urllib.remove_chars
          (λ c, (N_of_ascii c =? 9)%N || (N_of_ascii c =? 13)%N
                || (N_of_ascii c =? 10)%N)
          (Urllib.lstrip_c0 url))).1.
Proof.
  unfold Urllib.urlparse, Urllib.urlparse_scheme, Urllib.urlsplit.
  set (b := Urllib.remove_chars _ _). clearbody b.
  destruct (Urllib.split_scheme b) as [found rest]. simpl.
  assert (∃ r, (if PyStr.truthy found then (found, rest) else (EmptyString, b))
               = (found, r)) as [r ->]
    by (destruct found; simpl; eauto).
  destruct (match Urllib.split_netloc r with Some _ => _ | None => _ end)
    as [[nl r']|]; simpl; [|done].
  destruct (Urllib.split_tail r') as [[p q] f]. simpl.
  destruct (if _ && _ then _ else _) as [p' params']. by intros [= <-].
Qed.

(** X14.  With [urlparse] of urllib.parse, the URL [main] makes of a
    line of input has the scheme http when the line starts with http://
    and the scheme https in every other case, whenever it can be parsed:
    a line with another scheme (ftp://host) is read as a host name. *)
Theorem accepted_url_has_an_http_scheme (d : string) (parsed : ParseResult) :
  urlparse (url_of_input d) = Some parsed →
  scheme parsed
  = (if PyStr.startswith "http://" d then "http" else "https")%string.
Proof.
  rewrite Hparse. intros Hp%urlparse_scheme_found. rewrite Hp. clear Hp.
  unfold url_of_input.
  destruct (PyStr.startswith "http://" d) eqn:H1.
  - apply startswith_split in H1 as [t ->]. cbn [negb andb].
    change (Urllib.lstrip_c0 ("http://" +:+ t)) with ("http://" +:+ t)%string.
    rewrite remove_chars_app. reflexivity.
  - cbn [negb andb].
    destruct (PyStr.startswith "https://" d) eqn:H2; cbn [negb].
    + apply startswith_split in H2 as [t ->].
      change (Urllib.lstrip_c0 ("https://" +:+ t)) with ("https://" +:+ t)%string.
      rewrite remove_chars_app. reflexivity.
    + change (Urllib.lstrip_c0 ("https://" +:+ d)) with ("https://" +:+ d)%string.
      rewrite remove_chars_app. reflexivity.
Qed.

(** X15.  With [urlparse] of urllib.parse and a timestamp without a
    slash, the default file name of [save_to_file], made of the domain
    with its dots replaced, the timestamp and .txt, has no slash, and the
    file is written in the website_scrapes directory under the home
    directory, at any point of the crawl of a new scraper. *)
Theorem default_output_file_is_in_the_output_directory
    (url : string) (budget : Z) (self : WebsiteScraper) (st : crawl)
    (timestamp date home : string) :
  __init__ url budget = Some self →
  rtc step (start self) st →
  Urllib.has_char "/" timestamp = false →
  let name :=
    (replace_char "." "_" (domain self) +:+ "_" +:+ timestamp +:+ ".txt")%string in
  (save_to_file (scraper st) None timestamp date home).1
  = (home +:+ "/website_scrapes/" +:+ name)%string
  ∧ Urllib.has_char "/" name = false.
Proof.
  intros Hinit Hrtc Hstamp.
  destruct (crawl_fields _ _ Hrtc) as (_ & Hdom & _). simpl in Hdom.
  apply init_fields in Hinit as (_ & _ & _ & _ & _ & parsed & Hp & Hnl).
  rewrite Hparse in Hp. apply urlparse_netloc_no_slash in Hp.
  intros name.
  assert (Hname : Urllib.has_char "/" name = false).
  { unfold name. rewrite Hnl, !has_char_app, Hstamp, has_char_replace by done. done. }
  split; [|done].
  unfold save_to_file, Posixpath.join, output_dir. cbn [fst].
  rewrite Hdom. fold name. rewrite (no_slash_not_absolute _ Hname).
  rewrite ends_with_sep_app.
  assert (PyStr.truthy (home +:+ "/website_scrapes") = true) as ->
    by (by destruct home).
  cbn [negb orb]. simpl. by rewrite !append_assoc.
Qed.

End urllib_crawl.

(** ** Examples for the results above *)

Lemma scraped_text_is_blank_only_when_empty_witness :
  scrape_page (E := Site.web) (Site.scraper_for 1000) "https://example.com/blank"
  = (["https://example.com/e"%string], EmptyString)
  ∧ PyStr.strip EmptyString = EmptyString
  ∧ (all_space EmptyString = true ↔ EmptyString = EmptyString).
Proof.
  split; [vm_compute; reflexivity|].
  apply (scraped_text_is_blank_only_when_empty (E := Site.web)
           (Site.scraper_for 1000) "https://example.com/blank"
           ["https://example.com/e"%string] EmptyString).
  vm_compute. reflexivity.
Defined.

Lemma get_all_links_keeps_document_order_witness :
  let self := Site.scraper_for 1000 in
  let soup := Site.mkDocument "Home"
      ["https://example.com/a?x=1"; "/b"; "https://other.org/"]%string in
  let links := ["https://example.com/a"; "https://example.com/b"]%string in
  get_all_links (E := Site.web) self soup "https://example.com" = Some links
  ∧ ∃ ns,
      Forall2 (λ anchor n,
                 ∃ link, absolute_link (E := Site.web) "https://example.com"
                           (tag_href (Externals := Site.web) anchor) = Some link
                         ∧ normalize_url (E := Site.web) link = Some n)
        (find_all_a_href (Externals := Site.web) soup) ns
      ∧ links = List.filter (admits (E := Site.web) self) ns
      ∧ length links ≤ length (find_all_a_href (Externals := Site.web) soup).
Proof.
  intros self soup links. split; [vm_compute; reflexivity|].
  apply (get_all_links_keeps_document_order (E := Site.web) self soup
           "https://example.com" links).
  vm_compute. reflexivity.
Defined.

Lemma malformed_link_discards_the_page_witness :
  let self := Site.scraper_for 1000 in
  let response := mkResponse 200 Site.html BrokenLink.home_body in
  requests_get (Externals := BrokenLink.web) "https://example.com" headers 10
  = Some response
  ∧ raises_for_status response = false
  ∧ PyStr.contains "text/html"
      (PyStr.lower (default EmptyString (content_type response))) = true
  ∧ BeautifulSoup (Externals := BrokenLink.web) (text response) = Some BrokenLink.home
  ∧ "http://[broken"%string
    ∈ find_all_a_href (Externals := BrokenLink.web)
        (extract_text (E := BrokenLink.web) BrokenLink.home).1
  ∧ PyStr.startswith "http" "http://[broken" = true
  ∧ urlparse (Externals := BrokenLink.web) "http://[broken" = None
  ∧ scrape_page (E := BrokenLink.web) self "https://example.com"
    = ([], EmptyString).
Proof.
  intros self response.
  assert (Hin : "http://[broken"%string
                ∈ find_all_a_href (Externals := BrokenLink.web)
                    (extract_text (E := BrokenLink.web) BrokenLink.home).1).
  { apply list_elem_of_further, list_elem_of_here. }
  split_and!; [reflexivity|reflexivity|vm_compute; reflexivity|reflexivity|exact Hin
              |reflexivity|reflexivity|].
  apply (malformed_link_discards_the_page (E := BrokenLink.web) self
           "https://example.com" response BrokenLink.home "http://[broken");
    [reflexivity|reflexivity|vm_compute; reflexivity|reflexivity|exact Hin
    |reflexivity|reflexivity].
Defined.

Lemma crawl_requests_stay_on_the_domain_witness :
  __init__ (E := Site.web) "https://example.com" 1000 = Some (Site.scraper_for 1000)
  ∧ rtc (step (E := Site.web)) (start (Site.scraper_for 1000)) (Site.after 9)
  ∧ Forall (λ u, u = "https://example.com"%string
                 ∨ is_valid_url (E := Site.web) (Site.scraper_for 1000) u = Some true)
      (fetched (trace (Site.after 9))).
Proof.
  split; [apply site_init|].
  split; [apply site_reach; vm_compute; reflexivity|].
  apply (crawl_requests_stay_on_the_domain (E := Site.web)
           "https://example.com" 1000 (Site.scraper_for 1000) (Site.after 9)).
  - apply site_init.
  - apply site_reach. vm_compute. reflexivity.
Defined.

Lemma crawl_of_a_seed_without_netloc_witness :
  let st := mkCrawl (add_visited bare_scraper "example.com") [] [Fetch "example.com"] in
  __init__ (E := Site.web) "example.com" 1000 = Some bare_scraper
  ∧ domain bare_scraper = EmptyString
  ∧ rtc (step (E := Site.web)) (start bare_scraper) st
  ∧ (fetched (trace st) = []
     ∨ fetched (trace st) = ["example.com"%string] ∧ urls_to_visit st = []).
Proof.
  intros st.
  assert (Hrtc : rtc (step (E := Site.web)) (start bare_scraper) st).
  { apply (iterations_rtc (E := Site.web) 1). vm_compute. reflexivity. }
  split_and!; [reflexivity|reflexivity|exact Hrtc|].
  apply (crawl_of_a_seed_without_netloc (E := Site.web)
           "example.com" 1000 bare_scraper st); [reflexivity|reflexivity|exact Hrtc].
Defined.

Lemma second_crawl_requests_nothing_witness :
  __init__ (E := Site.web) "https://example.com" 1000 = Some (Site.scraper_for 1000)
  ∧ ∃ final,
      scrape_website_fuel (E := Site.web) 10 (start (Site.scraper_for 1000))
      = Some (Finished final)
      ∧ ∃ again,
          scrape_website (E := Site.web) (start (scraper final)) (Finished again)
          ∧ scraper again = scraper final
          ∧ trace again = [].
Proof.
  split; [apply site_init|].
  eexists. split; [vm_compute; reflexivity|].
  apply (second_crawl_requests_nothing (E := Site.web)
           "https://example.com" 1000 (Site.scraper_for 1000)).
  - apply site_init.
  - apply (scrape_website_fuel_sound (E := Site.web) 10). vm_compute. reflexivity.
Defined.

Lemma page_blocks_follow_the_requests_witness :
  __init__ (E := Site.web) "https://example.com" 1000 = Some (Site.scraper_for 1000)
  ∧ rtc (step (E := Site.web)) (start (Site.scraper_for 1000)) (Site.after 9)
  ∧ ∃ (recs : list (string * string)) (ns : list string),
      text_content (scraper (Site.after 9)) = (λ r, page_content r.1 r.2) <$> recs
      ∧ Forall2 (λ u n, normalize_url (E := Site.web) u = Some n)
          (fetched (trace (Site.after 9))) ns
      ∧ recs.*1 `sublist_of` ns
      ∧ NoDup recs.*1
      ∧ Forall (λ r, r.2 ≠ EmptyString ∧ PyStr.strip r.2 = r.2) recs
      ∧ length (text_content (scraper (Site.after 9)))
        ≤ size (visited_urls (scraper (Site.after 9))).
Proof.
  split; [apply site_init|].
  split; [apply site_reach; vm_compute; reflexivity|].
  apply (page_blocks_follow_the_requests (E := Site.web)
           "https://example.com" 1000 (Site.scraper_for 1000) (Site.after 9)).
  - apply site_init.
  - apply site_reach. vm_compute. reflexivity.
Defined.

Lemma accepted_url_is_crawled_from_the_seed_witness :
  validate_url (E := Site.web) "https://example.com" = true
  ∧ ∃ self,
      __init__ (E := Site.web) "https://example.com" 1000 = Some self
      ∧ domain self ≠ EmptyString
      ∧ is_valid_url (E := Site.web) self "https://example.com" = Some true
      ∧ ∀ st, rtc (step (E := Site.web)) (start self) st →
          Forall (λ u, is_Some (normalize_url (E := Site.web) u)) (urls_to_visit st)
          ∧ (st = start self
             ∨ ∃ more, fetched (trace st) = "https://example.com"%string :: more)
          ∧ length (fetched (trace st)) ≤ 1000.
Proof.
  split; [reflexivity|].
  apply (accepted_url_is_crawled_from_the_seed (E := Site.web) "https://example.com").
  reflexivity.
Defined.

Lemma saved_document_counts_the_requests_witness :
  __init__ (E := Site.web) "https://example.com" 1000 = Some (Site.scraper_for 1000)
  ∧ rtc (step (E := Site.web)) (start (Site.scraper_for 1000)) (Site.after 9)
  ∧ ∃ recs : list (string * string),
      (save_to_file (scraper (Site.after 9)) None "20240501_093000"
         "2024-05-01 09:30:00" "/home/user").2
      = ("Website Scrape: " +:+ "https://example.com" +:+ PyStr.nl
         +:+ "Date: " +:+ "2024-05-01 09:30:00" +:+ PyStr.nl
         +:+ "Pages scraped: " +:+ pretty (length (fetched (trace (Site.after 9))))
         +:+ PyStr.nl
         +:+ times "=" 80 +:+ PyStr.nl +:+ PyStr.nl
         +:+ concat_strings ((λ r, page_content r.1 r.2 +:+ PyStr.nl) <$> recs))%string
      ∧ text_content (scraper (Site.after 9)) = (λ r, page_content r.1 r.2) <$> recs
      ∧ length recs ≤ length (fetched (trace (Site.after 9))).
Proof.
  split; [apply site_init|].
  split; [apply site_reach; vm_compute; reflexivity|].
  apply (saved_document_counts_the_requests (E := Site.web)
           "https://example.com" 1000 (Site.scraper_for 1000) (Site.after 9)).
  - apply site_init.
  - apply site_reach. vm_compute. reflexivity.
Defined.

Lemma crawl_requests_have_no_query_or_fragment_witness :
  urlparse (Externals := Site.web) = Urllib.urlparse
  ∧ urlunparse (Externals := Site.web) = Urllib.urlunparse
  ∧ __init__ (E := Site.web) "https://example.com" 1000 = Some (Site.scraper_for 1000)
  ∧ rtc (step (E := Site.web)) (start (Site.scraper_for 1000)) (Site.after 1)
  ∧ Forall (λ u, u = "https://example.com"%string ∨ Urllib.plain u)
      (fetched (trace (Site.after 1)))
  ∧ Forall (λ u, u = "https://example.com"%string ∨ Urllib.plain u)
      (urls_to_visit (Site.after 1)).
Proof.
  split; [reflexivity|]. split; [reflexivity|].
  split; [apply site_init|].
  split; [apply site_reach; vm_compute; reflexivity|].
  apply (crawl_requests_have_no_query_or_fragment (E := Site.web) eq_refl eq_refl
           "https://example.com" 1000 (Site.scraper_for 1000) (Site.after 1)).
  - apply site_init.
  - apply site_reach. vm_compute. reflexivity.
Defined.

Lemma accepted_url_has_an_http_scheme_witness :
  let parsed := mkParseResult "https" "example.com" "/docs" "" "" "" in
  urlparse (Externals := Site.web) = Urllib.urlparse
  ∧ urlparse (Externals := Site.web) (url_of_input "example.com/docs") = Some parsed
  ∧ scheme parsed
    = (if PyStr.startswith "http://" "example.com/docs" then "http" else "https")%string.
Proof.
  intros parsed. split; [reflexivity|]. split; [reflexivity|].
  apply (accepted_url_has_an_http_scheme (E := Site.web) eq_refl "example.com/docs" parsed).
  reflexivity.
Defined.

Lemma default_output_file_is_in_the_output_directory_witness :
  let name :=
    (replace_char "." "_" (domain (Site.scraper_for 1000))
     +:+ "_" +:+ "20240501_093000" +:+ ".txt")%string in
  urlparse (Externals := Site.web) = Urllib.urlparse
  ∧ __init__ (E := Site.web) "https://example.com" 1000 = Some (Site.scraper_for 1000)
  ∧ rtc (step (E := Site.web)) (start (Site.scraper_for 1000)) (Site.after 9)
  ∧ Urllib.has_char "/" "20240501_093000" = false
  ∧ (save_to_file (scraper (Site.after 9)) None "20240501_093000"
       "2024-05-01 09:30:00" "/home/user").1
    = ("/home/user" +:+ "/website_scrapes/" +:+ name)%string
  ∧ Urllib.has_char "/" name = false.
Proof.
  intros name. split; [reflexivity|].
  split; [apply site_init|].
  split; [apply site_reach; vm_compute; reflexivity|].
  split; [reflexivity|].
  apply (default_output_file_is_in_the_output_directory (E := Site.web) eq_refl
           "https://example.com" 1000 (Site.scraper_for 1000) (Site.after 9)
           "20240501_093000" "2024-05-01 09:30:00" "/home/user").
  - apply site_init.
  - apply site_reach. vm_compute. reflexivity.
  - reflexivity.
Defined.

(** The document written after the crawl of the example site. *)
Example site_document :
  save_to_file (scraper (Site.after 9)) None "20240501_093000"
    "2024-05-01 09:30:00" "/home/user"
  = ("/home/user/website_scrapes/example_com_20240501_093000.txt"%string,
     ("Website Scrape: https://example.com" +:+ PyStr.nl
      +:+ "Date: 2024-05-01 09:30:00" +:+ PyStr.nl
      +:+ "Pages scraped: 8" +:+ PyStr.nl
      +:+ "================================================================================"
      +:+ PyStr.nl +:+ PyStr.nl
      +:+ PyStr.nl +:+ PyStr.nl +:+ "=== https://example.com ===" +:+ PyStr.nl
      +:+ "Home" +:+ PyStr.nl
      +:+ PyStr.nl +:+ PyStr.nl +:+ "=== https://example.com/a ===" +:+ PyStr.nl
      +:+ "Same text" +:+ PyStr.nl
      +:+ PyStr.nl +:+ PyStr.nl +:+ "=== https://example.com/choices ===" +:+ PyStr.nl
      +:+ "Choose" +:+ PyStr.nl
      +:+ PyStr.nl +:+ PyStr.nl +:+ "=== https://example.com/c ===" +:+ PyStr.nl
      +:+ "Page c" +:+ PyStr.nl)%string).
Proof. vm_compute. reflexivity. Qed.

(** The input loop passes over lines that give no host. *)
Example site_read_url :
  read_url (E := Site.web) [""; "http://"; "example.com/docs"; "other.org"]%string
  = Some ("https://example.com/docs"%string, ["other.org"%string])
  ∧ read_url (E := Site.web) [""; "https://"; "http://[x"]%string = None.
Proof. vm_compute. done. Qed.

(** ** The normalizer with the functions of urllib.parse *)

Section round_trip.
#[local] Arguments String.append !_ _ / : simpl nomatch.
#[local] Arguments Ascii.eqb : simpl never.

(** *** Pieces of a URL keep what holds of all its characters *)

Lemma all_chars_break_at (g f : ascii → bool) (s x y : string) :
  Urllib.break_at f s = Some (x, y) → Urllib.all_chars g s = true →
  Urllib.all_chars g x = true ∧ Urllib.all_chars g y = true.
Proof.
  intros (c & _ & -> & _)%break_at_pieces. rewrite all_chars_app. simpl.
  intros [? [_ ?]%andb_true_iff]%andb_true_iff. done.
Qed.

Lemma all_chars_span_until (g f : ascii → bool) (s : string) :
  Urllib.all_chars g s = true →
  Urllib.all_chars g (Urllib.span_until f s).1 = true
  ∧ Urllib.all_chars g (Urllib.span_until f s).2 = true.
Proof.
  intros Hs. rewrite (span_until_pieces f s), all_chars_app in Hs.
  by apply andb_true_iff in Hs.
Qed.

Lemma span_until_all (f : ascii → bool) (s : string) :
  Urllib.all_chars (λ c, negb (f c)) s = true →
  Urllib.span_until f s = (s, EmptyString).
Proof.
  induction s as [|c s IH]; simpl; [done|].
  intros [Hc Hs]%andb_true_iff. apply negb_true_iff in Hc. rewrite Hc.
  by rewrite (IH Hs).
Qed.

Lemma span_until_snd (f : ascii → bool) (s : string) :
  starts_with f (Urllib.span_until f s).2.
Proof.
  induction s as [|c s IH]; simpl; [done|].
  destruct (f c) eqn:Hc; [done|]. by destruct (Urllib.span_until f s).
Qed.

Lemma remove_chars_all (f : ascii → bool) (s : string) :
  Urllib.all_chars (λ c, negb (f c)) (Urllib.remove_chars f s) = true.
Proof.
  induction s as [|c s IH]; simpl; [done|].
  destruct (f c) eqn:Hc; [done|]. simpl. by rewrite Hc.
Qed.

Lemma remove_chars_id (f : ascii → bool) (s : string) :
  Urllib.all_chars (λ c, negb (f c)) s = true → Urllib.remove_chars f s = s.
Proof.
  induction s as [|c s IH]; simpl; [done|].
  intros [Hc Hs]%andb_true_iff. apply negb_true_iff in Hc. rewrite Hc.
  by rewrite (IH Hs).
Qed.

(** *** The last segment of a path *)

Lemma rsplit_slash_last (l : string) :
  Urllib.has_char "/" l = false → Urllib.rsplit_slash l = (EmptyString, l).
Proof.
  induction l as [|c l IH]; simpl; [done|].
  intros [Hc Hl]%orb_false_iff. rewrite (IH Hl). simpl.
  rewrite Ascii.eqb_sym in Hc. by rewrite Hc.
Qed.

Lemma rsplit_slash_app (d l : string) :
  Posixpath.ends_with_sep d = true → Urllib.has_char "/" l = false →
  Urllib.rsplit_slash (d +:+ l) = (d, l).
Proof.
  intros Hd Hl. induction d as [|c d IH]; [done|].
  change (String c d +:+ l) with (String c (d +:+ l)).
  cbn [Urllib.rsplit_slash]. destruct d as [|c' d].
  - simpl in Hd. simpl. rewrite (rsplit_slash_last l Hl). simpl. by rewrite Hd.
  - rewrite IH by done. done.
Qed.

Lemma rsplit_slash_shape (s : string) :
  Urllib.has_char "/" (Urllib.rsplit_slash s).2 = false
  ∧ ((Urllib.rsplit_slash s).1 = EmptyString
     ∨ Posixpath.ends_with_sep (Urllib.rsplit_slash s).1 = true).
Proof.
  induction s as [|c s IH]; simpl; [by split; [|left]|].
  destruct (Urllib.rsplit_slash s) as [a b]. simpl in IH.
  destruct IH as [Hb Ha].
  destruct (PyStr.truthy a || Ascii.eqb c "/") eqn:Hc; simpl.
  - split; [done|]. right. destruct a as [|c' a].
    + simpl in Hc. done.
    + by destruct Ha.
  - apply orb_false_iff in Hc as [_ Hc]. split; [|by left].
    by rewrite Ascii.eqb_sym, Hc.
Qed.

Lemma all_chars_has_char (c : ascii) (s : string) :
  Urllib.all_chars (λ d, negb (Ascii.eqb c d)) s = true → Urllib.has_char c s = false.
Proof.
  induction s as [|d s IH]; simpl; [done|].
  intros [Hd Hs]%andb_true_iff. apply negb_true_iff in Hd. by rewrite Hd, (IH Hs).
Qed.

(** The path and the parameters that [urlparse] found are found again in
    the path that [urlunparse] makes of them, which is the start of the
    path they were found in. *)
Lemma splitparams_again (sc p0 path' params' : string) :
  (if Urllib.mem sc Urllib.uses_params && Urllib.has_char ";" p0
   then Urllib.splitparams p0 else (p0, EmptyString)) = (path', params') →
  let url1 := if PyStr.truthy params' then path' +:+ ";" +:+ params' else path' in
  (if Urllib.mem sc Urllib.uses_params && Urllib.has_char ";" url1
   then Urllib.splitparams url1 else (url1, EmptyString)) = (path', params')
  ∧ ∃ t, p0 = url1 +:+ t.
Proof.
  destruct (Urllib.mem sc Urllib.uses_params); simpl;
    [|intros [= <- <-]; simpl; split; [done|exists EmptyString; by rewrite append_nil_r]].
  destruct (Urllib.has_char ";" p0) eqn:Hsemi;
    [|intros [= <- <-]; simpl; rewrite Hsemi; split;
      [done|exists EmptyString; by rewrite append_nil_r]].
  intros Hsplit. pose proof Hsplit as Horig. unfold Urllib.splitparams in Hsplit.
  pose proof (rsplit_slash_pieces p0) as Hp0.
  pose proof (rsplit_slash_shape p0) as [Hlast Hdir].
  destruct (Urllib.rsplit_slash p0) as [dir last]. simpl in Hp0, Hlast, Hdir.
  destruct (Urllib.break_at (Ascii.eqb ";") last) as [[a b]|] eqn:Hb.
  - injection Hsplit as <- <-.
    apply break_at_pieces in Hb as (c & Hc%Ascii.eqb_eq & -> & Ha). subst c.
    apply all_chars_has_char in Ha.
    rewrite has_char_app in Hlast. apply orb_false_iff in Hlast as [Hslash _].
    destruct b as [|b0 b]; simpl.
    + split; [|exists ";"%string; by rewrite Hp0, append_assoc].
      destruct (Urllib.has_char ";" (dir +:+ a)) eqn:Hsemi'; [|done].
      unfold Urllib.splitparams.
      assert (Urllib.rsplit_slash (dir +:+ a) = (dir, a)) as ->.
      { destruct Hdir as [->|Hdir]; [by apply rsplit_slash_last|].
        by apply rsplit_slash_app. }
      apply break_at_None in Ha. by rewrite Ha.
    + assert (p0 = (dir +:+ a) +:+ String ";" (String b0 b)) as Heq
        by (by rewrite Hp0, append_assoc).
      rewrite <-Heq, Hsemi. split; [done|exists EmptyString; by rewrite append_nil_r].
  - injection Hsplit as <- <-. simpl. rewrite Hsemi.
    split; [done|exists EmptyString; by rewrite append_nil_r].
Qed.

(** *** The scheme *)

Lemma lower_char_scheme (c : ascii) :
  Urllib.scheme_char c = true →
  Urllib.scheme_char (PyStr.lower_char c) = true
  ∧ PyStr.lower_char (PyStr.lower_char c) = PyStr.lower_char c
  ∧ Ascii.eqb ":" (PyStr.lower_char c) = false
  ∧ unsafe_char (PyStr.lower_char c) = false
  ∧ (Urllib.is_alpha c = true →
     Urllib.is_alpha (PyStr.lower_char c) = true
     ∧ (N_of_ascii (PyStr.lower_char c) <=? 32)%N = false).
Proof. destruct c as [[] [] [] [] [] [] [] []]; vm_compute; intros; done. Qed.

Lemma lower_scheme (s : string) :
  Urllib.all_chars Urllib.scheme_char s = true →
  Urllib.all_chars Urllib.scheme_char (PyStr.lower s) = true
  ∧ PyStr.lower (PyStr.lower s) = PyStr.lower s
  ∧ Urllib.has_char ":" (PyStr.lower s) = false
  ∧ tidy (PyStr.lower s).
Proof.
  unfold tidy. induction s as [|c s IH]; simpl; [done|].
  intros [Hc Hs]%andb_true_iff.
  destruct (lower_char_scheme c Hc) as (-> & -> & -> & -> & _).
  destruct (IH Hs) as (-> & -> & -> & ->). done.
Qed.

(** A scheme as [urlsplit] finds it: nothing, or the lower case of a
    letter followed by scheme characters. *)
Lemma split_scheme_found (b : string) :
  let sc := (Urllib.split_scheme b).1 in
  sc = EmptyString
  ∨ ∃ c0 s0, sc = PyStr.lower (String c0 s0)
      ∧ Urllib.is_alpha c0 = true
      ∧ Urllib.all_chars Urllib.scheme_char (String c0 s0) = true.
Proof.
  unfold Urllib.split_scheme.
  destruct (Urllib.break_at (Ascii.eqb ":") b) as [[[|c0 s0] y]|]; simpl; [by left| |by left].
  destruct (Urllib.is_alpha c0 && _) eqn:Hc; simpl; [|by left].
  apply andb_true_iff in Hc as [? ?]. right. by exists c0, s0.
Qed.

Lemma split_scheme_again (c0 : ascii) (s0 rest : string) :
  Urllib.is_alpha c0 = true →
  Urllib.all_chars Urllib.scheme_char (String c0 s0) = true →
  Urllib.split_scheme (PyStr.lower (String c0 s0) +:+ String ":" rest)
  = (PyStr.lower (String c0 s0), rest).
Proof.
  intros Ha Hall. destruct (lower_scheme _ Hall) as (Hall' & Hlow & Hcolon & _).
  unfold Urllib.split_scheme.
  apply break_at_None in Hcolon. rewrite (break_at_app_None _ _ _ Hcolon).
  cbn [Urllib.break_at]. rewrite Ascii.eqb_refl. cbn [mbind option_bind].
  rewrite append_nil_r.
  cbn [Urllib.all_chars] in Hall. apply andb_true_iff in Hall as [Hc0 _].
  destruct (lower_char_scheme c0 Hc0) as (_ & _ & _ & _ & Halpha).
  destruct (Halpha Ha) as [Halpha' _].
  change (PyStr.lower (String c0 s0))
    with (String (PyStr.lower_char c0) (PyStr.lower s0)) in *.
  cbn iota. by rewrite Halpha', Hall', Hlow.
Qed.

Lemma split_scheme_slash (s : string) :
  Urllib.split_scheme (String "/" s) = (EmptyString, String "/" s).
Proof.
  unfold Urllib.split_scheme. cbn [Urllib.break_at].
  change (Ascii.eqb ":" "/") with false. cbn iota.
  by destruct (Urllib.break_at (Ascii.eqb ":") s) as [[a b]|].
Qed.

(** *** Splitting what [urlunsplit] put together *)

Lemma urlsplit_again (sc nl url1 : string) :
  (sc = EmptyString
   ∨ ∃ c0 s0, sc = PyStr.lower (String c0 s0)
       ∧ Urllib.is_alpha c0 = true
       ∧ Urllib.all_chars Urllib.scheme_char (String c0 s0) = true) →
  nl ≠ EmptyString →
  Urllib.all_chars (λ c, negb (Urllib.netloc_delim c)) nl = true →
  xorb (Urllib.has_char "[" nl) (Urllib.has_char "]" nl) = false →
  tidy nl → tidy url1 → Urllib.plain url1 →
  starts_with (λ c, Ascii.eqb c "/") url1 →
  Urllib.urlsplit (Urllib.urlunsplit sc nl url1 EmptyString EmptyString) EmptyString
  = Some (sc, nl, url1, EmptyString, EmptyString).
Proof.
  intros Hsc Hne Hnl Hbr Htnl Hturl Hplain Hstart.
  assert (Hun : Urllib.urlunsplit sc nl url1 EmptyString EmptyString
                = if PyStr.truthy sc
                  then sc +:+ String ":" (String "/" (String "/" (nl +:+ url1)))
                  else String "/" (String "/" (nl +:+ url1))).
  { unfold Urllib.urlunsplit. destruct nl as [|n0 nl]; [done|]. cbn [PyStr.truthy orb].
    assert (PyStr.truthy url1 && negb (Urllib.starts_with_slashes 1 url1) = false) as ->.
    { destruct url1 as [|c t]; [done|]. simpl in Hstart.
      apply Ascii.eqb_eq in Hstart as ->. by destruct t. }
    by destruct (PyStr.truthy sc). }
  rewrite Hun. clear Hun. unfold Urllib.urlsplit.
  fold unsafe_char.
  set (u2 := String "/" (String "/" (nl +:+ url1))).
  assert (Htu2 : tidy u2).
  { unfold tidy, u2. cbn [Urllib.all_chars]. rewrite all_chars_app.
    unfold tidy in Htnl, Hturl. by rewrite Htnl, Hturl. }
  assert (Hsplit : Urllib.split_netloc u2 = Some (nl, url1)).
  { unfold u2. cbn [Urllib.split_netloc]. rewrite span_until_app.
    - by rewrite span_until_all by done.
    - destruct url1 as [|c t]; [done|]. simpl in Hstart.
      apply Ascii.eqb_eq in Hstart as ->. done. }
  set (n := if PyStr.truthy sc then _ else _).
  assert (Hn : Urllib.remove_chars unsafe_char (Urllib.lstrip_c0 n) = n
               ∧ (let '(found, rest) := Urllib.split_scheme n in
                  if PyStr.truthy found then (found, rest) else (EmptyString, n))
                 = (sc, u2)).
  { unfold n. destruct Hsc as [->|(c0 & s0 & -> & Ha & Hall)].
    - cbn [PyStr.truthy]. split.
      + unfold u2 at 1. cbn [Urllib.lstrip_c0].
        change (N_of_ascii "/" <=? 32)%N with false. cbn iota.
        by apply remove_chars_id.
      + unfold u2. by rewrite split_scheme_slash.
    - destruct (lower_scheme _ Hall) as (_ & _ & _ & Htsc).
      cbn [Urllib.all_chars] in Hall. apply andb_true_iff in Hall as [Hc0 Hs0].
      destruct (lower_char_scheme c0 Hc0) as (_ & _ & _ & _ & Halpha).
      destruct (Halpha Ha) as [_ Hgt].
      assert (Hall : Urllib.all_chars Urllib.scheme_char (String c0 s0) = true)
        by (cbn [Urllib.all_chars]; by rewrite Hc0, Hs0).
      change (PyStr.truthy (PyStr.lower (String c0 s0))) with true. cbn iota.
      rewrite split_scheme_again by done.
      change (PyStr.lower (String c0 s0))
        with (String (PyStr.lower_char c0) (PyStr.lower s0)) in *.
      cbn [PyStr.truthy]. split; [|done].
      change (String (PyStr.lower_char c0) (PyStr.lower s0) +:+ String ":" u2)
        with (String (PyStr.lower_char c0) (PyStr.lower s0 +:+ String ":" u2)).
      cbn [Urllib.lstrip_c0]. rewrite Hgt.
      apply remove_chars_id.
      change (String (PyStr.lower_char c0) (PyStr.lower s0 +:+ String ":" u2))
        with (String (PyStr.lower_char c0) (PyStr.lower s0) +:+ String ":" u2).
      rewrite all_chars_app. unfold tidy in Htsc, Htu2. rewrite Htsc.
      cbn [Urllib.all_chars]. by rewrite Htu2. }
  destruct Hn as [-> Hn].
  destruct (Urllib.split_scheme n) as [found rest]. rewrite Hn, Hsplit, Hbr.
  cbn [mbind option_bind]. by rewrite (split_tail_plain _ Hplain).
Qed.

(** *** What [urlsplit] finds in a URL with an authority *)

Lemma split_scheme_rest (g : ascii → bool) (b : string) :
  Urllib.all_chars g b = true → Urllib.all_chars g (Urllib.split_scheme b).2 = true.
Proof.
  intros Hb. unfold Urllib.split_scheme.
  destruct (Urllib.break_at (Ascii.eqb ":") b) as [[[|c0 s0] y]|] eqn:Hbreak; [done| |done].
  destruct (Urllib.is_alpha c0 && _); [|done].
  by destruct (all_chars_break_at g _ _ _ _ Hbreak Hb).
Qed.

Lemma split_netloc_Some (r nl rest : string) :
  Urllib.split_netloc r = Some (nl, rest) →
  ∃ r2, r = String "/" (String "/" r2)
    ∧ Urllib.span_until Urllib.netloc_delim r2 = (nl, rest).
Proof.
  unfold Urllib.split_netloc.
  destruct r as [|c1 [|c2 r2]]; [done|by destruct c1 as [[] [] [] [] [] [] [] []]|].
  destruct c1 as [[] [] [] [] [] [] [] []]; try done.
  destruct c2 as [[] [] [] [] [] [] [] []]; try done.
  intros [= Hspan]. by exists r2.
Qed.

Lemma split_tail_path_shape (g : ascii → bool) (r : string) :
  Urllib.all_chars g r = true → starts_with Urllib.netloc_delim r →
  Urllib.all_chars g (Urllib.split_tail r).1.1 = true
  ∧ starts_with (λ c, Ascii.eqb c "/") (Urllib.split_tail r).1.1.
Proof.
  intros Hg Hstart. pose proof (split_tail_path_plain r) as Hplain.
  unfold Urllib.split_tail in *.
  assert (Hcut : ∀ c s,
            Urllib.all_chars g s = true →
            starts_with Urllib.netloc_delim s →
            let x := (default (s, EmptyString) (Urllib.break_at (Ascii.eqb c) s)).1 in
            Urllib.all_chars g x = true ∧ starts_with Urllib.netloc_delim x).
  { intros c s Hs Hd. destruct (Urllib.break_at (Ascii.eqb c) s) as [[x y]|] eqn:Hx; simpl.
    - destruct (all_chars_break_at g _ _ _ _ Hx Hs) as [Hgx _].
      apply break_at_pieces in Hx as (d & _ & -> & _).
      split; [done|]. by destruct x.
    - done. }
  destruct (Hcut "#"%char r Hg Hstart) as (Hg1 & Hd1).
  destruct (default (r, EmptyString) (Urllib.break_at (Ascii.eqb "#") r)) as [u1 f1].
  simpl in Hg1, Hd1.
  destruct (Hcut "?"%char u1 Hg1 Hd1) as (Hg2 & Hd2).
  destruct (default (u1, EmptyString) (Urllib.break_at (Ascii.eqb "?") u1)) as [p0 q0].
  simpl in *. split; [done|].
  destruct p0 as [|c t]; [done|]. simpl in *.
  apply plain_cons in Hplain as (Hq & Hf & _).
  unfold Urllib.netloc_delim in Hd2.
  apply orb_true_iff in Hd2 as [[?|Hc%Ascii.eqb_eq]%orb_true_iff|Hc%Ascii.eqb_eq]; done.
Qed.

Lemma urlsplit_parts (url sc nl p0 q f : string) :
  Urllib.urlsplit url EmptyString = Some (sc, nl, p0, q, f) →
  nl ≠ EmptyString →
  (sc = EmptyString
   ∨ ∃ c0 s0, sc = PyStr.lower (String c0 s0)
       ∧ Urllib.is_alpha c0 = true
       ∧ Urllib.all_chars Urllib.scheme_char (String c0 s0) = true)
  ∧ Urllib.all_chars (λ c, negb (Urllib.netloc_delim c)) nl = true
  ∧ xorb (Urllib.has_char "[" nl) (Urllib.has_char "]" nl) = false
  ∧ tidy nl ∧ tidy p0 ∧ Urllib.plain p0
  ∧ starts_with (λ c, Ascii.eqb c "/") p0.
Proof.
  unfold Urllib.urlsplit. fold unsafe_char.
  set (b := Urllib.remove_chars _ _).
  assert (Hb : tidy b) by apply remove_chars_all. clearbody b.
  pose proof (split_scheme_found b) as Hfound.
  pose proof (split_scheme_rest _ b Hb) as Hrest.
  destruct (Urllib.split_scheme b) as [found rest]. simpl in Hfound, Hrest.
  assert (∃ sc' r, (if PyStr.truthy found then (found, rest) else (EmptyString, b))
                   = (sc', r)
                   ∧ (sc' = EmptyString
                      ∨ ∃ c0 s0, sc' = PyStr.lower (String c0 s0)
                          ∧ Urllib.is_alpha c0 = true
                          ∧ Urllib.all_chars Urllib.scheme_char (String c0 s0) = true)
                   ∧ tidy r) as (sc' & r & -> & Hsc & Hr).
  { destruct (PyStr.truthy found); eauto 10. }
  destruct (Urllib.split_netloc r) as [[nl' r']|] eqn:Hsplit; simpl;
    [|destruct (Urllib.split_tail r) as [[? ?] ?]; intros [= <- <- <- <- <-]; done].
  destruct (xorb _ _) eqn:Hbr; simpl; [done|].
  pose proof (split_tail_path_plain r') as Hplain.
  apply split_netloc_Some in Hsplit as (r2 & -> & Hspan).
  unfold tidy in Hr. cbn [Urllib.all_chars] in Hr.
  apply andb_true_iff in Hr as [_ [_ Hr2]%andb_true_iff].
  pose proof (span_until_fst Urllib.netloc_delim r2) as Hnl.
  pose proof (span_until_snd Urllib.netloc_delim r2) as Hstart.
  pose proof (all_chars_span_until _ Urllib.netloc_delim r2 Hr2) as [Htnl Htr'].
  rewrite Hspan in Hnl, Hstart, Htnl, Htr'. simpl in Hnl, Hstart, Htnl, Htr'.
  destruct (split_tail_path_shape _ r' Htr' Hstart) as [Htp Hsp].
  destruct (Urllib.split_tail r') as [[p' q'] f']. simpl in *.
  intros [= <- <- <- <- <-] _. done.
Qed.

(** For a URL with an authority, [urlparse] finds in the URL that
    [urlunparse] makes of its scheme, netloc, path and parameters just
    these, and neither a query nor a fragment. *)
Lemma urlparse_urlunparse (url : string) (parsed : ParseResult) :
  Urllib.urlparse url = Some parsed →
  netloc parsed ≠ EmptyString →
  Urllib.urlparse (Urllib.urlunparse (replace_query_fragment parsed "" ""))
  = Some (replace_query_fragment parsed "" "").
Proof.
  unfold Urllib.urlparse at 1, Urllib.urlparse_scheme at 1.
  destruct (Urllib.urlsplit url EmptyString) as [[[[[sc nl] p0] q] f]|] eqn:Hs;
    simpl; [|done].
  destruct (if Urllib.mem sc Urllib.uses_params && Urllib.has_char ";" p0
            then Urllib.splitparams p0 else (p0, EmptyString))
    as [path' params'] eqn:Hpar.
  intros [= <-] Hne. simpl in Hne.
  destruct (urlsplit_parts _ _ _ _ _ _ Hs Hne)
    as (Hsc & Hnl & Hbr & Htnl & Htp & Hplain & Hstart).
  apply splitparams_again in Hpar as [Hagain (t & Ht)].
  unfold Urllib.urlunparse, replace_query_fragment. simpl in Hagain, Ht |- *.
  set (url1 := if PyStr.truthy params' then path' +:+ String ";" params' else path') in *.
  assert (Hurl1 : tidy url1 ∧ Urllib.plain url1
                  ∧ starts_with (λ c, Ascii.eqb c "/") url1).
  { clearbody url1. subst p0. unfold tidy in *. rewrite all_chars_app in Htp.
    apply andb_true_iff in Htp as [? _]. apply plain_app in Hplain as [? _].
    split_and!; [done|done|]. by destruct url1. }
  destruct Hurl1 as (Ht1 & Hp1 & Hs1).
  unfold Urllib.urlparse, Urllib.urlparse_scheme.
  rewrite urlsplit_again by done. simpl. by rewrite Hagain.
Qed.

End round_trip.

Section normalizer.
Context {E : Externals}.
Hypothesis Hparse : urlparse = Urllib.urlparse.
Hypothesis Hunparse : urlunparse = Urllib.urlunparse.

(** C9, as amended.  With [urlparse] and [urlunparse] of urllib.parse:
    two URLs that differ only in their query and fragment (the same
    text without question mark and number sign, followed by nothing or by
    a part that starts with one of the two) have the same normalized URL,
    or [normalize_url] fails on both; a normalized URL has no question
    mark and no number sign, so neither a query nor a fragment; for a URL
    in which [urlparse] finds a netloc, [normalize_url] has a result, and
    [urlparse] finds in it the scheme (in lower case, as [urlparse] gives
    it), the netloc (user info, host and port), the path and the
    parameters of the URL, unchanged, and no query and no fragment; and
    [normalize_url] fails exactly when [urlparse] rejects the URL.  It
    reads and changes no state. *)
Theorem normalize_url_drops_query_and_fragment :
  (∀ url s1 s2,
     Urllib.plain url → Urllib.query_fragment s1 → Urllib.query_fragment s2 →
     normalize_url (url +:+ s1) = normalize_url (url +:+ s2))
  ∧ (∀ url normalized, normalize_url url = Some normalized → Urllib.plain normalized)
  ∧ (∀ url parsed,
       urlparse url = Some parsed → netloc parsed ≠ EmptyString →
       ∃ normalized,
         normalize_url url = Some normalized
         ∧ urlparse normalized
           = Some (mkParseResult (scheme parsed) (netloc parsed) (path parsed)
                     (params parsed) EmptyString EmptyString))
  ∧ (∀ url, normalize_url url = None ↔ urlparse url = None).
Proof.
  assert (Hsame : ∀ url s, Urllib.plain url → Urllib.query_fragment s →
            normalize_url (url +:+ s) = normalize_url url).
  { intros url s Hurl Hs. unfold normalize_url. rewrite Hparse, Hunparse.
    pose proof (urlparse_app url s Hurl Hs) as Happ.
    destruct (Urllib.urlparse url) as [parsed|]; [|by rewrite Happ].
    destruct Happ as (_ & _ & q & f & ->). done. }
  split_and!.
  - intros url s1 s2 Hurl Hs1 Hs2. by rewrite !Hsame.
  - intros url normalized. unfold normalize_url. rewrite Hparse, Hunparse.
    destruct (Urllib.urlparse url) as [parsed|] eqn:Hp; simpl; [|done].
    intros [= <-]. apply urlparse_plain in Hp as (? & ? & ? & ?).
    by apply urlunparse_plain.
  - intros url parsed Hp Hne. unfold normalize_url. rewrite Hp. simpl.
    eexists. split; [reflexivity|]. rewrite Hparse in Hp |- *. rewrite Hunparse.
    by apply (urlparse_urlunparse url).
  - intros url. unfold normalize_url. by destruct (urlparse url).
Qed.

End normalizer.

(** *** C8 *)

(** For the seed https://example.com the target domain is example.com.
    The URL https://example.com:443/a has this host, and so has
    https://EXAMPLE.com/a, but their netlocs are not the seed's: the
    filter answers false for both. *)
Lemma same_host_is_out_of_scope :
  let self := Site.scraper_for 1000 in
  __init__ (E := Site.web) "https://example.com" 1000 = Some self
  ∧ domain self = "example.com"%string
  ∧ hostname (domain self) = Some "example.com"%string
  ∧ urlparse (Externals := Site.web) "https://example.com:443/a"
    = Some (mkParseResult "https" "example.com:443" "/a" "" "" "")
  ∧ hostname "example.com:443" = Some "example.com"%string
  ∧ is_valid_url (E := Site.web) self "https://example.com:443/a" = Some false
  ∧ urlparse (Externals := Site.web) "https://EXAMPLE.com/a"
    = Some (mkParseResult "https" "EXAMPLE.com" "/a" "" "" "")
  ∧ hostname "EXAMPLE.com" = Some "example.com"%string
  ∧ is_valid_url (E := Site.web) self "https://EXAMPLE.com/a" = Some false.
Proof. vm_compute. done. Qed.

(** *** C9 *)

(** [urlparse] raises on an authority with an unmatched bracket, and so
    does [normalize_url].  In http:////example.com/x?q [urlparse] finds
    no netloc and the path //example.com/x; the normalized URL is
    http://example.com/x, in which the host is example.com and the path
    is /x. *)
Lemma normalize_url_can_fail_and_can_move_the_host :
  normalize_url (E := Site.web) "http://[" = None
  ∧ urlparse (Externals := Site.web) "http:////example.com/x?q"
    = Some (mkParseResult "http" "" "//example.com/x" "" "q" "")
  ∧ normalize_url (E := Site.web) "http:////example.com/x?q"
    = Some "http://example.com/x"%string
  ∧ urlparse (Externals := Site.web) "http://example.com/x"
    = Some (mkParseResult "http" "example.com" "/x" "" "" "").
Proof. vm_compute. done. Qed.

Lemma normalize_url_drops_query_and_fragment_witness :
  urlparse (Externals := Site.web) = Urllib.urlparse
  ∧ urlunparse (Externals := Site.web) = Urllib.urlunparse
  ∧ (∀ url s1 s2,
       Urllib.plain url → Urllib.query_fragment s1 → Urllib.query_fragment s2 →
       normalize_url (E := Site.web) (url +:+ s1)
       = normalize_url (E := Site.web) (url +:+ s2))
  ∧ (∀ url normalized,
       normalize_url (E := Site.web) url = Some normalized → Urllib.plain normalized)
  ∧ (∀ url parsed,
       urlparse (Externals := Site.web) url = Some parsed →
       netloc parsed ≠ EmptyString →
       ∃ normalized,
         normalize_url (E := Site.web) url = Some normalized
         ∧ urlparse (Externals := Site.web) normalized
           = Some (mkParseResult (scheme parsed) (netloc parsed) (path parsed)
                     (params parsed) EmptyString EmptyString))
  ∧ (∀ url, normalize_url (E := Site.web) url = None
            ↔ urlparse (Externals := Site.web) url = None).
Proof.
  split; [reflexivity|]. split; [reflexivity|].
  apply (normalize_url_drops_query_and_fragment (E := Site.web) eq_refl eq_refl).
Defined.

(** The normalized form of a URL of the site with a port, parameters, a
    query and a fragment, and what [urlparse] finds in it. *)
Example site_round_trip :
  urlparse (Externals := Site.web) "HTTPS://example.com:8080/a/b;p?q#f"
  = Some (mkParseResult "https" "example.com:8080" "/a/b" "p" "q" "f")
  ∧ normalize_url (E := Site.web) "HTTPS://example.com:8080/a/b;p?q#f"
    = Some "https://example.com:8080/a/b;p"%string
  ∧ urlparse (Externals := Site.web) "https://example.com:8080/a/b;p"
    = Some (mkParseResult "https" "example.com:8080" "/a/b" "p" "" "").
Proof. vm_compute. done. Qed.
